(** * lftools-uv: the OpenStack cleanup utilities and the INFO.yaml vote check

    A shallow embedding of
    - [lftools_uv/openstack/cluster.py] (module [Cluster]),
    - [check_votes] of [lftools_uv/cli/infofile.py] (module [Infofile]),
    - [get_committers] and [create_info_file] of the same file (modules
      [GetCommitters] and [CreateInfoFile]),
    - the server, volume and image cleanup pipeline (module [Janitor]),
    together with the Python string operations they use (module [PyStr]).

    Calls to the outside (HTTP, the OpenStack SDK, Gerrit, GitHub, the file
    system) are functions of an explicit world state; every function returns
    the events it caused, how it ended, and the world it left. *)

From Stdlib Require Import String Ascii List Bool Arith ZArith QArith Lia.
From Stdlib Require Import DecimalString.
Import ListNotations.
Local Close Scope Q_scope.
Local Open Scope list_scope.
Local Open Scope string_scope.

(* ================================================================= *)
(** ** Python strings *)

Module PyStr.

(** [needle in hay] *)
Fixpoint contains (needle hay : string) : bool :=
  String.prefix needle hay ||
  match hay with
  | EmptyString => false
  | String _ rest => contains needle rest
  end.

(** [sep.join(parts)] *)
Definition join (sep : string) (parts : list string) : string :=
  String.concat sep parts.

(** [str.isspace] on one character; characters are code points below 256. *)
Definition isspace (c : ascii) : bool :=
  let n := nat_of_ascii c in
  (((9 <=? n) && (n <=? 13)) || ((28 <=? n) && (n <=? 32))
   || (n =? 133) || (n =? 160))%nat.

(** [s.split()]: the maximal runs of characters that are not white space. *)
Fixpoint split (s : string) : list string :=
  match s with
  | EmptyString => []
  | String c rest =>
      if isspace c then split rest
      else
        match rest with
        | EmptyString => [String c EmptyString]
        | String c' _ =>
            if isspace c' then String c EmptyString :: split rest
            else
              match split rest with
              | w :: ws => String c w :: ws
              | [] => [String c EmptyString]
              end
        end
  end.

Fixpoint lstrip_by (drop : ascii -> bool) (s : string) : string :=
  match s with
  | EmptyString => EmptyString
  | String c rest => if drop c then lstrip_by drop rest else s
  end.

Fixpoint rstrip_by (drop : ascii -> bool) (s : string) : string :=
  match s with
  | EmptyString => EmptyString
  | String c rest =>
      match rstrip_by drop rest with
      | EmptyString => if drop c then EmptyString else String c EmptyString
      | kept => String c kept
      end
  end.

(** [s.strip()] *)
Definition strip (s : string) : string := rstrip_by isspace (lstrip_by isspace s).

(** [s.rstrip(ch)] for a one-character [ch] *)
Definition rstrip (ch : ascii) (s : string) : string := rstrip_by (Ascii.eqb ch) s.

(** [s.split(sep)] for a one-character [sep]: never the empty list. *)
Fixpoint split_on (sep : ascii) (s : string) : list string :=
  match s with
  | EmptyString => [EmptyString]
  | String c rest =>
      if Ascii.eqb c sep then EmptyString :: split_on sep rest
      else
        match split_on sep rest with
        | w :: ws => String c w :: ws
        | [] => [String c EmptyString]
        end
  end.

(** [l[-k]] for k >= 1 *)
Definition from_end {A : Type} (l : list A) (k : nat) : option A :=
  nth_error (rev l) (k - 1).

(** [str(n)] for a natural number *)
Definition of_nat (n : nat) : string := NilZero.string_of_uint (Nat.to_uint n).

(** truth value of a string: non-empty *)
Definition truthy (s : string) : bool :=
  match s with EmptyString => false | _ => true end.

Definition all_space (s : string) : bool :=
  forallb isspace (list_ascii_of_string s).

Definition space_free (s : string) : bool :=
  forallb (fun c => negb (isspace c)) (list_ascii_of_string s).

End PyStr.

(* ================================================================= *)
(** ** JSON values as Python sees them after [response.json()] *)

Module PyJson.

(** A parsed JSON document.  A [JDict] lists its fields, one binding per key.
    Numbers are kept as integers: the code below never computes with one. *)
#[local] Unset Elimination Schemes.
Inductive json : Type :=
| JNull
| JBool (b : bool)
| JInt (n : Z)
| JStr (s : string)
| JList (items : list json)
| JDict (fields : list (string * json)).
#[local] Set Elimination Schemes.

(** Evaluation of an expression: a value, or a raised exception (its text). *)
Inductive res (A : Type) : Type :=
| Val (a : A)
| Exc (msg : string).
Arguments Val {A} a.
Arguments Exc {A} msg.

Definition bind {A B : Type} (r : res A) (k : A -> res B) : res B :=
  match r with
  | Val a => k a
  | Exc msg => Exc msg
  end.

Definition type_name (v : json) : string :=
  match v with
  | JNull => "NoneType"
  | JBool _ => "bool"
  | JInt _ => "int"
  | JStr _ => "str"
  | JList _ => "list"
  | JDict _ => "dict"
  end.

Definition dquote : string := String (ascii_of_nat 34) EmptyString.

Fixpoint lookup (key : string) (fields : list (string * json)) : option json :=
  match fields with
  | [] => None
  | (k, v) :: rest => if String.eqb k key then Some v else lookup key rest
  end.

(** [v.get(key, default)] *)
Definition get (v : json) (key : string) (default : json) : res json :=
  match v with
  | JDict fields =>
      match lookup key fields with
      | Some x => Val x
      | None => Val default
      end
  | _ => Exc ("'" ++ type_name v ++ "' object has no attribute 'get'")
  end.

Fixpoint chars (s : string) : list json :=
  match s with
  | EmptyString => []
  | String c rest => JStr (String c EmptyString) :: chars rest
  end.

(** the items [for x in v] runs through *)
Definition iter (v : json) : res (list json) :=
  match v with
  | JList items => Val items
  | JDict fields => Val (map (fun kv => JStr (fst kv)) fields)
  | JStr s => Val (chars s)
  | _ => Exc ("'" ++ type_name v ++ "' object is not iterable")
  end.

Definition as_int (v : json) : option Z :=
  match v with
  | JInt n => Some n
  | JBool b => Some (if b then 1%Z else 0%Z)
  | _ => None
  end.

(** [a + b] *)
Definition add (a b : json) : res json :=
  match a, b with
  | JList x, JList y => Val (JList (x ++ y)%list)
  | JList _, _ =>
      Exc ("can only concatenate list (not " ++ dquote ++ type_name b
           ++ dquote ++ ") to list")
  | JStr x, JStr y => Val (JStr (x ++ y))
  | JStr _, _ =>
      Exc ("can only concatenate str (not " ++ dquote ++ type_name b
           ++ dquote ++ ") to str")
  | _, _ =>
      match as_int a, as_int b with
      | Some m, Some n => Val (JInt (m + n))
      | _, _ =>
          Exc ("unsupported operand type(s) for +: '" ++ type_name a
               ++ "' and '" ++ type_name b ++ "'")
      end
  end.

(** truth value *)
Definition truthy (v : json) : bool :=
  match v with
  | JNull => false
  | JBool b => b
  | JInt n => negb (Z.eqb n 0)
  | JStr s => PyStr.truthy s
  | JList items => match items with [] => false | _ => true end
  | JDict fields => match fields with [] => false | _ => true end
  end.

(** [v != s] for a string literal [s] *)
Definition differs_from_str (v : json) (s : string) : bool :=
  match v with
  | JStr t => negb (String.eqb t s)
  | _ => true
  end.

(** the receiver of a [str] method *)
Definition str_method (v : json) (method : string) : res string :=
  match v with
  | JStr s => Val s
  | _ => Exc ("'" ++ type_name v ++ "' object has no attribute '" ++ method ++ "'")
  end.

End PyJson.

(* ================================================================= *)
(** ** [lftools_uv/openstack/cluster.py] *)

Module Cluster.
Import PyJson.

(** The exception classes the handlers of [cleanup] tell apart. *)
Inductive exn : Type :=
| OpenStackCloudException (msg : string)
| AttributeError (msg : string)
| OtherException (msg : string).

Inductive result (A : Type) : Type :=
| Ok (a : A)
| Raise (e : exn).
Arguments Ok {A} a.
Arguments Raise {A} e.

(** What [requests.get] followed by [response.json()] can give. *)
Inductive body : Type :=
| InvalidJson (err : string)
| Json (data : json).

Inductive http_result : Type :=
| Response (status_code : nat) (content : body)
| RaiseTimeout
| RaiseRequestException (msg : string)
| RaiseException (msg : string).

Record coe_cluster : Type := { name : string; uuid : string }.

(** The outside world: Jenkins over HTTP and the OpenStack SDK. *)
Record Env (W : Type) : Type := {
  requests_get : string -> W -> http_result * W;
  from_config : string -> W -> result unit * W;
  list_coe_clusters : W -> result (list coe_cluster) * W;
  delete_coe_cluster : string -> W -> result bool * W
}.
Arguments requests_get {W} _ _ _.
Arguments from_config {W} _ _ _.
Arguments list_coe_clusters {W} _ _.
Arguments delete_coe_cluster {W} _ _ _.

Inductive event : Type :=
| Print (line : string)
| RequestsGet (url : string)
| FromConfig (cloud : string)
| ListCoeClusters
| DeleteCoeCluster (cluster_name : string).

(** How a call of [cleanup] ends. *)
Inductive termination : Type :=
| Returns
| SysExit (code : Z)
| Uncaught (e : exn).

(** The exit status of the process when [cleanup] is the command run. *)
Definition exit_status (t : termination) : Z :=
  match t with
  | Returns => 0
  | SysExit code => code
  | Uncaught _ => 1
  end.

Record run (W : Type) : Type := {
  trace : list event;
  status : termination;
  world : W
}.
Arguments trace {W} _.
Arguments status {W} _.
Arguments world {W} _.

Definition params : string :=
  "tree=computer[executors[currentExecutable[url]],oneOffExecutors[currentExecutable[url]]]"
  ++ "&xpath=//url&wrapper=builds".

Definition slash : ascii := "/"%char.

(** The body of the innermost loop of [_fetch_jenkins_builds]: the
    identifiers appended for one executor, or the exception raised. *)
Definition executor_builds (silo : string) (executor : json) : res (list string) :=
  bind (get executor "currentExecutable" (JDict [])) (fun current_exec =>
  bind (get current_exec "url" JNull) (fun url =>
  if truthy url && differs_from_str url "null" then
    bind (str_method url "rstrip") (fun u =>
    let parts := PyStr.split_on slash (PyStr.rstrip slash u) in
    if (2 <=? List.length parts)%nat then
      match PyStr.from_end parts 2, PyStr.from_end parts 1 with
      | Some job_name, Some build_num =>
          Val [silo ++ "-" ++ job_name ++ "-" ++ build_num]
      | _, _ => Val []
      end
    else Val [])
  else Val [])).

(** A [for] loop whose body appends to [builds] and may raise: what was
    appended before the loop ended, and the exception that ended it. *)
Fixpoint for_each {A : Type} (body : A -> res (list string)) (items : list A)
  : list string * option string :=
  match items with
  | [] => ([], None)
  | x :: rest =>
      match body x with
      | Exc msg => ([], Some msg)
      | Val appended =>
          let (more, raised) := for_each body rest in
          ((appended ++ more)%list, raised)
      end
  end.

Definition computer_builds (silo : string) (computer : json)
  : list string * option string :=
  match
    bind (get computer "executors" (JList [])) (fun executors =>
    bind (get computer "oneOffExecutors" (JList [])) (fun one_off =>
    bind (add executors one_off) iter))
  with
  | Exc msg => ([], Some msg)
  | Val executors => for_each (executor_builds silo) executors
  end.

Fixpoint for_computers (silo : string) (computers : list json)
  : list string * option string :=
  match computers with
  | [] => ([], None)
  | computer :: rest =>
      match computer_builds silo computer with
      | (appended, Some msg) => (appended, Some msg)
      | (appended, None) =>
          let (more, raised) := for_computers silo rest in
          ((appended ++ more)%list, raised)
      end
  end.

Definition data_builds (silo : string) (data : json)
  : list string * option string :=
  match bind (get data "computer" (JList [])) iter with
  | Exc msg => ([], Some msg)
  | Val computers => for_computers silo computers
  end.

Definition silo_of (jenkins : string) : string :=
  if PyStr.contains "jenkins." jenkins
     && (PyStr.contains ".org" jenkins || PyStr.contains ".io" jenkins)
  then "production"
  else match PyStr.from_end (PyStr.split_on slash jenkins) 1 with
       | Some last => last
       | None => EmptyString
       end.

Section WithWorld.
Context {W : Type} (env : Env W).

(** One turn of the loop of [_fetch_jenkins_builds]: the events, the
    identifiers appended to [builds], and the world afterwards.  Whatever is
    raised inside the [try] meets one of its handlers, the last of which is
    [except Exception]: a turn prints and goes on, it never raises. *)
Definition fetch_one (jenkins : string) (w : W)
  : list event * list string * W :=
  let jenkins := PyStr.rstrip slash jenkins in
  let jenkins_url := jenkins ++ "/computer/api/json?" ++ params in
  match requests_get env jenkins_url w with
  | (Response status_code content, w1) =>
      if negb (status_code =? 200)%nat then
        ([RequestsGet jenkins_url;
          Print ("ERROR: Failed to fetch data from " ++ jenkins_url
                 ++ " with status code " ++ PyStr.of_nat status_code)],
         [], w1)
      else
        let silo := silo_of jenkins in
        match content with
        | InvalidJson err =>
            ([RequestsGet jenkins_url;
              Print ("ERROR: Failed to parse JSON from " ++ jenkins_url
                     ++ ": " ++ err)],
             [], w1)
        | Json data =>
            match data_builds silo data with
            | (appended, None) => ([RequestsGet jenkins_url], appended, w1)
            | (appended, Some msg) =>
                ([RequestsGet jenkins_url;
                  Print ("ERROR: Unexpected error fetching from "
                         ++ jenkins_url ++ ": " ++ msg)],
                 appended, w1)
            end
        end
  | (RaiseTimeout, w1) =>
      ([RequestsGet jenkins_url;
        Print ("ERROR: Timeout fetching data from " ++ jenkins_url)],
       [], w1)
  | (RaiseRequestException msg, w1) =>
      ([RequestsGet jenkins_url;
        Print ("ERROR: Request failed for " ++ jenkins_url ++ ": " ++ msg)],
       [], w1)
  | (RaiseException msg, w1) =>
      ([RequestsGet jenkins_url;
        Print ("ERROR: Unexpected error fetching from " ++ jenkins_url
               ++ ": " ++ msg)],
       [], w1)
  end.

Fixpoint _fetch_jenkins_builds (jenkins_urls : list string) (w : W)
  : list event * list string * W :=
  match jenkins_urls with
  | [] => ([], [], w)
  | jenkins :: rest =>
      let '(ev1, builds1, w1) := fetch_one jenkins w in
      let '(ev2, builds2, w2) := _fetch_jenkins_builds rest w1 in
      ((ev1 ++ ev2)%list, (builds1 ++ builds2)%list, w2)
  end.

Definition _cluster_in_jenkins (cluster_name : string)
  (jenkins_builds : list string) : bool :=
  PyStr.contains cluster_name (PyStr.join " " jenkins_builds).

Definition is_managed (cluster_name : string) : bool :=
  PyStr.contains "-managed-prod-k8s-" cluster_name
  || PyStr.contains "-managed-test-k8s-" cluster_name.

(** What precedes the outcome of a delete call in the trace. *)
Definition deleting (cluster_name : string) : list event :=
  [Print ("INFO: Deleting orphaned k8s cluster: " ++ cluster_name);
   DeleteCoeCluster cluster_name].

(** The [for cluster_name in cluster_names] loop of [cleanup]: the events,
    then either the final [deleted_count] or the exception that left the
    loop, and the world afterwards. *)
Fixpoint delete_orphans (cluster_names active_builds : list string)
  (deleted_count : nat) (w : W) : list event * (nat + exn) * W :=
  match cluster_names with
  | [] => ([], inl deleted_count, w)
  | cluster_name :: rest =>
      if is_managed cluster_name then
        let '(ev, r, w') := delete_orphans rest active_builds deleted_count w in
        (Print ("INFO: Skipping managed cluster: " ++ cluster_name) :: ev, r, w')
      else if _cluster_in_jenkins cluster_name active_builds then
        let '(ev, r, w') := delete_orphans rest active_builds deleted_count w in
        (Print ("INFO: Cluster " ++ cluster_name
                ++ " is in use by active build, skipping") :: ev, r, w')
      else
        match delete_coe_cluster env cluster_name w with
        | (Ok _, w1) =>
            let '(ev, r, w') :=
              delete_orphans rest active_builds (S deleted_count) w1 in
            ((deleting cluster_name
              ++ Print ("INFO: Successfully deleted cluster: " ++ cluster_name)
              :: ev)%list, r, w')
        | (Raise (OpenStackCloudException msg), w1) =>
            let '(ev, r, w') :=
              delete_orphans rest active_builds deleted_count w1 in
            ((deleting cluster_name
              ++ Print ("ERROR: Failed to delete cluster " ++ cluster_name
                        ++ ": " ++ msg)
              :: ev)%list, r, w')
        | (Raise e, w1) => (deleting cluster_name, inr e, w1)
        end
  end.

Definition not_supported : list event :=
  [Print "ERROR: COE cluster operations not supported by this OpenStack SDK version";
   Print "Please ensure openstacksdk >= 4.0.0 is installed"].

(** The two handlers of the outer [try] of [cleanup]. *)
Definition handle (e : exn) : list event * termination :=
  match e with
  | OpenStackCloudException msg =>
      ([Print ("ERROR: Failed to list clusters: " ++ msg)], SysExit 1)
  | AttributeError _ => (not_supported, SysExit 1)
  | OtherException _ => ([], Uncaught e)
  end.

Definition parse_jenkins_urls (jenkins_urls : option string) : list string :=
  match jenkins_urls with
  | None => []
  | Some s =>
      if PyStr.truthy s then
        map PyStr.strip
          (filter (fun url => PyStr.truthy (PyStr.strip url)) (PyStr.split s))
      else []
  end.

Definition cleanup (os_cloud : string) (jenkins_urls : option string) (w : W)
  : run W :=
  let jenkins_url_list := parse_jenkins_urls jenkins_urls in
  match jenkins_url_list with
  | [] =>
      {| trace := [Print "WARN: No Jenkins URLs provided, skipping cluster cleanup to be safe"];
         status := Returns; world := w |}
  | _ :: _ =>
      let ev0 :=
        [Print ("INFO: Checking Jenkins URLs for active builds: "
                ++ PyStr.join " " jenkins_url_list)] in
      let '(ev1, active_builds, w1) := _fetch_jenkins_builds jenkins_url_list w in
      let ev2 :=
        [Print ("INFO: Found " ++ PyStr.of_nat (List.length active_builds)
                ++ " active builds in Jenkins");
         FromConfig os_cloud] in
      match from_config env os_cloud w1 with
      | (Raise e, w2) =>
          {| trace := (ev0 ++ ev1 ++ ev2)%list; status := Uncaught e; world := w2 |}
      | (Ok _, w2) =>
          match list_coe_clusters env w2 with
          | (Raise e, w3) =>
              let (ev, t) := handle e in
              {| trace := (ev0 ++ ev1 ++ ev2 ++ ListCoeClusters :: ev)%list;
                 status := t; world := w3 |}
          | (Ok clusters, w3) =>
              let cluster_names := map name clusters in
              let ev3 :=
                [ListCoeClusters;
                 Print ("INFO: Found " ++ PyStr.of_nat (List.length cluster_names)
                        ++ " COE clusters on cloud " ++ os_cloud)] in
              match delete_orphans cluster_names active_builds 0 w3 with
              | (ev4, inl deleted_count, w4) =>
                  {| trace :=
                       (ev0 ++ ev1 ++ ev2 ++ ev3 ++ ev4
                        ++ [Print ("INFO: Deleted " ++ PyStr.of_nat deleted_count
                                   ++ " orphaned cluster(s)")])%list;
                     status := Returns; world := w4 |}
              | (ev4, inr e, w4) =>
                  let (ev, t) := handle e in
                  {| trace := (ev0 ++ ev1 ++ ev2 ++ ev3 ++ ev4 ++ ev)%list;
                     status := t; world := w4 |}
              end
          end
      end
  end.

(** The part of [cleanup] before its loop: the active builds, the cluster
    names and the world with which the loop starts, when the run gets there. *)
Definition loop_entry (os_cloud : string) (jenkins_urls : option string) (w : W)
  : option (list string * list string * W) :=
  match parse_jenkins_urls jenkins_urls with
  | [] => None
  | jenkins_url_list =>
      let '(_, active_builds, w1) := _fetch_jenkins_builds jenkins_url_list w in
      match from_config env os_cloud w1 with
      | (Raise _, _) => None
      | (Ok _, w2) =>
          match list_coe_clusters env w2 with
          | (Raise _, _) => None
          | (Ok clusters, w3) => Some (active_builds, map name clusters, w3)
          end
      end
  end.

(** A fetch that adds nothing to [builds]: a status other than 200, a body
    that is not JSON, or a raised exception. *)
Definition fetch_fails (r : http_result) : bool :=
  match r with
  | Response status_code content =>
      negb (status_code =? 200)%nat
      || match content with InvalidJson _ => true | Json _ => false end
  | RaiseTimeout | RaiseRequestException _ | RaiseException _ => true
  end.

Definition api_url (jenkins : string) : string :=
  PyStr.rstrip slash jenkins ++ "/computer/api/json?" ++ params.

(** Every fetch of a run of [_fetch_jenkins_builds] fails. *)
Fixpoint all_fetches_fail (jenkins_urls : list string) (w : W) : bool :=
  match jenkins_urls with
  | [] => true
  | jenkins :: rest =>
      let (r, w1) := requests_get env (api_url jenkins) w in
      fetch_fails r && all_fetches_fail rest w1
  end.

End WithWorld.

(** The names [cleanup] asked the cloud to delete, in order. *)
Fixpoint delete_calls (events : list event) : list string :=
  match events with
  | [] => []
  | DeleteCoeCluster cluster_name :: rest => cluster_name :: delete_calls rest
  | _ :: rest => delete_calls rest
  end.

(** Whether an event is a call to the cloud provider. *)
Definition contacts_cloud (e : event) : bool :=
  match e with
  | FromConfig _ | ListCoeClusters | DeleteCoeCluster _ => true
  | Print _ | RequestsGet _ => false
  end.

Definition is_warning (e : event) : bool :=
  match e with
  | Print line => String.prefix "WARN:" line
  | _ => false
  end.

(** A cluster [cleanup] deletes: not managed, not in use. *)
Definition orphaned (active_builds : list string) (cluster_name : string) : bool :=
  negb (PyStr.contains "-managed-prod-k8s-" cluster_name)
  && negb (PyStr.contains "-managed-test-k8s-" cluster_name)
  && negb (PyStr.contains cluster_name (PyStr.join " " active_builds)).

End Cluster.

(* ================================================================= *)
(** ** [check_votes] of [lftools_uv/cli/infofile.py] *)

Module Infofile.

(** One entry of [committers] in an INFO.yaml file: a mapping. *)
Definition committer : Type := list (string * string).

(** What [open(info_file)] and [yaml.safe_load] give. *)
Inductive load_result : Type :=
| OpenFails (msg : string)
| YamlError (msg : string)
| Loaded (committers : option (list committer)).

(** One entry of Gerrit's [changes/<n>/reviewers]. *)
Record reviewer : Type := {
  username : option string;
  approvals : option (list (string * string))
}.

Inductive result (A : Type) : Type :=
| Ok (a : A)
| Raise (exception : string).
Arguments Ok {A} a.
Arguments Raise {A} exception.

(** The outside world: the file system, Gerrit, and [prvotes] of
    [lftools_uv.github_helper]. *)
Record Env (W : Type) : Type := {
  load_info : string -> W -> load_result * W;
  gerrit_reviewers : string -> Z -> W -> result (list reviewer) * W;
  prvotes : string -> string -> Z -> W -> result (list string) * W
}.
Arguments load_info {W} _ _ _.
Arguments gerrit_reviewers {W} _ _ _ _.
Arguments prvotes {W} _ _ _ _ _.

Inductive logged : Type :=
| Text (s : string)
| Number (n : nat)
| Names (l : list string).

Inductive event : Type :=
| OpenInfo (info_file : string)
| GerritGet (endpoint : string) (change_number : Z)
| PrVotes (organization repo : string) (change_number : Z)
| LogInfo (what : logged)
| LogError (what : string).

Inductive termination : Type :=
| Returns
| SysExit (code : Z)
| Uncaught (exception : string).

Definition exit_status (t : termination) : Z :=
  match t with
  | Returns => 0
  | SysExit code => code
  | Uncaught _ => 1
  end.

Record run (W : Type) : Type := {
  trace : list event;
  status : termination;
  world : W
}.
Arguments trace {W} _.
Arguments status {W} _.
Arguments world {W} _.

(** truth value of an optional string argument ([None] and [''] are false) *)
Definition given (o : option string) : bool :=
  match o with
  | Some s => PyStr.truthy s
  | None => false
  end.

Fixpoint assoc (key : string) (d : list (string * string)) : option string :=
  match d with
  | [] => None
  | (k, v) :: rest => if String.eqb k key then Some v else assoc key rest
  end.

(** [item in l] for a list of strings *)
Definition mem (item : string) (l : list string) : bool :=
  existsb (String.eqb item) l.

(** The loop over [changes] of the Gerrit branch: the user names appended to
    [info_change], or the [KeyError] raised. *)
Fixpoint gerrit_votes (changes : list reviewer) : result (list string) :=
  match changes with
  | [] => Ok []
  | change :: rest =>
      match username change with
      | None => Raise "KeyError: 'username'"
      | Some user =>
          match approvals change with
          | None => Raise "KeyError: 'approvals'"
          | Some labels =>
              match assoc "Code-Review" labels with
              | None => Raise "KeyError: 'Code-Review'"
              | Some code_review =>
                  match gerrit_votes rest with
                  | Raise e => Raise e
                  | Ok more =>
                      if PyStr.contains "+1" code_review
                         || PyStr.contains "+2" code_review
                      then Ok (user :: more)
                      else Ok more
                  end
              end
          end
      end
  end.

(** The loop over [committer_info]: [info_committers]. *)
Fixpoint committer_ids (id : string) (committer_info : list committer)
  : result (list string) :=
  match committer_info with
  | [] => Ok []
  | item :: rest =>
      match assoc id item with
      | None => Raise ("KeyError: '" ++ id ++ "'")
      | Some c =>
          match committer_ids id rest with
          | Raise e => Raise e
          | Ok more => Ok (c :: more)
          end
      end
  end.

Definition have_voted (info_committers info_change : list string) : list string :=
  filter (fun item => mem item info_change) info_committers.

Definition have_not_voted (info_committers info_change : list string) : list string :=
  filter (fun item => negb (mem item info_change)) info_committers.

(** [have_voted_length / committer_length], for a non-empty committer list.
    The quotient of two list lengths and 0.5 compare in floating point as they
    do here, the lengths being far below 2^53. *)
Definition majority (have_voted_length committer_length : nat) : Q :=
  Qmake (Z.of_nat have_voted_length) (Pos.of_nat committer_length).

Definition half : Q := Qmake 1 2.

(** The two tests of [main] that let a stage pass: someone voted, and the
    majority is at least one half. *)
Definition majority_reached (info_committers info_change : list string) : bool :=
  let have_voted_length :=
    List.length (have_voted info_committers info_change) in
  negb (have_voted_length =? 0)%nat
  && Qle_bool half (majority have_voted_length (List.length info_committers)).

Definition tally_log (info_committers info_change : list string) : list event :=
  [LogInfo (Text "Number of Committers:");
   LogInfo (Number (List.length info_committers));
   LogInfo (Text "Committers that have voted:");
   LogInfo (Names (have_voted info_committers info_change));
   LogInfo (Number (List.length (have_voted info_committers info_change)));
   LogInfo (Text "Committers that have not voted:");
   LogInfo (Names (have_not_voted info_committers info_change));
   LogInfo (Number (List.length (have_not_voted info_committers info_change)))].

Section WithWorld.
Context {W : Type} (env : Env W).

(** The repository name when [github_repo] is true. *)
Definition repo_of (github_repo : option string) : option string :=
  match github_repo with
  | Some repo => if PyStr.truthy repo then Some repo else None
  | None => None
  end.

(** The first half of [main]: read the file, collect the votes, list the
    committers.  [Loaded None] is a document without [committers]. *)
Definition gather (info_file endpoint : string) (change_number : Z)
  (github_repo : option string) (w : W)
  : list event * result (list string * list string) * W :=
  match load_info env info_file w with
  | (OpenFails msg, w1) => ([OpenInfo info_file], Raise msg, w1)
  | (YamlError msg, w1) =>
      ([OpenInfo info_file; LogError msg],
       Raise "UnboundLocalError: cannot access local variable 'info_data'", w1)
  | (Loaded None, w1) => ([OpenInfo info_file], Raise "KeyError: 'committers'", w1)
  | (Loaded (Some committer_info), w1) =>
      match repo_of github_repo with
      | Some repo =>
          match prvotes env endpoint repo change_number w1 with
          | (Raise e, w2) =>
              ([OpenInfo info_file; PrVotes endpoint repo change_number],
               Raise e, w2)
          | (Ok info_change, w2) =>
              ([OpenInfo info_file; PrVotes endpoint repo change_number],
               match committer_ids "github_id" committer_info with
               | Raise e => Raise e
               | Ok info_committers => Ok (info_committers, info_change)
               end, w2)
          end
      | None =>
          match gerrit_reviewers env endpoint change_number w1 with
          | (Raise e, w2) =>
              ([OpenInfo info_file; GerritGet endpoint change_number],
               Raise e, w2)
          | (Ok changes, w2) =>
              ([OpenInfo info_file; GerritGet endpoint change_number],
               match gerrit_votes changes with
               | Raise e => Raise e
               | Ok info_change =>
                   match committer_ids "id" committer_info with
                   | Raise e => Raise e
                   | Ok info_committers => Ok (info_committers, info_change)
                   end
               end, w2)
          end
      end
  end.

(** [main]; [fuel] bounds the depth of the recursion, and [None] means that
    the bound was reached. *)
Fixpoint main (fuel : nat) (info_file endpoint : string) (change_number : Z)
  (tsc github_repo : option string) (majority_of_committers : nat) (w : W)
  : option (run W) :=
  match fuel with
  | O => None
  | S fuel' =>
      match gather info_file endpoint change_number github_repo w with
      | (ev, Raise e, w1) =>
          Some {| trace := ev; status := Uncaught e; world := w1 |}
      | (ev, Ok (info_committers, info_change), w1) =>
          let ev := (ev ++ tally_log info_committers info_change)%list in
          let have_voted_length :=
            List.length (have_voted info_committers info_change) in
          let committer_length := List.length info_committers in
          if (have_voted_length =? 0)%nat then
            Some {| trace := (ev ++ [LogInfo (Text "No one has voted:")])%list;
                    status := SysExit 1; world := w1 |}
          else if Qle_bool half (majority have_voted_length committer_length) then
            let ev := (ev ++ [LogInfo (Text "Majority committer vote reached")])%list in
            match tsc with
            | Some tsc_file =>
                if PyStr.truthy tsc_file then
                  let ev := (ev ++ [LogInfo (Text "Need majority of tsc")])%list in
                  let majority_of_committers := S majority_of_committers in
                  if (majority_of_committers =? 2)%nat then
                    Some {| trace :=
                              (ev ++ [LogInfo
                                        (Text "TSC majority reached auto merging commit")])%list;
                            status := Returns; world := w1 |}
                  else
                    match main fuel' tsc_file endpoint change_number tsc
                            github_repo majority_of_committers w1 with
                    | None => None
                    | Some r =>
                        Some {| trace := (ev ++ trace r)%list;
                                status := status r; world := world r |}
                    end
                else Some {| trace := ev; status := Returns; world := w1 |}
            | None => Some {| trace := ev; status := Returns; world := w1 |}
            end
          else
            Some {| trace := (ev ++ [LogInfo (Text "majority not yet reached")])%list;
                    status := SysExit 1; world := w1 |}
      end
  end.

Definition check_votes (fuel : nat) (info_file endpoint : string)
  (change_number : Z) (tsc github_repo : option string) (w : W)
  : option (run W) :=
  main fuel info_file endpoint change_number tsc github_repo 0 w.

End WithWorld.

(** The files [main] opened, in order: one per call of [main]. *)
Fixpoint opened (events : list event) : list string :=
  match events with
  | [] => []
  | OpenInfo info_file :: rest => info_file :: opened rest
  | _ :: rest => opened rest
  end.

Definition logs (events : list event) (text : string) : bool :=
  existsb (fun e => match e with
                    | LogInfo (Text s) => String.eqb s text
                    | _ => false
                    end) events.

End Infofile.

(* ================================================================= *)
(** ** The cleanup pipeline of servers, volumes and images *)

Module Janitor.

(** Modelled from the spec: the resource kinds whose cleanup modules
    ([server.py], [volume.py], [image.py]) are missing. *)
Inductive kind : Type := Server | Volume | Image.

(** Modelled from the spec: the visibility of an image. *)
Inductive visibility : Type := Private | Public | Shared | Community.

(** Modelled from the spec: the attributes only images have. *)
Record image_fields : Type := {
  owner : string;
  image_visibility : visibility;
  is_protected : bool
}.

(** Modelled from the spec: the modules [lftools_uv/openstack/server.py],
    [volume.py] and [image.py] are missing; this is the ResourceDescriptor of
    the data model, the creation time already parsed to seconds, and the
    image-only attributes present exactly on images. *)
Record ResourceDescriptor : Type := {
  name : string;
  id : string;
  created_at : Z;
  image : option image_fields
}.

(** Modelled from the spec: the per-resource results of the missing cleanup
    modules, with the boolean delete failure as a skip of its own. *)
Inductive CleanupOutcome : Type :=
| deleted
| skipped_duplicate_name
| skipped_failed
| skipped_policy
| error (cause : string).

(** Modelled from the spec: what the Lister of the missing modules gets from
    the provider: the resources, a provider error, or an unsupported
    operation. *)
Inductive listing : Type :=
| Listed (resources : list ResourceDescriptor)
| ProviderError (msg : string)
| Unsupported.

(** Modelled from the spec: what a delete call of the missing modules gives:
    a boolean, or a raised error with its text. *)
Inductive delete_result : Type :=
| Returned (success : bool)
| Raised (msg : string).

(** Modelled from the spec: the provider calls of the missing modules: the
    clock, the project-info lookup, listing, lookup of one resource, and
    deletion. *)
Record Env (W : Type) : Type := {
  now : W -> Z;
  project_info : W -> string * W;
  list_resources : kind -> W -> listing * W;
  get_resource : kind -> string -> W -> option ResourceDescriptor * W;
  delete_resource : kind -> ResourceDescriptor -> W -> delete_result * W
}.
Arguments now {W} _ _.
Arguments project_info {W} _ _.
Arguments list_resources {W} _ _ _.
Arguments get_resource {W} _ _ _ _.
Arguments delete_resource {W} _ _ _ _.

(** Modelled from the spec: the severity prefixes of the output. *)
Inductive severity : Type := INFO | WARN | ERROR.

(** Modelled from the spec: the provider calls and the Reporter's lines of a
    run of the missing modules. *)
Inductive event : Type :=
| ListCall (k : kind)
| ProjectInfoCall
| GetCall (k : kind) (identifier : string)
| DeleteCall (k : kind) (r : ResourceDescriptor)
| Report (level : severity) (r : ResourceDescriptor) (o : CleanupOutcome)
| Diagnostic (level : severity) (text : string).

(** Modelled from the spec: how an operation of the missing modules ends:
    normally, by exiting with a status, or by an error that propagates. *)
Inductive termination : Type :=
| Completed
| Exits (code : Z)
| Propagates (error : string).

(** Modelled from the spec: the exit status: 0 on normal completion, 1 on
    any fatal condition. *)
Definition exit_status (t : termination) : Z :=
  match t with
  | Completed => 0
  | Exits code => code
  | Propagates _ => 1
  end.

(** Modelled from the spec: a run of the missing modules: its events, the
    outcome of each resource (the run summary counts them), its end. *)
Record run (W : Type) : Type := {
  trace : list event;
  outcomes : list (ResourceDescriptor * CleanupOutcome);
  status : termination;
  world : W
}.
Arguments trace {W} _.
Arguments outcomes {W} _.
Arguments status {W} _.
Arguments world {W} _.

Fixpoint strip_prefix (p s : string) : option string :=
  match p, s with
  | EmptyString, _ => Some s
  | String a p', String b s' => if Ascii.eqb a b then strip_prefix p' s' else None
  | String _ _, EmptyString => None
  end.

(** [s] without its last character, when that is a single quote *)
Fixpoint chop_quote (s : string) : option string :=
  match s with
  | EmptyString => None
  | String c EmptyString => if Ascii.eqb c "'"%char then Some EmptyString else None
  | String c rest => option_map (String c) (chop_quote rest)
  end.

(** Modelled from the spec: the test of the missing deleters on the text of a
    raised error, for the two duplicate-name shapes
    [Multiple matches found for <name>] and
    [More than one <Kind> exists with the name '<name>']. *)
Definition is_duplicate_name (msg : string) : bool :=
  String.prefix "Multiple matches found for " msg
  || match strip_prefix "More than one " msg with
     | Some r =>
         match chop_quote r with
         | Some middle => PyStr.contains " exists with the name '" middle
         | None => false
         end
     | None => false
     end.

(** Modelled from the spec: the two duplicate-name message shapes that the
    missing deleters skip. *)
Definition duplicate_name_shape (msg : string) : Prop :=
  (exists resource_name, msg = "Multiple matches found for " ++ resource_name)
  \/ (exists kind_name resource_name,
        msg = "More than one " ++ kind_name ++ " exists with the name '"
              ++ resource_name ++ "'").

(** Modelled from the spec: the Age predicate of the missing filters;
    a threshold of zero is no filter, and the boundary is inclusive. *)
Definition age_ok (current days : Z) (r : ResourceDescriptor) : bool :=
  (days =? 0)%Z || (days * 86400 <=? current - created_at r)%Z.

(** Modelled from the spec: the Ownership predicate (images only). *)
Definition ownership_ok (tenant : string) (r : ResourceDescriptor) : bool :=
  match image r with
  | Some f => String.eqb (owner f) tenant
  | None => true
  end.

(** Modelled from the spec: public, shared or protected. *)
Definition never_eligible (f : image_fields) : bool :=
  match image_visibility f with
  | Public | Shared => true
  | Private | Community => is_protected f
  end.

(** Modelled from the spec: the Visibility/protection predicate (images only). *)
Definition protection_ok (r : ResourceDescriptor) : bool :=
  match image r with
  | Some f => negb (never_eligible f)
  | None => true
  end.

(** Modelled from the spec: the Filter of the missing modules, the
    conjunction of the predicates that apply. *)
Definition eligible (current days : Z) (tenant : string) (r : ResourceDescriptor)
  : bool :=
  age_ok current days r && ownership_ok tenant r && protection_ok r.

Section WithWorld.
Context {W : Type} (env : Env W).

(** Modelled from the spec: the Deleter of the missing modules, one delete
    call per candidate; the error that ended it, if one did. *)
Fixpoint delete_all (k : kind) (candidates : list ResourceDescriptor) (w : W)
  : list event * list (ResourceDescriptor * CleanupOutcome) * option string * W :=
  match candidates with
  | [] => ([], [], None, w)
  | r :: rest =>
      match delete_resource env k r w with
      | (Returned true, w1) =>
          let '(ev, out, raised, w') := delete_all k rest w1 in
          (DeleteCall k r :: Report INFO r deleted :: ev,
           (r, deleted) :: out, raised, w')
      | (Returned false, w1) =>
          let '(ev, out, raised, w') := delete_all k rest w1 in
          (DeleteCall k r :: Report WARN r skipped_failed :: ev,
           (r, skipped_failed) :: out, raised, w')
      | (Raised msg, w1) =>
          if is_duplicate_name msg then
            let '(ev, out, raised, w') := delete_all k rest w1 in
            (DeleteCall k r :: Report WARN r skipped_duplicate_name :: ev,
             (r, skipped_duplicate_name) :: out, raised, w')
          else
            ([DeleteCall k r; Report ERROR r (error msg)],
             [(r, error msg)], Some msg, w1)
      end
  end.

(** Modelled from the spec: the resources the Filter leaves out, each with
    the outcome skipped-policy. *)
Definition policy_skips (keep : ResourceDescriptor -> bool)
  (resources : list ResourceDescriptor)
  : list (ResourceDescriptor * CleanupOutcome) :=
  map (fun r => (r, skipped_policy)) (filter (fun r => negb (keep r)) resources).

(** Modelled from the spec: [cleanup] of the missing modules: list, filter,
    delete, report. *)
Definition cleanup (k : kind) (days : Z) (w : W) : run W :=
  match list_resources env k w with
  | (ProviderError msg, w1) =>
      {| trace := [ListCall k; Diagnostic ERROR msg]; outcomes := [];
         status := Exits 1; world := w1 |}
  | (Unsupported, w1) =>
      {| trace := [ListCall k; Diagnostic ERROR "not supported: upgrade the SDK"];
         outcomes := []; status := Exits 1; world := w1 |}
  | (Listed resources, w1) =>
      let '(ev_tenant, tenant, w2) :=
        match k with
        | Image => let (t, w') := project_info env w1 in ([ProjectInfoCall], t, w')
        | Server | Volume => ([], EmptyString, w1)
        end in
      let keep := eligible (now env w2) days tenant in
      let '(ev, out, raised, w3) := delete_all k (filter keep resources) w2 in
      {| trace := (ListCall k :: ev_tenant ++ ev)%list;
         outcomes := (policy_skips keep resources ++ out)%list;
         status := match raised with
                   | None => Completed
                   | Some msg => Propagates msg
                   end;
         world := w3 |}
  end.

(** The part of [cleanup] before the Deleter: the candidates and the world
    with which it starts, when the listing succeeds. *)
Definition deleter_entry (k : kind) (days : Z) (w : W)
  : option (list ResourceDescriptor * W) :=
  match list_resources env k w with
  | (Listed resources, w1) =>
      let '(tenant, w2) :=
        match k with
        | Image => project_info env w1
        | Server | Volume => (EmptyString, w1)
        end in
      Some (filter (eligible (now env w2) days tenant) resources, w2)
  | _ => None
  end.

(** Modelled from the spec: [remove] of the missing server and volume
    modules.  The spec does not say what a failing delete call does here; the
    error is left to propagate. *)
Definition remove (k : kind) (identifier : string) (minutes : Z) (w : W) : run W :=
  match get_resource env k identifier w with
  | (None, w1) =>
      {| trace := [GetCall k identifier; Diagnostic ERROR "not found"];
         outcomes := []; status := Exits 1; world := w1 |}
  | (Some r, w1) =>
      if negb (minutes =? 0)%Z && (now env w1 - created_at r <? minutes * 60)%Z then
        {| trace := [GetCall k identifier]; outcomes := [(r, skipped_policy)];
           status := Completed; world := w1 |}
      else
        match delete_resource env k r w1 with
        | (Returned success, w2) =>
            {| trace := [GetCall k identifier; DeleteCall k r];
               outcomes := [(r, if success then deleted else skipped_failed)];
               status := Completed; world := w2 |}
        | (Raised msg, w2) =>
            {| trace := [GetCall k identifier; DeleteCall k r];
               outcomes := [(r, error msg)];
               status := Propagates msg; world := w2 |}
        end
  end.

End WithWorld.

(** The resources a run asked the provider to delete, in order. *)
Fixpoint delete_calls (events : list event) : list ResourceDescriptor :=
  match events with
  | [] => []
  | DeleteCall _ r :: rest => r :: delete_calls rest
  | _ :: rest => delete_calls rest
  end.

Definition is_skip (o : CleanupOutcome) : bool :=
  match o with
  | skipped_duplicate_name | skipped_failed | skipped_policy => true
  | deleted | error _ => false
  end.

Definition is_duplicate_skip (o : CleanupOutcome) : bool :=
  match o with
  | skipped_duplicate_name => true
  | _ => false
  end.

(** The run summary: how many resources ended with an outcome in [which]. *)
Definition count (which : CleanupOutcome -> bool)
  (out : list (ResourceDescriptor * CleanupOutcome)) : nat :=
  List.length (filter (fun ro => which (snd ro)) out).

End Janitor.

(* ================================================================= *)
(** ** Concrete worlds *)

Module Examples.
Import PyJson.

Definition cluster (cluster_name : string) : Cluster.coe_cluster :=
  {| Cluster.name := cluster_name; Cluster.uuid := EmptyString |}.

(** A cloud with the clusters [names], behind a Jenkins that answers every
    request with [jenkins]; every delete call ends as [deletion]. *)
Definition cloud (jenkins : Cluster.http_result) (names : list string)
  (deletion : Cluster.result bool) : Cluster.Env unit :=
  {| Cluster.requests_get := fun _ w => (jenkins, w);
     Cluster.from_config := fun _ w => (Cluster.Ok tt, w);
     Cluster.list_coe_clusters := fun w => (Cluster.Ok (map cluster names), w);
     Cluster.delete_coe_cluster := fun _ w => (deletion, w) |}.

(** One executor, busy with build 123 of [active-job]. *)
Definition one_build : json :=
  JDict [("computer",
          JList [JDict [("executors",
                         JList [JDict [("currentExecutable",
                                        JDict [("url",
                                                JStr "https://jenkins.example.org/job/active-job/123/")])]]);
                        ("oneOffExecutors", JList [])]])].

Definition three_clusters : list string :=
  ["orphaned-1"; "x-managed-prod-k8s-y"; "active-job-123"].

(** A provider holding [resources] at time [clock], for the tenant [tenant];
    a delete call for [r] ends as [deletion r]. *)
Definition provider (resources : list Janitor.ResourceDescriptor) (clock : Z)
  (tenant : string) (deletion : Janitor.ResourceDescriptor -> Janitor.delete_result)
  : Janitor.Env unit :=
  {| Janitor.now := fun _ => clock;
     Janitor.project_info := fun w => (tenant, w);
     Janitor.list_resources := fun _ w => (Janitor.Listed resources, w);
     Janitor.get_resource := fun _ identifier w =>
       (find (fun r => String.eqb (Janitor.name r) identifier
                       || String.eqb (Janitor.id r) identifier) resources, w);
     Janitor.delete_resource := fun _ r w => (deletion r, w) |}.

(** A provider that finds two servers named [foo]. *)
Definition foo_is_duplicated (r : Janitor.ResourceDescriptor)
  : Janitor.delete_result :=
  if String.eqb (Janitor.name r) "foo"
  then Janitor.Raised "More than one Server exists with the name 'foo'"
  else Janitor.Returned true.

(** A provider that fails on [foo] for a reason of its own. *)
Definition foo_is_broken (r : Janitor.ResourceDescriptor)
  : Janitor.delete_result :=
  if String.eqb (Janitor.name r) "foo"
  then Janitor.Raised "Unexpected error"
  else Janitor.Returned true.

Definition plain (resource_name identifier : string) (created : Z)
  : Janitor.ResourceDescriptor :=
  {| Janitor.name := resource_name; Janitor.id := identifier;
     Janitor.created_at := created; Janitor.image := None |}.

Definition image_of (resource_name : string) (created : Z) (tenant : string)
  (v : Janitor.visibility) (protected : bool) : Janitor.ResourceDescriptor :=
  {| Janitor.name := resource_name; Janitor.id := resource_name;
     Janitor.created_at := created;
     Janitor.image := Some {| Janitor.owner := tenant;
                              Janitor.image_visibility := v;
                              Janitor.is_protected := protected |} |}.

(** INFO.yaml committers with the given ids. *)
Definition committers_of (ids : list string) : list Infofile.committer :=
  map (fun i => [("name", i); ("id", i)]) ids.

Definition review (user approval : string) : Infofile.reviewer :=
  {| Infofile.username := Some user;
     Infofile.approvals := Some [("Code-Review", approval)] |}.

(** A Gerrit with the reviews [reviews] on every change, and a file system
    where the file [f] lists the committers [files f]. *)
Definition gerrit (files : string -> list string)
  (reviews : list Infofile.reviewer) : Infofile.Env unit :=
  {| Infofile.load_info := fun f w =>
       (Infofile.Loaded (Some (committers_of (files f))), w);
     Infofile.gerrit_reviewers := fun _ _ w => (Infofile.Ok reviews, w);
     Infofile.prvotes := fun _ _ _ w => (Infofile.Ok [], w) |}.

Definition project_files (f : string) : list string :=
  if String.eqb f "TSC.yaml" then ["t1"; "t2"; "t3"] else ["a"; "b"; "c"; "d"].

End Examples.

(* ================================================================= *)
(** ** More of [cluster.py]: [list_clusters], and what a trace shows *)

Module ClusterMore.
Import PyJson Cluster.

(** The URLs [requests.get] was called with, in order. *)
Fixpoint requested (events : list event) : list string :=
  match events with
  | [] => []
  | RequestsGet url :: rest => url :: requested rest
  | _ :: rest => requested rest
  end.

(** The lines printed, in order. *)
Fixpoint printed (events : list event) : list string :=
  match events with
  | [] => []
  | Print line :: rest => line :: printed rest
  | _ :: rest => printed rest
  end.

(** The line [cleanup] prints after a delete call that returned. *)
Definition is_success (e : event) : bool :=
  match e with
  | Print line => String.prefix "INFO: Successfully deleted cluster: " line
  | _ => false
  end.

Definition successes (events : list event) : nat :=
  List.length (filter is_success events).

Definition no_slash (s : string) : bool :=
  forallb (fun c => negb (Ascii.eqb slash c)) (list_ascii_of_string s).

Definition all_slash (s : string) : bool :=
  forallb (Ascii.eqb slash) (list_ascii_of_string s).

Definition no_blank (s : string) : bool :=
  forallb (fun c => negb (Ascii.eqb " " c)) (list_ascii_of_string s).

(** A [currentExecutable] that names no build: no [url], or one that is
    null, empty or the text [null]. *)
Definition no_url (current_exec : json) : bool :=
  match current_exec with
  | JDict fields =>
      match lookup "url" fields with
      | None | Some JNull => true
      | Some (JStr s) => String.eqb s EmptyString || String.eqb s "null"
      | Some _ => false
      end
  | _ => false
  end.

(** An executor record without [currentExecutable], or with one that names
    no build. *)
Definition quiet (executor : json) : bool :=
  match executor with
  | JDict fields =>
      match lookup "currentExecutable" fields with
      | None => true
      | Some current_exec => no_url current_exec
      end
  | _ => false
  end.

(** An executor record as Jenkins writes one for the build at [url]. *)
Definition busy (url : string) : json :=
  JDict [("currentExecutable", JDict [("url", JStr url)])].

(** An executor record as Jenkins writes one for an executor at rest. *)
Definition idle : json := JDict [("currentExecutable", JNull)].

Definition first_computer : json :=
  JDict [("executors", JList [busy "https://jenkins.example.org/job/first/1/"]);
         ("oneOffExecutors", JList [])].

Definition second_computer : json :=
  JDict [("executors",
          JList [busy "https://jenkins.example.org/job/second/2/"; idle;
                 busy "https://jenkins.example.org/job/third/3/"]);
         ("oneOffExecutors",
          JList [busy "https://jenkins.example.org/job/fourth/4/"])].

Definition third_computer : json :=
  JDict [("executors", JList [busy "https://jenkins.example.org/job/fifth/5/"]);
         ("oneOffExecutors", JList [])].

(** Three computers, the second with an executor at rest between two busy
    ones. *)
Definition half_idle : json :=
  JDict [("computer", JList [first_computer; second_computer; third_computer])].

Section WithWorld.
Context {W : Type} (env : Env W).

(** [list_clusters] *)
Definition list_clusters (os_cloud : string) (w : W) : run W :=
  match from_config env os_cloud w with
  | (Raise e, w1) =>
      {| trace := [FromConfig os_cloud]; status := Uncaught e; world := w1 |}
  | (Ok _, w1) =>
      match list_coe_clusters env w1 with
      | (Ok clusters, w2) =>
          {| trace := (FromConfig os_cloud :: ListCoeClusters
                       :: map (fun cluster => Print (name cluster)) clusters)%list;
             status := Returns; world := w2 |}
      | (Raise (OpenStackCloudException msg), w2) =>
          {| trace := [FromConfig os_cloud; ListCoeClusters;
                       Print ("ERROR: Failed to list clusters: " ++ msg)];
             status := SysExit 1; world := w2 |}
      | (Raise (AttributeError _), w2) =>
          {| trace := (FromConfig os_cloud :: ListCoeClusters :: not_supported)%list;
             status := SysExit 1; world := w2 |}
      | (Raise e, w2) =>
          {| trace := [FromConfig os_cloud; ListCoeClusters];
             status := Uncaught e; world := w2 |}
      end
  end.

End WithWorld.

(** One delete call as the cloud saw it: the name it was given and what it
    answered. *)
Definition answer : Type := (string * result bool)%type.

(** A delete call that returned: the cloud deleted the cluster. *)
Definition returned (a : answer) : bool :=
  match snd a with
  | Ok _ => true
  | Raise _ => false
  end.

(** A delete call that raised an [OpenStackCloudException]. *)
Definition refused (a : answer) : bool :=
  match snd a with
  | Raise (OpenStackCloudException _) => true
  | _ => false
  end.

(** The clusters the cloud deleted, in the order of the calls. *)
Definition deleted (answers : list answer) : list string :=
  map fst (filter returned answers).

Section Recording.
Context {W : Type} (env : Env W).

(** The cloud [env] keeping a record of the delete calls it receives: the
    world is that of [env] together with the calls answered so far.  Every
    call is passed on to [env] and answered as [env] answers it. *)
Definition recording : Env (W * list answer) :=
  {| requests_get := fun url s =>
       let (r, w1) := requests_get env url (fst s) in (r, (w1, snd s));
     from_config := fun cloud s =>
       let (r, w1) := from_config env cloud (fst s) in (r, (w1, snd s));
     list_coe_clusters := fun s =>
       let (r, w1) := list_coe_clusters env (fst s) in (r, (w1, snd s));
     delete_coe_cluster := fun cluster_name s =>
       let (r, w1) := delete_coe_cluster env cluster_name (fst s) in
       (r, (w1, (snd s ++ [(cluster_name, r)])%list)) |}.

End Recording.

End ClusterMore.

(* ================================================================= *)
(** ** More of [check_votes]: what a trace shows *)

Module InfofileMore.
Import Infofile.

(** Whether an event is a call to Gerrit or to GitHub. *)
Definition asks_for_votes (e : event) : bool :=
  match e with
  | GerritGet _ _ | PrVotes _ _ _ => true
  | _ => false
  end.

(** A file [main] cannot go on with: it does not open, it is not YAML, or it
    has no [committers]. *)
Definition unusable (l : load_result) : bool :=
  match l with
  | Loaded (Some _) => false
  | _ => true
  end.

(** The key [main] reads in every committer. *)
Definition id_key (github_repo : option string) : string :=
  match repo_of github_repo with
  | Some _ => "github_id"
  | None => "id"
  end.

(** The one call [main] makes for the votes. *)
Definition vote_call (endpoint : string) (change_number : Z)
  (github_repo : option string) : event :=
  match repo_of github_repo with
  | Some repo => PrVotes endpoint repo change_number
  | None => GerritGet endpoint change_number
  end.

(** A GitHub whose pull requests all have the approvals [votes], and a file
    system where the file [f] lists committers with the GitHub names
    [files f]. *)
Definition github (files : string -> list string) (votes : list string)
  : Env unit :=
  {| load_info := fun f w =>
       (Loaded (Some (map (fun i => [("name", i); ("github_id", i)]) (files f))), w);
     gerrit_reviewers := fun _ _ w => (Raise "ConnectionError", w);
     prvotes := fun _ _ _ w => (Ok votes, w) |}.

(** A file system without readable INFO files. *)
Definition no_files (l : load_result) : Env unit :=
  {| load_info := fun _ w => (l, w);
     gerrit_reviewers := fun _ _ w => (Ok [], w);
     prvotes := fun _ _ _ w => (Ok [], w) |}.

End InfofileMore.

(* ================================================================= *)
(** ** More operations on loaded values *)

Module PyJsonMore.
Import PyJson.

(** [v[key]] for a text key *)
Definition subscript (v : json) (key : string) : res json :=
  match v with
  | JDict fields =>
      match lookup key fields with
      | Some x => Val x
      | None => Exc ("KeyError: '" ++ key ++ "'")
      end
  | JStr _ => Exc "TypeError: string indices must be integers, not 'str'"
  | JList _ => Exc "TypeError: list indices must be integers or slices, not str"
  | _ => Exc ("TypeError: '" ++ type_name v ++ "' object is not subscriptable")
  end.

(** [v == s] for a text [s] *)
Definition equals_str (v : json) (s : string) : bool :=
  negb (differs_from_str v s).

(** [key in v] for a text [key] *)
Definition py_in (key : string) (v : json) : res bool :=
  match v with
  | JDict fields =>
      Val (match lookup key fields with Some _ => true | None => false end)
  | JList items => Val (existsb (fun item => equals_str item key) items)
  | JStr s => Val (PyStr.contains key s)
  | _ => Exc ("TypeError: argument of type '" ++ type_name v
              ++ "' is not iterable")
  end.

End PyJsonMore.

(* ================================================================= *)
(** ** [get_committers] of [lftools_uv/cli/infofile.py] *)

Module GetCommitters.
Import PyJson PyJsonMore.

(** What [open(file)] and [yaml.safe_load] give.  A loaded document is kept
    as a [json] value: mappings with text keys, sequences, text, integers,
    booleans and null. *)
Inductive load_result : Type :=
| OpenFails (exception : string)
| YamlError (exception : string)
| Loaded (project : json).

(** The outside world: the file system. *)
Record Env (W : Type) : Type := {
  safe_load : string -> W -> load_result * W
}.
Arguments safe_load {W} _ _ _.

(** [Print template value] is [print(template.format(value))]. *)
Inductive event : Type :=
| OpenFile (file : string)
| Print (template : string) (value : json).

Inductive termination : Type :=
| Returns
| Uncaught (exception : string).

Definition exit_status (t : termination) : Z :=
  match t with
  | Returns => 0
  | Uncaught _ => 1
  end.

Record run (W : Type) : Type := {
  trace : list event;
  status : termination;
  world : W
}.
Arguments trace {W} _.
Arguments status {W} _.
Arguments world {W} _.

(** truth value of the [--full] option, which is absent, [True] or [False] *)
Definition on (full : option bool) : bool :=
  match full with
  | Some b => b
  | None => false
  end.

(** truth value of the [--id] option *)
Definition given (id : option string) : bool :=
  match id with
  | Some s => PyStr.truthy s
  | None => false
  end.

(** [print_committer_info]: the lines printed, then whether it returned. *)
Definition print_committer_info (committer : json) (full : bool)
  : list event * res unit :=
  if full then
    match subscript committer "name" with
    | Exc e => ([], Exc e)
    | Val name =>
        match subscript committer "email" with
        | Exc e => ([Print "    - name: {}" name], Exc e)
        | Val email =>
            match subscript committer "id" with
            | Exc e =>
                ([Print "    - name: {}" name; Print "      email: {}" email],
                 Exc e)
            | Val id =>
                ([Print "    - name: {}" name; Print "      email: {}" email;
                  Print "      id: {}" id], Val tt)
            end
        end
    end
  else
    match subscript committer "id" with
    | Exc e => ([], Exc e)
    | Val id => ([Print "      id: {}" id], Val tt)
    end.

(** The loop [for item in lookup] of [list_committers]. *)
Fixpoint for_items (full : bool) (id : option string) (items : list json)
  : list event * res unit :=
  match items with
  | [] => ([], Val tt)
  | item :: rest =>
      if given id then
        match subscript item "id" with
        | Exc e => ([], Exc e)
        | Val v =>
            if equals_str v (match id with Some s => s | None => EmptyString end)
            then print_committer_info item full
            else for_items full id rest
        end
      else
        match print_committer_info item full with
        | (ev, Exc e) => (ev, Exc e)
        | (ev, Val _) =>
            let (more, r) := for_items full id rest in ((ev ++ more)%list, r)
        end
  end.

(** [list_committers] *)
Definition list_committers (full : bool) (id : option string) (project : json)
  : list event * res unit :=
  match get project "committers" (JList []) with
  | Exc msg => ([], Exc ("AttributeError: " ++ msg))
  | Val lookup =>
      match iter lookup with
      | Exc msg => ([], Exc ("TypeError: " ++ msg))
      | Val items => for_items full id items
      end
  end.

Section WithWorld.
Context {W : Type} (env : Env W).

(** [get_committers] *)
Definition get_committers (file : string) (full : option bool)
  (id : option string) (w : W) : run W :=
  match safe_load env file w with
  | (OpenFails e, w1) =>
      {| trace := [OpenFile file]; status := Uncaught e; world := w1 |}
  | (YamlError e, w1) =>
      {| trace := [OpenFile file]; status := Uncaught e; world := w1 |}
  | (Loaded project, w1) =>
      match list_committers (on full) id project with
      | (ev, Exc e) =>
          {| trace := OpenFile file :: ev; status := Uncaught e; world := w1 |}
      | (ev, Val _) =>
          {| trace := OpenFile file :: ev; status := Returns; world := w1 |}
      end
  end.

End WithWorld.

(** What a run printed, in order. *)
Fixpoint printed (events : list event) : list (string * json) :=
  match events with
  | [] => []
  | Print template value :: rest => (template, value) :: printed rest
  | _ :: rest => printed rest
  end.

(** A committer entry with the three keys [get_committers] reads. *)
Definition complete (item : json) : bool :=
  match item with
  | JDict fields =>
      match lookup "name" fields, lookup "email" fields, lookup "id" fields with
      | Some _, Some _, Some _ => true
      | _, _, _ => false
      end
  | _ => false
  end.

(** [item[key]] where the key is there. *)
Definition field (item : json) (key : string) : json :=
  match subscript item key with
  | Val v => v
  | Exc _ => JNull
  end.

(** The lines of a committer entry that has the three keys. *)
Definition lines (full : bool) (item : json) : list event :=
  if full
  then [Print "    - name: {}" (field item "name");
        Print "      email: {}" (field item "email");
        Print "      id: {}" (field item "id")]
  else [Print "      id: {}" (field item "id")].

(** A committer entry with an id other than [id]. *)
Definition other_id (id : string) (item : json) : bool :=
  match subscript item "id" with
  | Val v => negb (equals_str v id)
  | Exc _ => false
  end.

(** A committer entry as an INFO.yaml file has them. *)
Definition entry (name email id : string) : json :=
  JDict [("name", JStr name); ("email", JStr email); ("company", JStr "ACME");
         ("id", JStr id); ("timezone", JStr "UTC")].

(** A file system where every file holds [project]. *)
Definition holding (project : json) : Env unit :=
  {| safe_load := fun _ w => (Loaded project, w) |}.

Definition info_yaml : json :=
  JDict [("project", JStr "example");
         ("committers",
          JList [entry "Ada" "ada@example.org" "ada";
                 entry "Bob" "bob@example.org" "bob";
                 JStr "not an entry";
                 entry "Bob the second" "bob2@example.org" "bob"])].

End GetCommitters.

(* ================================================================= *)
(** ** [create_info_file] of [lftools_uv/cli/infofile.py] *)

Module CreateInfoFile.
Import PyJson PyJsonMore.

Inductive result (A : Type) : Type :=
| Ok (a : A)
| Raise (exception : string).
Arguments Ok {A} a.
Arguments Raise {A} exception.

(** The outside world: the settings of [lftools_uv.config], Gerrit's REST
    interface, the clock, and [helper_yaml4info] of [lftools_uv.ldap_cli];
    [cleandoc] is [inspect.cleandoc]. *)
Record Env (W : Type) : Type := {
  get_setting : string -> string -> W -> result string * W;
  rest_get : string -> string -> string -> string -> W -> result json * W;
  today : W -> string * W;
  helper_yaml4info : string -> W -> result json * W;
  cleandoc : string -> string
}.
Arguments get_setting {W} _ _ _ _.
Arguments rest_get {W} _ _ _ _ _ _.
Arguments today {W} _ _.
Arguments helper_yaml4info {W} _ _ _.
Arguments cleandoc {W} _ _.

(** [Print text] is [print(text)], [PrintValue label value] is
    [print(label, value)], and [Write value] is [print(value, end='')]. *)
Inductive event : Type :=
| GetSetting (section option : string)
| RestGet (url endpoint : string)
| Today
| Yaml4Info (ldap_group : string)
| Print (text : string)
| PrintValue (label : string) (value : json)
| Write (value : json).

Inductive termination : Type :=
| Returns
| Uncaught (exception : string).

Record run (W : Type) : Type := {
  trace : list event;
  status : termination;
  world : W
}.
Arguments trace {W} _.
Arguments status {W} _.
Arguments world {W} _.

Definition nl : string := String (ascii_of_nat 10) EmptyString.

(** [s.replace(old, new)] for a one-character [old] *)
Fixpoint replace (old : ascii) (new : string) (s : string) : string :=
  match s with
  | EmptyString => EmptyString
  | String c rest =>
      if Ascii.eqb c old then new ++ replace old new rest
      else String c (replace old new rest)
  end.

Definition projectid_encoded (gerrit_project : string) : string :=
  replace "/" "%2F" gerrit_project.

Definition project_underscored (gerrit_project : string) : string :=
  replace "-" "_" (replace "/" "_" gerrit_project).

Definition project_dashed (gerrit_project : string) : string :=
  replace "_" "-" (project_underscored gerrit_project).

(** [gerrit_url.split(".")[1]] *)
Definition umbrella_of (gerrit_url : string) : res string :=
  match nth_error (PyStr.split_on "." gerrit_url) 1 with
  | Some segment => Val segment
  | None => Exc "IndexError: list index out of range"
  end.

(** What follows the first dot of [s]. *)
Fixpoint after_dot (s : string) : option string :=
  match s with
  | EmptyString => None
  | String c rest => if Ascii.eqb c "." then Some rest else after_dot rest
  end.

(** What [.*] matches at the start of [s]: everything up to a line feed. *)
Fixpoint first_line (s : string) : string :=
  match s with
  | EmptyString => EmptyString
  | String c rest =>
      if Ascii.eqb c (ascii_of_nat 10) then EmptyString
      else String c (first_line rest)
  end.

(** [re.search(r"(?<=\.).*", gerrit_url).group(0)] *)
Definition umbrella_tld_of (gerrit_url : string) : res string :=
  match after_dot gerrit_url with
  | Some rest => Val (first_line rest)
  | None => Exc "AttributeError: 'NoneType' object has no attribute 'group'"
  end.

(** What [[^=]+(?=,)] matches at the start of [s]: the longest run of
    characters other than [=] that a comma follows. *)
Fixpoint match_here (s : string) : option string :=
  match s with
  | EmptyString => None
  | String c rest =>
      if Ascii.eqb c "=" then None
      else
        match match_here rest with
        | Some m => Some (String c m)
        | None =>
            match rest with
            | String d _ =>
                if Ascii.eqb d "," then Some (String c EmptyString) else None
            | EmptyString => None
            end
        end
  end.

(** [re.search(r"[^=]+(?=,)", x)]: the match that starts first. *)
Fixpoint search (x : string) : option string :=
  match match_here x with
  | Some m => Some m
  | None =>
      match x with
      | EmptyString => None
      | String _ rest => search rest
      end
  end.

(** The part of [create_info_file] under [if "inherits_from" in result]. *)
Definition check_inherits (result : json) : list event * res unit :=
  match py_in "inherits_from" result with
  | Exc e => ([], Exc e)
  | Val false => ([], Val tt)
  | Val true =>
      match bind (subscript result "inherits_from")
                 (fun parent => subscript parent "id") with
      | Exc e => ([], Exc e)
      | Val inherits =>
          if differs_from_str inherits "All-Projects"
          then ([PrintValue "    Inherits from:" inherits;
                 Print "Better Check this unconventional inherit"], Val tt)
          else ([], Val tt)
      end
  end.

(** [result["local"]["refs/*"]["permissions"]["owner"]["rules"]] *)
Definition owner_rules (result : json) : res json :=
  bind (subscript result "local") (fun a =>
  bind (subscript a "refs/*") (fun b =>
  bind (subscript b "permissions") (fun c =>
  bind (subscript c "owner") (fun d =>
  subscript d "rules")))).

(** The loop [for x in owner]: the last value of [ldap_group]. *)
Fixpoint owner_groups (items : list json) (ldap_group : option string)
  : res (option string) :=
  match items with
  | [] => Val ldap_group
  | x :: rest =>
      match x with
      | JStr s =>
          match search s with
          | Some group => owner_groups rest (Some group)
          | None =>
              Exc "AttributeError: 'NoneType' object has no attribute 'group'"
          end
      | _ =>
          Exc ("TypeError: expected string or bytes-like object, got '"
               ++ type_name x ++ "'")
      end
  end.

(** The owner part of [create_info_file]: the [try] around the owner rules,
    then the loop over them; a failed [try] leaves [owner] unbound. *)
Definition check_owner (result : json) : list event * res (option string) :=
  match owner_rules result with
  | Exc _ =>
      ([Print "ERROR: Check project config, no owner set!"],
       Exc "UnboundLocalError: cannot access local variable 'owner' where it is not associated with a value")
  | Val owner =>
      match iter owner with
      | Exc msg => ([], Exc ("TypeError: " ++ msg))
      | Val items => ([], owner_groups items None)
      end
  end.

Definition short_name (umbrella : string) : string :=
  if String.eqb umbrella "o-ran-sc" then "oran"
  else if String.eqb umbrella "opendaylight" then "odl"
  else umbrella.

Definition ldap_group_of (umbrella project_dashed : string) : string :=
  umbrella ++ "-gerrit-" ++ project_dashed ++ "-committers".

Definition long_string (project_underscored date umbrella umbrella_tld : string)
  : string :=
  String.concat nl
    ["---";
     "project: '" ++ project_underscored ++ "'";
     "project_creation_date: '" ++ date ++ "'";
     "project_category: ''";
     "lifecycle_state: 'Incubation'";
     "project_lead: &" ++ umbrella ++ "_" ++ project_underscored ++ "_ptl";
     "    name: ''";
     "    email: ''";
     "    id: ''";
     "    company: ''";
     "    timezone: ''";
     "primary_contact: *" ++ umbrella ++ "_" ++ project_underscored ++ "_ptl";
     "issue_tracking:";
     "    type: 'jira'";
     "    url: 'https://jira." ++ umbrella_tld ++ "/projects/'";
     "    key: '" ++ project_underscored ++ "'";
     "mailing_list:";
     "    type: 'groups.io'";
     "    url: 'technical-discuss@lists." ++ umbrella_tld ++ "'";
     "    tag: '[]'";
     "realtime_discussion:";
     "    type: 'irc'";
     "    server: 'freenode.net'";
     "    channel: '#" ++ umbrella ++ "'";
     "meetings:";
     "    - type: 'gotomeeting+irc'";
     "      agenda: 'https://wiki." ++ umbrella_tld ++ "/display/'";
     "      url: ''";
     "      server: 'freenode.net'";
     "      channel: '#" ++ umbrella ++ "'";
     "      repeats: ''";
     "      time: ''"].

Definition tsc_string (tsc_approval : string) : string :=
  nl ++ String.concat nl
    ["tsc:";
     "    # yamllint disable rule:line-length";
     "    approval: '" ++ tsc_approval ++ "'";
     "    changes:";
     "        - type: ''";
     "          name: ''";
     "          link: ''"] ++ nl.

Definition empty_committer : string :=
  String.concat nl
    ["    - name: ''";
     "      email: ''";
     "      company: ''";
     "      id: ''"] ++ nl.

Section WithWorld.
Context {W : Type} (env : Env W).

(** The part of [create_info_file] under [if not empty], up to the loop
    over the owner rules. *)
Definition ask_gerrit (url projectid_encoded : string) (w : W)
  : list event * res unit * W :=
  match get_setting env "gerrit" "username" w with
  | (Raise e, w1) => ([GetSetting "gerrit" "username"], Exc e, w1)
  | (Ok user, w1) =>
      match get_setting env "gerrit" "password" w1 with
      | (Raise e, w2) =>
          ([GetSetting "gerrit" "username"; GetSetting "gerrit" "password"],
           Exc e, w2)
      | (Ok pass1, w2) =>
          let access_str := "projects/" ++ projectid_encoded ++ "/access" in
          let ev :=
            [GetSetting "gerrit" "username"; GetSetting "gerrit" "password";
             RestGet url access_str] in
          match rest_get env url user pass1 access_str w2 with
          | (Raise e, w3) => (ev, Exc e, w3)
          | (Ok result, w3) =>
              match check_inherits result with
              | (ev1, Exc e) => ((ev ++ ev1)%list, Exc e, w3)
              | (ev1, Val _) =>
                  match check_owner result with
                  | (ev2, Exc e) => ((ev ++ ev1 ++ ev2)%list, Exc e, w3)
                  | (ev2, Val _) => ((ev ++ ev1 ++ ev2)%list, Val tt, w3)
                  end
              end
          end
      end
  end.

(** The rest of [create_info_file], from the renaming of the umbrella on. *)
Definition write_info (gerrit_project : string) (empty : bool)
  (tsc_approval umbrella umbrella_tld : string) (w : W)
  : list event * termination * W :=
  let umbrella := short_name umbrella in
  let (date, w1) := today env w in
  let ldap_group := ldap_group_of umbrella (project_dashed gerrit_project) in
  let ev :=
    [Today;
     Print (long_string (project_underscored gerrit_project) date umbrella
              umbrella_tld);
     Print "repositories:";
     Print ("    - " ++ gerrit_project);
     Print "committers:";
     Print ("    - <<: *" ++ umbrella ++ "_" ++ project_underscored gerrit_project
            ++ "_ptl")] in
  let last := [Print (cleandoc env (tsc_string tsc_approval))] in
  if negb empty then
    match helper_yaml4info env ldap_group w1 with
    | (Raise e, w2) => ((ev ++ [Yaml4Info ldap_group])%list, Uncaught e, w2)
    | (Ok this, w2) =>
        ((ev ++ [Yaml4Info ldap_group; Write this] ++ last)%list, Returns, w2)
    end
  else ((ev ++ [Write (JStr empty_committer)] ++ last)%list, Returns, w1).

(** [create_info_file] *)
Definition create_info_file (gerrit_url gerrit_project directory : string)
  (empty : bool) (tsc_approval : string) (w : W) : run W :=
  let url := "https://" ++ gerrit_url ++ "/" ++ directory in
  match bind (umbrella_of gerrit_url) (fun umbrella =>
        bind (umbrella_tld_of gerrit_url) (fun umbrella_tld =>
        Val (umbrella, umbrella_tld))) with
  | Exc e => {| trace := []; status := Uncaught e; world := w |}
  | Val (umbrella, umbrella_tld) =>
      if negb empty then
        match ask_gerrit url (projectid_encoded gerrit_project) w with
        | (ev, Exc e, w1) => {| trace := ev; status := Uncaught e; world := w1 |}
        | (ev, Val _, w1) =>
            let '(ev', t, w2) :=
              write_info gerrit_project empty tsc_approval umbrella umbrella_tld
                w1 in
            {| trace := (ev ++ ev')%list; status := t; world := w2 |}
        end
      else
        let '(ev', t, w2) :=
          write_info gerrit_project empty tsc_approval umbrella umbrella_tld w in
        {| trace := ev'; status := t; world := w2 |}
  end.

End WithWorld.

(** Whether an event is a call to the settings, to Gerrit or to LDAP. *)
Definition is_call (e : event) : bool :=
  match e with
  | GetSetting _ _ | RestGet _ _ | Yaml4Info _ => true
  | _ => false
  end.

(** Whether an event writes to the standard output. *)
Definition is_output (e : event) : bool :=
  match e with
  | Print _ | PrintValue _ _ | Write _ => true
  | _ => false
  end.

Definition no_dot (s : string) : bool :=
  forallb (fun c => negb (Ascii.eqb "." c)) (list_ascii_of_string s).

Definition one_line (s : string) : bool :=
  forallb (fun c => negb (Ascii.eqb c (ascii_of_nat 10))) (list_ascii_of_string s).

(** [s] with every character replaced by its image under [f]. *)
Fixpoint translate (f : ascii -> ascii) (s : string) : string :=
  match s with
  | EmptyString => EmptyString
  | String c rest => String (f c) (translate f rest)
  end.

Definition is_separator (c : ascii) : bool :=
  Ascii.eqb c "/" || Ascii.eqb c "-" || Ascii.eqb c "_".

(** Whether some comma of [x] follows a character other than [=]. *)
Fixpoint has_group (x : string) : bool :=
  match x with
  | EmptyString => false
  | String c rest =>
      match rest with
      | String d _ => negb (Ascii.eqb c "=") && Ascii.eqb d "," || has_group rest
      | EmptyString => false
      end
  end.

(** The access rights Gerrit returns for a project owned by one LDAP
    group. *)
Definition access_of (owner : string) : json :=
  JDict [("inherits_from", JDict [("id", JStr "All-Projects")]);
         ("local",
          JDict [("refs/*",
                  JDict [("permissions",
                          JDict [("owner",
                                  JDict [("rules",
                                          JDict [(owner,
                                                  JDict [("action",
                                                          JStr "ALLOW")])])])])])])].

(** A Gerrit that answers every access request with [access], settings that
    hold [secret] everywhere, and an LDAP that answers [members]. *)
Definition office (access : json) (members : json) : Env unit :=
  {| get_setting := fun _ _ w => (Ok "secret", w);
     rest_get := fun _ _ _ _ w => (Ok access, w);
     today := fun w => ("2024-02-29", w);
     helper_yaml4info := fun _ w => (Ok members, w);
     cleandoc := fun doc => doc |}.

End CreateInfoFile.

(* ================================================================= *)
(** ** Facts about the string operations *)

Lemma prefix_app (p s : string) : String.prefix p (p ++ s) = true.
Proof.
  induction p as [|c p IH]; simpl.
  - now destruct s.
  - destruct (ascii_dec c c) as [_|n]; [exact IH | now elim n].
Qed.

Lemma prefix_split (p s : string) :
  String.prefix p s = true -> exists t, s = p ++ t.
Proof.
  revert s; induction p as [|c p IH]; intros s H.
  - now exists s.
  - destruct s as [|d s]; simpl in H; [discriminate|].
    destruct (ascii_dec c d) as [->|]; [|discriminate].
    destruct (IH _ H) as [t ->]. now exists t.
Qed.

Lemma contains_iff (needle hay : string) :
  PyStr.contains needle hay = true <->
  exists pre post, hay = pre ++ needle ++ post.
Proof.
  split.
  - induction hay as [|c hay IH]; cbn [PyStr.contains]; intros H.
    + rewrite orb_false_r in H. destruct (prefix_split _ _ H) as [t Ht].
      now exists EmptyString, t.
    + apply orb_true_iff in H as [H|H].
      * destruct (prefix_split _ _ H) as [t Ht]. now exists EmptyString, t.
      * destruct (IH H) as (pre & post & ->). now exists (String c pre), post.
  - intros (pre & post & ->). induction pre as [|c pre IH].
    + change (EmptyString ++ needle ++ post) with (needle ++ post).
      destruct (needle ++ post) eqn:E; cbn [PyStr.contains];
        rewrite <- E, prefix_app; reflexivity.
    + change (String c pre ++ needle ++ post)
        with (String c (pre ++ needle ++ post)).
      cbn [PyStr.contains]. rewrite IH. apply orb_true_r.
Qed.

Lemma string_app_assoc (a b c : string) : (a ++ b) ++ c = a ++ b ++ c.
Proof. induction a as [|x a IH]; simpl; [reflexivity|now rewrite IH]. Qed.

Lemma split_all_space (s : string) :
  PyStr.all_space s = true -> PyStr.split s = [].
Proof.
  unfold PyStr.all_space.
  induction s as [|c s IH]; simpl; [reflexivity|].
  intros H. apply andb_true_iff in H as [Hc Hs].
  rewrite Hc. now apply IH.
Qed.

Lemma split_nil_all_space (s : string) :
  PyStr.split s = [] -> PyStr.all_space s = true.
Proof.
  unfold PyStr.all_space.
  induction s as [|c s IH]; simpl; [reflexivity|].
  destruct (PyStr.isspace c) eqn:Hc; simpl.
  - exact IH.
  - destruct s as [|c' s']; [discriminate|].
    destruct (PyStr.isspace c'); [discriminate|].
    destruct (PyStr.split (String c' s')); discriminate.
Qed.

Lemma split_cons (c : ascii) (rest : string) :
  PyStr.split (String c rest) =
  if PyStr.isspace c then PyStr.split rest
  else match rest with
       | EmptyString => [String c EmptyString]
       | String c' _ =>
           if PyStr.isspace c' then String c EmptyString :: PyStr.split rest
           else match PyStr.split rest with
                | w :: ws => String c w :: ws
                | [] => [String c EmptyString]
                end
       end.
Proof. reflexivity. Qed.

(** Every piece [split] returns is non-empty and free of white space. *)
Lemma split_words (s : string) :
  Forall (fun w => w <> EmptyString /\ PyStr.space_free w = true) (PyStr.split s).
Proof.
  induction s as [|c s IH]; [constructor|].
  rewrite split_cons.
  destruct (PyStr.isspace c) eqn:Hc; [exact IH|].
  assert (String c EmptyString <> EmptyString
          /\ PyStr.space_free (String c EmptyString) = true) as H1.
  { split; [discriminate|]. unfold PyStr.space_free. simpl. now rewrite Hc. }
  destruct s as [|c' s']; [constructor; [exact H1|constructor]|].
  destruct (PyStr.isspace c') eqn:Hc'; [now constructor|].
  destruct (PyStr.split (String c' s')) as [|w ws];
    [constructor; [exact H1|constructor]|].
  inversion IH as [|? ? [Hw1 Hw2] Hws]; subst.
  constructor; [|exact Hws].
  split; [discriminate|]. unfold PyStr.space_free in *. simpl. now rewrite Hc.
Qed.

Lemma rstrip_space_free (w : string) :
  PyStr.space_free w = true -> PyStr.rstrip_by PyStr.isspace w = w.
Proof.
  unfold PyStr.space_free.
  induction w as [|c w IH]; [reflexivity|].
  simpl. intros H. apply andb_true_iff in H as [Hc Hw].
  rewrite (IH Hw). destruct w; [|reflexivity].
  now destruct (PyStr.isspace c).
Qed.

Lemma strip_word (w : string) :
  PyStr.space_free w = true -> PyStr.strip w = w.
Proof.
  intros H. unfold PyStr.strip.
  assert (PyStr.lstrip_by PyStr.isspace w = w) as ->.
  { destruct w as [|c w]; [reflexivity|].
    unfold PyStr.space_free in H. simpl in *.
    apply andb_true_iff in H as [Hc _]. now destruct (PyStr.isspace c). }
  now apply rstrip_space_free.
Qed.

(* ================================================================= *)
(** ** Facts about [cluster.py] *)

Module ClusterFacts.
Import Cluster.

Lemma delete_calls_app (a b : list event) :
  delete_calls (a ++ b)%list = (delete_calls a ++ delete_calls b)%list.
Proof.
  induction a as [|e a IH]; [reflexivity|].
  destruct e; simpl; now rewrite IH.
Qed.

Section WithWorld.
Context {W : Type} (env : Env W).

Lemma fetch_one_no_delete (jenkins : string) (w : W) :
  delete_calls (fst (fst (fetch_one env jenkins w))) = [].
Proof.
  unfold fetch_one.
  destruct (requests_get env _ w) as [[status_code content| |msg|msg] w1];
    try reflexivity.
  destruct (negb (status_code =? 200)%nat); [reflexivity|].
  destruct content as [err|data]; [reflexivity|].
  destruct (data_builds _ data) as [appended [msg|]]; reflexivity.
Qed.

Lemma fetch_no_delete (jenkins_urls : list string) (w : W) :
  delete_calls (fst (fst (_fetch_jenkins_builds env jenkins_urls w))) = [].
Proof.
  revert w; induction jenkins_urls as [|jenkins rest IH]; intros w; [reflexivity|].
  simpl. pose proof (fetch_one_no_delete jenkins w) as H1.
  destruct (fetch_one env jenkins w) as [[ev1 builds1] w1].
  specialize (IH w1).
  destruct (_fetch_jenkins_builds env rest w1) as [[ev2 builds2] w2].
  simpl in *. now rewrite delete_calls_app, H1, IH.
Qed.

(** The loop on a concatenation: the second part runs after the first, with
    its count and its world, unless an exception left the first. *)
Lemma delete_orphans_app (pre post active : list string) (n : nat) (w : W) :
  delete_orphans env (pre ++ post)%list active n w =
  match delete_orphans env pre active n w with
  | (ev1, inl m, w1) =>
      let '(ev2, r, w2) := delete_orphans env post active m w1 in
      ((ev1 ++ ev2)%list, r, w2)
  | (ev1, inr e, w1) => (ev1, inr e, w1)
  end.
Proof.
  revert n w; induction pre as [|x pre IH]; intros n w.
  - simpl. now destruct (delete_orphans env post active n w) as [[ev2 r] w2].
  - cbn [app delete_orphans].
    destruct (is_managed x).
    { rewrite IH. destruct (delete_orphans env pre active n w) as [[ev1 [m|e]] w1];
        [destruct (delete_orphans env post active m w1) as [[ev2 r] w2]|]; reflexivity. }
    destruct (_cluster_in_jenkins x active).
    { rewrite IH. destruct (delete_orphans env pre active n w) as [[ev1 [m|e]] w1];
        [destruct (delete_orphans env post active m w1) as [[ev2 r] w2]|]; reflexivity. }
    destruct (delete_coe_cluster env x w) as [[b|[msg|msg|msg]] w0]; try reflexivity.
    + rewrite IH. destruct (delete_orphans env pre active (S n) w0) as [[ev1 [m|e]] w1];
        [destruct (delete_orphans env post active m w1) as [[ev2 r] w2]|]; reflexivity.
    + rewrite IH. destruct (delete_orphans env pre active n w0) as [[ev1 [m|e]] w1];
        [destruct (delete_orphans env post active m w1) as [[ev2 r] w2]|]; reflexivity.
Qed.

Lemma orphaned_spec (active : list string) (x : string) :
  orphaned active x = negb (is_managed x) && negb (_cluster_in_jenkins x active).
Proof.
  unfold orphaned, is_managed, _cluster_in_jenkins.
  now rewrite negb_orb.
Qed.

(** The loop asks to delete orphaned clusters only, in the listed order, and
    all of them when it ends without an exception. *)
Lemma delete_orphans_calls (names active : list string) (n : nat) (w : W) :
  exists untouched,
    filter (orphaned active) names
    = (delete_calls (fst (fst (delete_orphans env names active n w))) ++ untouched)%list
    /\ (forall m, snd (fst (delete_orphans env names active n w)) = inl m ->
        untouched = []).
Proof.
  revert n w; induction names as [|x names IH]; intros n w.
  - exists []. split; [reflexivity|auto].
  - cbn [filter delete_orphans]. rewrite orphaned_spec.
    destruct (is_managed x); cbn [negb andb].
    { destruct (IH n w) as (u & E & Hu).
      destruct (delete_orphans env names active n w) as [[ev r] w'].
      exists u. simpl in *. auto. }
    destruct (_cluster_in_jenkins x active); cbn [negb].
    { destruct (IH n w) as (u & E & Hu).
      destruct (delete_orphans env names active n w) as [[ev r] w'].
      exists u. simpl in *. auto. }
    destruct (delete_coe_cluster env x w) as [[b|[msg|msg|msg]] w0].
    + destruct (IH (S n) w0) as (u & E & Hu).
      destruct (delete_orphans env names active (S n) w0) as [[ev r] w'].
      exists u. simpl in *. rewrite E. auto.
    + destruct (IH n w0) as (u & E & Hu).
      destruct (delete_orphans env names active n w0) as [[ev r] w'].
      exists u. simpl in *. rewrite E. auto.
    + exists (filter (orphaned active) names). simpl. split; [reflexivity|discriminate].
    + exists (filter (orphaned active) names). simpl. split; [reflexivity|discriminate].
Qed.

(** [cleanup] once it has reached its loop. *)
Lemma cleanup_from_loop (os_cloud : string) (jenkins_urls : option string) (w : W)
  (active names : list string) (w3 : W) :
  loop_entry env os_cloud jenkins_urls w = Some (active, names, w3) ->
  let r := cleanup env os_cloud jenkins_urls w in
  let l := delete_orphans env names active 0 w3 in
  delete_calls (trace r) = delete_calls (fst (fst l))
  /\ status r = match snd (fst l) with
                | inl _ => Returns
                | inr e => snd (handle e)
                end
  /\ world r = snd l.
Proof.
  unfold loop_entry, cleanup.
  destruct (parse_jenkins_urls jenkins_urls) as [|u urls]; [discriminate|].
  pose proof (fetch_no_delete (u :: urls) w) as Hf.
  destruct (_fetch_jenkins_builds env (u :: urls) w) as [[ev1 builds] w1].
  destruct (from_config env os_cloud w1) as [[[]|e] w2]; [|discriminate].
  destruct (list_coe_clusters env w2) as [[clusters|e] w3']; [|discriminate].
  intros H; injection H as <- <- <-.
  destruct (delete_orphans env (map name clusters) builds 0 w3') as [[ev4 [k|e]] w4];
    cbn [fst snd].
  - cbn [trace status world]. repeat split.
    cbn [fst] in Hf. rewrite !delete_calls_app, Hf. cbn [delete_calls app].
    now rewrite app_nil_r.
  - destruct (handle e) as [ev t] eqn:Hh. cbn [trace status world snd]. repeat split.
    cbn [fst] in Hf. rewrite !delete_calls_app, Hf. cbn [delete_calls app].
    assert (delete_calls ev = []) as ->.
    { destruct e; simpl in Hh; injection Hh as <- <-; reflexivity. }
    now rewrite app_nil_r.
Qed.

End WithWorld.

(** The comprehension of [cleanup] keeps every piece of [split] as it is. *)
Lemma parse_is_split (s : string) :
  parse_jenkins_urls (Some s) = PyStr.split s.
Proof.
  unfold parse_jenkins_urls. destruct s as [|c s]; [reflexivity|].
  cbn [PyStr.truthy]. pose proof (split_words (String c s)) as H.
  induction H as [|w ws [Hw Hs] Hws IH]; [reflexivity|].
  cbn [filter]. rewrite (strip_word w Hs).
  destruct w as [|d w]; [now elim Hw|].
  cbn [PyStr.truthy map]. now rewrite (strip_word _ Hs), IH.
Qed.

(** [cleanup] finds no URL exactly when [jenkins_urls] is absent, empty or
    white space only. *)
Lemma parse_nothing (jenkins_urls : option string) :
  jenkins_urls = None
  \/ (exists s, jenkins_urls = Some s /\ PyStr.all_space s = true) <->
  parse_jenkins_urls jenkins_urls = [].
Proof.
  split.
  - intros [->|(s & -> & Hs)]; [reflexivity|].
    rewrite parse_is_split. now apply split_all_space.
  - destruct jenkins_urls as [s|]; [|now left].
    rewrite parse_is_split. intros H. right. exists s.
    split; [reflexivity|now apply split_nil_all_space].
Qed.

(** C3: when no Jenkins URL is configured ([jenkins_urls] is absent, empty or
    white space only), cluster cleanup prints its warning and returns: it asks
    for no deletion and makes no call to the cloud provider, whatever clusters
    the cloud holds. *)
Theorem cleanup_without_jenkins_urls {W : Type} (env : Env W)
  (os_cloud : string) (jenkins_urls : option string) (w : W) :
  jenkins_urls = None
  \/ (exists s, jenkins_urls = Some s /\ PyStr.all_space s = true) ->
  let r := cleanup env os_cloud jenkins_urls w in
  trace r = [Print "WARN: No Jenkins URLs provided, skipping cluster cleanup to be safe"]
  /\ status r = Returns
  /\ existsb is_warning (trace r) = true
  /\ delete_calls (trace r) = []
  /\ existsb contacts_cloud (trace r) = false
  /\ world r = w.
Proof.
  intros H. unfold cleanup. rewrite (proj1 (parse_nothing _) H).
  cbn. repeat split; reflexivity.
Qed.

Lemma cleanup_without_jenkins_urls_witness :
  let r := cleanup (Examples.cloud RaiseTimeout Examples.three_clusters (Ok true))
             "test-cloud" (Some "   ") tt in
  trace r = [Print "WARN: No Jenkins URLs provided, skipping cluster cleanup to be safe"]
  /\ status r = Returns
  /\ existsb is_warning (trace r) = true
  /\ delete_calls (trace r) = []
  /\ existsb contacts_cloud (trace r) = false
  /\ world r = tt.
Proof.
  apply (cleanup_without_jenkins_urls
           (Examples.cloud RaiseTimeout Examples.three_clusters (Ok true))
           "test-cloud" (Some "   ") tt).
  right. exists "   ". split; reflexivity.
Defined.

(** A run of [cleanup] that returns has asked to delete exactly the orphaned
    clusters; a run that ends otherwise, some of them. *)
Lemma cleanup_calls {W : Type} (env : Env W)
  (os_cloud : string) (jenkins_urls : option string) (w : W)
  (active names : list string) (w3 : W) :
  loop_entry env os_cloud jenkins_urls w = Some (active, names, w3) ->
  exists untouched,
    filter (orphaned active) names
    = (delete_calls (trace (cleanup env os_cloud jenkins_urls w)) ++ untouched)%list
    /\ (status (cleanup env os_cloud jenkins_urls w) = Returns -> untouched = []).
Proof.
  intros He.
  destruct (cleanup_from_loop env _ _ _ _ _ _ He) as (Hc & Hst & _).
  destruct (delete_orphans_calls env names active 0 w3) as (u & E & Hu).
  exists u. rewrite Hc. split; [exact E|]. intros Hs.
  destruct (snd (fst (delete_orphans env names active 0 w3))) as [m|e] eqn:Hr.
  - exact (Hu m eq_refl).
  - rewrite Hs in Hst. destruct e; discriminate.
Qed.

Lemma orphaned_iff (active : list string) (cluster_name : string) :
  orphaned active cluster_name = true <->
  PyStr.contains "-managed-prod-k8s-" cluster_name = false
  /\ PyStr.contains "-managed-test-k8s-" cluster_name = false
  /\ PyStr.contains cluster_name (PyStr.join " " active) = false.
Proof.
  unfold orphaned. rewrite !andb_true_iff, !negb_true_iff. tauto.
Qed.

(** The loop on the three clusters of the example, whatever the cloud does. *)
Lemma delete_orphans_example {W : Type} (env : Env W) (n : nat) (w : W) :
  delete_calls
    (fst (fst (delete_orphans env
                 ["orphaned-1"; "x-managed-prod-k8s-y"; "active-job-123"]
                 ["production-active-job-123"] n w)))
  = ["orphaned-1"].
Proof.
  cbn [delete_orphans].
  change (is_managed "orphaned-1") with false.
  change (_cluster_in_jenkins "orphaned-1" ["production-active-job-123"]) with false.
  change (is_managed "x-managed-prod-k8s-y") with true.
  change (is_managed "active-job-123") with false.
  change (_cluster_in_jenkins "active-job-123" ["production-active-job-123"]) with true.
  cbv iota.
  destruct (delete_coe_cluster env "orphaned-1" w) as [[b|[msg|msg|msg]] w1];
    reflexivity.
Qed.

(** C2: once cluster cleanup has its list of clusters, it asks to delete
    listed clusters only, and only those whose name contains neither
    [-managed-prod-k8s-] nor [-managed-test-k8s-] and is not a substring of
    the active build tokens joined by spaces; a run that returns has asked to
    delete every such cluster, once for each time it is listed and in the
    listed order.  For the names [orphaned-1], [x-managed-prod-k8s-y],
    [active-job-123] and the token [production-active-job-123] the delete
    calls are that of [orphaned-1] alone. *)
Theorem cleanup_deletes_the_orphans {W : Type} (env : Env W)
  (os_cloud : string) (jenkins_urls : option string) (w : W)
  (active names : list string) (w3 : W) :
  loop_entry env os_cloud jenkins_urls w = Some (active, names, w3) ->
  let r := cleanup env os_cloud jenkins_urls w in
  let calls := delete_calls (trace r) in
  (forall cluster_name, In cluster_name calls ->
      In cluster_name names
      /\ PyStr.contains "-managed-prod-k8s-" cluster_name = false
      /\ PyStr.contains "-managed-test-k8s-" cluster_name = false
      /\ PyStr.contains cluster_name (PyStr.join " " active) = false)
  /\ (status r = Returns ->
      calls = filter (orphaned active) names
      /\ forall cluster_name, In cluster_name names ->
           (In cluster_name calls <->
            PyStr.contains "-managed-prod-k8s-" cluster_name = false
            /\ PyStr.contains "-managed-test-k8s-" cluster_name = false
            /\ PyStr.contains cluster_name (PyStr.join " " active) = false))
  /\ (active = ["production-active-job-123"] ->
      names = ["orphaned-1"; "x-managed-prod-k8s-y"; "active-job-123"] ->
      calls = ["orphaned-1"]).
Proof.
  intros He r calls.
  destruct (cleanup_calls env _ _ _ _ _ _ He) as (u & E & Hu).
  fold r in E, Hu. fold calls in E.
  split; [|split].
  - intros n Hn.
    assert (In n (filter (orphaned active) names)) as Hf
        by (rewrite E; apply in_or_app; now left).
    apply filter_In in Hf as [Hin Ho]. split; [exact Hin|].
    now apply orphaned_iff.
  - intros Hs. rewrite (Hu Hs), app_nil_r in E. split; [now symmetry|].
    intros n Hn. rewrite <- E, filter_In, orphaned_iff. tauto.
  - intros -> ->.
    destruct (cleanup_from_loop env _ _ _ _ _ _ He) as (Hc & _).
    fold r in Hc. fold calls in Hc. rewrite Hc. apply delete_orphans_example.
Qed.

Lemma cleanup_deletes_the_orphans_witness :
  let env := Examples.cloud (Response 200 (Json Examples.one_build))
               Examples.three_clusters (Ok true) in
  let r := cleanup env "test-cloud" (Some "https://jenkins.example.org") tt in
  status r = Returns
  /\ delete_calls (trace r) = ["orphaned-1"]
  /\ (forall cluster_name, In cluster_name Examples.three_clusters ->
      (In cluster_name (delete_calls (trace r)) <->
       PyStr.contains "-managed-prod-k8s-" cluster_name = false
       /\ PyStr.contains "-managed-test-k8s-" cluster_name = false
       /\ PyStr.contains cluster_name
            (PyStr.join " " ["production-active-job-123"]) = false)).
Proof.
  intros env r.
  destruct (cleanup_deletes_the_orphans env "test-cloud"
              (Some "https://jenkins.example.org") tt
              ["production-active-job-123"] Examples.three_clusters tt eq_refl)
    as (_ & Hiff & Hex).
  split; [reflexivity|]. split; [exact (Hex eq_refl eq_refl)|].
  exact (proj2 (Hiff eq_refl)).
Defined.

(** A run with no Jenkins URL stops at the guard; any other reaches the
    cloud. *)
Lemma cleanup_past_guard {W : Type} (env : Env W)
  (os_cloud : string) (jenkins_urls : option string) (w : W) :
  parse_jenkins_urls jenkins_urls <> [] ->
  In (FromConfig os_cloud) (trace (cleanup env os_cloud jenkins_urls w)).
Proof.
  intros Hp. unfold cleanup.
  destruct (parse_jenkins_urls jenkins_urls) as [|u urls]; [now elim Hp|].
  destruct (_fetch_jenkins_builds env (u :: urls) w) as [[ev1 builds] w1].
  destruct (from_config env os_cloud w1) as [[[]|e] w2].
  - destruct (list_coe_clusters env w2) as [[clusters|e] w3].
    + destruct (delete_orphans env (map name clusters) builds 0 w3)
        as [[ev4 [k|e]] w4].
      * cbn [trace]. rewrite !in_app_iff. right; right; left. simpl; tauto.
      * destruct (handle e) as [ev t]. cbn [trace]. rewrite !in_app_iff.
        right; right; left. simpl; tauto.
    + destruct (handle e) as [ev t]. cbn [trace]. rewrite !in_app_iff.
      right; right; left. simpl; tauto.
  - cbn [trace]. rewrite !in_app_iff. right; right. simpl; tauto.
Qed.

Lemma failed_fetch_adds_nothing {W : Type} (env : Env W) (jenkins : string) (w : W) :
  fetch_fails (fst (requests_get env (api_url jenkins) w)) = true ->
  snd (fst (fetch_one env jenkins w)) = []
  /\ snd (fetch_one env jenkins w) = snd (requests_get env (api_url jenkins) w).
Proof.
  unfold fetch_one. fold (api_url jenkins).
  destruct (requests_get env (api_url jenkins) w)
    as [[status_code content| |msg|msg] w1]; cbn [fst snd fetch_fails];
    try (intros _; split; reflexivity).
  destruct (negb (status_code =? 200)%nat); cbn [orb];
    [intros _; split; reflexivity|].
  destruct content as [err|data]; [intros _; split; reflexivity|discriminate].
Qed.

Lemma failed_fetches_find_nothing {W : Type} (env : Env W)
  (jenkins_urls : list string) (w : W) :
  all_fetches_fail env jenkins_urls w = true ->
  snd (fst (_fetch_jenkins_builds env jenkins_urls w)) = [].
Proof.
  revert w; induction jenkins_urls as [|jenkins rest IH]; intros w; [reflexivity|].
  cbn [all_fetches_fail _fetch_jenkins_builds].
  pose proof (failed_fetch_adds_nothing env jenkins w) as H1.
  destruct (requests_get env (api_url jenkins) w) as [r w1]. cbn [fst snd] in H1.
  intros H. apply andb_true_iff in H as [Hr Hrest].
  destruct (H1 Hr) as [Hb Hw].
  destruct (fetch_one env jenkins w) as [[ev1 builds1] w1']. cbn [fst snd] in Hb, Hw.
  subst. specialize (IH _ Hrest).
  destruct (_fetch_jenkins_builds env rest w1) as [[ev2 builds2] w2].
  cbn [fst snd] in *. now subst.
Qed.

Lemma nothing_in_use (cluster_name : string) :
  cluster_name <> EmptyString -> _cluster_in_jenkins cluster_name [] = false.
Proof.
  intros H. destruct cluster_name; [now elim H|reflexivity].
Qed.

(** C9: when [jenkins_urls] holds at least one URL and every fetch fails (a
    status other than 200, a body that is not JSON, a timeout, a request
    error or any other exception), [_fetch_jenkins_builds] returns the empty
    list, [cleanup] goes past its guard to the cloud with no active build,
    every cluster that is not a managed one is then one to delete, and a run
    that returns has asked to delete all of them (cluster names being
    non-empty). *)
Theorem failed_fetches_pass_the_guard {W : Type} (env : Env W)
  (os_cloud : string) (jenkins_urls : option string) (w : W) :
  parse_jenkins_urls jenkins_urls <> [] ->
  all_fetches_fail env (parse_jenkins_urls jenkins_urls) w = true ->
  let r := cleanup env os_cloud jenkins_urls w in
  snd (fst (_fetch_jenkins_builds env (parse_jenkins_urls jenkins_urls) w)) = []
  /\ In (FromConfig os_cloud) (trace r)
  /\ forall active names w3,
       loop_entry env os_cloud jenkins_urls w = Some (active, names, w3) ->
       active = []
       /\ (forall cluster_name,
              cluster_name <> EmptyString ->
              is_managed cluster_name = false ->
              orphaned active cluster_name = true)
       /\ (Forall (fun cluster_name => cluster_name <> EmptyString) names ->
           status r = Returns ->
           delete_calls (trace r)
           = filter (fun cluster_name => negb (is_managed cluster_name)) names).
Proof.
  intros Hp Hf r.
  pose proof (failed_fetches_find_nothing env _ w Hf) as Hb.
  split; [exact Hb|]. split; [now apply cleanup_past_guard|].
  intros active names w3 He.
  assert (active = []) as ->.
  { unfold loop_entry in He.
    destruct (parse_jenkins_urls jenkins_urls) as [|u urls]; [discriminate|].
    destruct (_fetch_jenkins_builds env (u :: urls) w) as [[ev1 builds] w1].
    destruct (from_config env os_cloud w1) as [[[]|e] w2]; [|discriminate].
    destruct (list_coe_clusters env w2) as [[clusters|e] w3']; [|discriminate].
    injection He as <- _ _. exact Hb. }
  split; [reflexivity|]. split.
  { intros n Hn Hm. rewrite orphaned_spec, Hm, (nothing_in_use n Hn). reflexivity. }
  intros Hn Hs.
  destruct (cleanup_calls env _ _ _ _ _ _ He) as (u & E & Hu).
  subst r. rewrite (Hu Hs), app_nil_r in E. rewrite <- E.
  apply filter_ext_in. intros n Hin. rewrite orphaned_spec.
  rewrite Forall_forall in Hn. rewrite (nothing_in_use n (Hn n Hin)).
  apply andb_true_r.
Qed.

Lemma failed_fetches_pass_the_guard_witness :
  let env := Examples.cloud (Response 404 (Json (PyJson.JDict [])))
               Examples.three_clusters (Ok true) in
  let r := cleanup env "test-cloud" (Some "https://jenkins.example.org") tt in
  snd (fst (_fetch_jenkins_builds env ["https://jenkins.example.org"] tt)) = []
  /\ In (FromConfig "test-cloud") (trace r)
  /\ delete_calls (trace r) = ["orphaned-1"; "active-job-123"].
Proof.
  intros env r.
  destruct (failed_fetches_pass_the_guard env "test-cloud"
              (Some "https://jenkins.example.org") tt)
    as (Hb & Hc & Hl).
  - discriminate.
  - reflexivity.
  - split; [exact Hb|]. split; [exact Hc|].
    destruct (Hl [] Examples.three_clusters tt eq_refl) as (_ & _ & Hd).
    apply Hd; [|reflexivity].
    repeat constructor; discriminate.
Defined.

(** Whatever the loop of [cleanup] printed is in the trace of the run. *)
Lemma cleanup_prints {W : Type} (env : Env W)
  (os_cloud : string) (jenkins_urls : option string) (w : W)
  (active names : list string) (w3 : W) (e : event) :
  loop_entry env os_cloud jenkins_urls w = Some (active, names, w3) ->
  In e (fst (fst (delete_orphans env names active 0 w3))) ->
  In e (trace (cleanup env os_cloud jenkins_urls w)).
Proof.
  unfold loop_entry, cleanup.
  destruct (parse_jenkins_urls jenkins_urls) as [|u urls]; [discriminate|].
  destruct (_fetch_jenkins_builds env (u :: urls) w) as [[ev1 builds] w1].
  destruct (from_config env os_cloud w1) as [[[]|x] w2]; [|discriminate].
  destruct (list_coe_clusters env w2) as [[clusters|x] w3']; [|discriminate].
  intros H; injection H as <- <- <-.
  destruct (delete_orphans env (map name clusters) builds 0 w3') as [[ev4 [k|x]] w4];
    cbn [fst]; intros Hin.
  - cbn [trace]. rewrite !in_app_iff. do 4 right. now left.
  - destruct (handle x) as [ev t]. cbn [trace]. rewrite !in_app_iff.
    do 4 right. now left.
Qed.

End ClusterFacts.

(* ================================================================= *)
(** ** Facts about the server, volume and image pipeline *)

Module JanitorFacts.
Import Janitor.

Lemma strip_prefix_iff (p s r : string) :
  strip_prefix p s = Some r <-> s = p ++ r.
Proof.
  revert s; induction p as [|a p IH]; intros s; simpl.
  - split; [now intros [= ->]|now intros ->].
  - destruct s as [|b s].
    + split; discriminate.
    + destruct (Ascii.eqb_spec a b) as [->|Hab].
      * rewrite IH. split; [now intros ->|now intros [= ->]].
      * split; [discriminate|]. intros [= E _]. now elim Hab.
Qed.

Lemma chop_quote_cons (c d : ascii) (s : string) :
  chop_quote (String c (String d s))
  = option_map (String c) (chop_quote (String d s)).
Proof. reflexivity. Qed.

Lemma chop_quote_app (m : string) : chop_quote (m ++ "'") = Some m.
Proof.
  induction m as [|c m IH]; [reflexivity|].
  change (String c m ++ "'") with (String c (m ++ "'")).
  destruct (m ++ "'") as [|d t] eqn:E.
  - destruct m; discriminate.
  - rewrite chop_quote_cons, IH. reflexivity.
Qed.

Lemma chop_quote_iff (s m : string) :
  chop_quote s = Some m <-> s = m ++ "'".
Proof.
  split; [|intros ->; apply chop_quote_app].
  revert m; induction s as [|c s IH]; intros m; [discriminate|].
  destruct s as [|d s].
  - simpl. destruct (Ascii.eqb_spec c "'"%char) as [->|Hc]; [|discriminate].
    now intros [= <-].
  - rewrite chop_quote_cons.
    destruct (chop_quote (String d s)) as [m'|]; [|discriminate].
    simpl. intros [= <-]. simpl. now rewrite (IH m' eq_refl).
Qed.

(** The test on the text of an error accepts the two shapes and nothing else. *)
Lemma is_duplicate_name_iff (msg : string) :
  is_duplicate_name msg = true <-> duplicate_name_shape msg.
Proof.
  unfold is_duplicate_name, duplicate_name_shape. split.
  - intros H. apply orb_true_iff in H as [H|H].
    + left. exact (prefix_split _ _ H).
    + right.
      destruct (strip_prefix "More than one " msg) as [r|] eqn:E1; [|discriminate].
      destruct (chop_quote r) as [middle|] eqn:E2; [|discriminate].
      apply strip_prefix_iff in E1. apply chop_quote_iff in E2.
      apply contains_iff in H as (kind_name & resource_name & ->).
      exists kind_name, resource_name. subst.
      now rewrite !string_app_assoc.
  - intros [(resource_name & ->)|(kind_name & resource_name & ->)].
    + rewrite prefix_app. reflexivity.
    + apply orb_true_iff. right.
      rewrite (proj2 (strip_prefix_iff "More than one " _ _) eq_refl).
      assert (kind_name ++ " exists with the name '" ++ resource_name ++ "'"
              = (kind_name ++ " exists with the name '" ++ resource_name) ++ "'")
        as -> by now rewrite !string_app_assoc.
      rewrite chop_quote_app. apply contains_iff.
      now exists kind_name, resource_name.
Qed.

Lemma deleter_calls_app (a b : list event) :
  delete_calls (a ++ b)%list = (delete_calls a ++ delete_calls b)%list.
Proof.
  induction a as [|e a IH]; [reflexivity|].
  destruct e; simpl; now rewrite IH.
Qed.

Section WithWorld.
Context {W : Type} (env : Env W).

(** The Deleter on a concatenation: the second part runs after the first,
    in the world it left, unless an error ended the first. *)
Lemma delete_all_app (k : kind) (pre post : list ResourceDescriptor) (w : W) :
  delete_all env k (pre ++ post)%list w =
  match delete_all env k pre w with
  | (ev1, out1, None, w1) =>
      let '(ev2, out2, raised, w2) := delete_all env k post w1 in
      ((ev1 ++ ev2)%list, (out1 ++ out2)%list, raised, w2)
  | (ev1, out1, Some msg, w1) => (ev1, out1, Some msg, w1)
  end.
Proof.
  revert w; induction pre as [|x pre IH]; intros w.
  - simpl. now destruct (delete_all env k post w) as [[[ev2 out2] raised] w2].
  - cbn [app delete_all].
    destruct (delete_resource env k x w) as [[[|]|msg] w0].
    + rewrite IH. destruct (delete_all env k pre w0) as [[[ev1 out1] [m|]] w1];
        [|destruct (delete_all env k post w1) as [[[ev2 out2] raised] w2]];
        reflexivity.
    + rewrite IH. destruct (delete_all env k pre w0) as [[[ev1 out1] [m|]] w1];
        [|destruct (delete_all env k post w1) as [[[ev2 out2] raised] w2]];
        reflexivity.
    + destruct (is_duplicate_name msg); [|reflexivity].
      rewrite IH. destruct (delete_all env k pre w0) as [[[ev1 out1] [m|]] w1];
        [|destruct (delete_all env k post w1) as [[[ev2 out2] raised] w2]];
        reflexivity.
Qed.

(** The Deleter asks to delete its candidates in order, one call each, and
    all of them unless an error ends it. *)
Lemma delete_all_calls (k : kind) (candidates : list ResourceDescriptor) (w : W) :
  exists untouched,
    candidates
    = (delete_calls (fst (fst (fst (delete_all env k candidates w)))) ++ untouched)%list
    /\ (snd (fst (delete_all env k candidates w)) = None -> untouched = []).
Proof.
  revert w; induction candidates as [|x rest IH]; intros w.
  - exists []. split; reflexivity.
  - cbn [delete_all].
    destruct (delete_resource env k x w) as [[[|]|msg] w0].
    + destruct (IH w0) as (u & E & Hu).
      destruct (delete_all env k rest w0) as [[[ev out] raised] w'].
      exists u. cbn in *. split; [now f_equal|exact Hu].
    + destruct (IH w0) as (u & E & Hu).
      destruct (delete_all env k rest w0) as [[[ev out] raised] w'].
      exists u. cbn in *. split; [now f_equal|exact Hu].
    + destruct (is_duplicate_name msg).
      * destruct (IH w0) as (u & E & Hu).
        destruct (delete_all env k rest w0) as [[[ev out] raised] w'].
        exists u. cbn in *. split; [now f_equal|exact Hu].
      * exists rest. cbn. split; [reflexivity|discriminate].
Qed.

(** [cleanup] once the listing has succeeded. *)
Lemma cleanup_from_deleter (k : kind) (days : Z) (w : W)
  (candidates : list ResourceDescriptor) (w2 : W) :
  deleter_entry env k days w = Some (candidates, w2) ->
  let r := cleanup env k days w in
  let d := delete_all env k candidates w2 in
  delete_calls (trace r) = delete_calls (fst (fst (fst d)))
  /\ status r = match snd (fst d) with
                | None => Completed
                | Some msg => Propagates msg
                end
  /\ (exists skips, outcomes r = (skips ++ snd (fst (fst d)))%list
                    /\ forall ro, In ro skips -> snd ro = skipped_policy).
Proof.
  unfold deleter_entry, cleanup.
  destruct (list_resources env k w) as [[resources|msg|] w1]; try discriminate.
  destruct k.
  - intros [= <- <-]. cbn zeta.
    destruct (delete_all env Server _ w1) as [[[ev out] raised] w3].
    cbn. repeat split. eexists; split; [reflexivity|].
    unfold policy_skips. intros ro Hro. apply in_map_iff in Hro as (x & <- & _).
    reflexivity.
  - intros [= <- <-]. cbn zeta.
    destruct (delete_all env Volume _ w1) as [[[ev out] raised] w3].
    cbn. repeat split. eexists; split; [reflexivity|].
    unfold policy_skips. intros ro Hro. apply in_map_iff in Hro as (x & <- & _).
    reflexivity.
  - destruct (project_info env w1) as [tenant w2'].
    intros [= <- <-]. cbn zeta.
    destruct (delete_all env Image _ w2') as [[[ev out] raised] w3].
    cbn. repeat split. eexists; split; [reflexivity|].
    unfold policy_skips. intros ro Hro. apply in_map_iff in Hro as (x & <- & _).
    reflexivity.
Qed.

(** Whatever [cleanup] asks to delete passed the Filter. *)
Lemma cleanup_calls_eligible (k : kind) (days : Z) (w : W) (x : ResourceDescriptor) :
  In x (delete_calls (trace (cleanup env k days w))) ->
  exists current tenant, eligible current days tenant x = true.
Proof.
  destruct (deleter_entry env k days w) as [[candidates w2]|] eqn:He.
  - destruct (cleanup_from_deleter k days w _ _ He) as (-> & _).
    destruct (delete_all_calls k candidates w2) as (u & E & _).
    intros Hx.
    assert (In x candidates) as Hc by (rewrite E; apply in_or_app; now left).
    revert He Hc. unfold deleter_entry.
    destruct (list_resources env k w) as [[resources|msg|] w1]; try discriminate.
    destruct (match k with
              | Image => project_info env w1
              | _ => (EmptyString, w1)
              end) as [tenant w2'].
    intros [= <- <-] Hc. apply filter_In in Hc as [_ Hc].
    now exists (now env w2'), tenant.
  - revert He. unfold deleter_entry, cleanup.
    destruct (list_resources env k w) as [[resources|msg|] w1].
    + destruct (match k with
                | Image => project_info env w1
                | _ => (EmptyString, w1)
                end) as [tenant w2']. discriminate.
    + intros _ [].
    + intros _ [].
Qed.

End WithWorld.

(** C4: image cleanup never asks to delete an image that is public, that has
    visibility [shared], or that is protected, whatever its age, its owner and
    the age threshold of the run. *)
Theorem protected_images_are_never_deleted {W : Type} (env : Env W)
  (days : Z) (w : W) (img : ResourceDescriptor) (f : image_fields) :
  image img = Some f ->
  image_visibility f = Public \/ image_visibility f = Shared
  \/ is_protected f = true ->
  ~ In img (delete_calls (trace (cleanup env Image days w))).
Proof.
  intros Hi Hp Hin.
  destruct (cleanup_calls_eligible env Image days w img Hin) as (c & t & He).
  unfold eligible in He. apply andb_true_iff in He as [_ He].
  unfold protection_ok in He. rewrite Hi in He.
  unfold never_eligible in He.
  destruct Hp as [Hp|[Hp|Hp]]; rewrite Hp in He; try discriminate.
  destruct (image_visibility f); discriminate.
Qed.

Lemma protected_images_are_never_deleted_witness :
  ~ In (Examples.image_of "test-image" 0 "project-123" Shared false)
       (delete_calls
          (trace (cleanup
                    (Examples.provider
                       [Examples.image_of "test-image" 0 "project-123" Shared false]
                       864000 "project-123" (fun _ => Returned true))
                    Image 0 tt))).
Proof.
  apply (protected_images_are_never_deleted
           (Examples.provider
              [Examples.image_of "test-image" 0 "project-123" Shared false]
              864000 "project-123" (fun _ => Returned true))
           0 tt (Examples.image_of "test-image" 0 "project-123" Shared false)
           {| owner := "project-123"; image_visibility := Shared;
              is_protected := false |}).
  - reflexivity.
  - right; left; reflexivity.
Defined.

(** C8: removing one server or volume: when the lookup finds nothing the
    process exits with status 1 and no delete call is made; when a non-zero
    threshold in minutes is given and the resource is younger, no delete call
    is made and the operation completes without error; when the threshold is
    zero the delete call is made whatever the age. *)
Theorem remove_one_resource {W : Type} (env : Env W)
  (k : kind) (identifier : string) (minutes : Z) (w : W) :
  let r := remove env k identifier minutes w in
  let found := fst (get_resource env k identifier w) in
  let w1 := snd (get_resource env k identifier w) in
  (found = None ->
   status r = Exits 1 /\ exit_status (status r) = 1%Z
   /\ delete_calls (trace r) = [])
  /\ (forall x, found = Some x -> minutes <> 0%Z ->
      (now env w1 - created_at x < minutes * 60)%Z ->
      delete_calls (trace r) = [] /\ status r = Completed
      /\ exit_status (status r) = 0%Z)
  /\ (forall x, found = Some x -> minutes = 0%Z ->
      delete_calls (trace r) = [x]).
Proof.
  unfold remove.
  destruct (get_resource env k identifier w) as [[x|] w1]; cbn [fst snd].
  - split; [discriminate|]. split.
    + intros y [= <-] Hm Hy.
      assert ((minutes =? 0)%Z = false) as -> by now apply Z.eqb_neq.
      assert ((now env w1 - created_at x <? minutes * 60)%Z = true) as ->
          by now apply Z.ltb_lt.
      cbn. repeat split.
    + intros y [= <-] ->. cbn [Z.eqb negb andb].
      destruct (delete_resource env k x w1) as [[success|msg] w2]; reflexivity.
  - split; [intros _; cbn; repeat split|]. split; discriminate.
Qed.

Lemma remove_one_resource_witness :
  let env :=
    Examples.provider [Examples.plain "test-server" "server-123" 540]
      600 "project-123" (fun _ => Returned true) in
  (let r := remove env Server "nonexistent-server" 0 tt in
   status r = Exits 1 /\ exit_status (status r) = 1%Z
   /\ delete_calls (trace r) = [])
  /\ (let r := remove env Server "test-server" 5 tt in
      delete_calls (trace r) = [] /\ status r = Completed
      /\ exit_status (status r) = 0%Z)
  /\ (let r := remove env Volume "server-123" 0 tt in
      delete_calls (trace r) = [Examples.plain "test-server" "server-123" 540]).
Proof.
  set (env := Examples.provider [Examples.plain "test-server" "server-123" 540]
                600 "project-123" (fun _ => Returned true)).
  split; [|split].
  - exact (proj1 (remove_one_resource env Server "nonexistent-server" 0 tt) eq_refl).
  - apply (proj1 (proj2 (remove_one_resource env Server "test-server" 5 tt))
             (Examples.plain "test-server" "server-123" 540) eq_refl).
    + discriminate.
    + reflexivity.
  - exact (proj2 (proj2 (remove_one_resource env Volume "server-123" 0 tt))
             (Examples.plain "test-server" "server-123" 540) eq_refl eq_refl).
Defined.

End JanitorFacts.

(* ================================================================= *)
(** ** What a failing delete call does to a cleanup run *)

Module DeleterFacts.

Section Pipeline.
Import Janitor JanitorFacts.
Context {W : Type} (env : Env W).

(** A duplicate-name error at [x]: [x] is skipped and the Deleter goes on. *)
Lemma delete_all_skips_duplicate (k : kind) (pre post : list ResourceDescriptor)
  (x : ResourceDescriptor) (w w1 w2 : W) (ev1 : list event)
  (out1 : list (ResourceDescriptor * CleanupOutcome)) (msg : string) :
  delete_all env k pre w = (ev1, out1, None, w1) ->
  delete_resource env k x w1 = (Raised msg, w2) ->
  is_duplicate_name msg = true ->
  delete_all env k (pre ++ x :: post)%list w =
  let '(ev2, out2, raised, w3) := delete_all env k post w2 in
  ((ev1 ++ DeleteCall k x :: Report WARN x skipped_duplicate_name :: ev2)%list,
   (out1 ++ (x, skipped_duplicate_name) :: out2)%list, raised, w3).
Proof.
  intros Hpre Hx Hd. rewrite delete_all_app, Hpre.
  cbn [delete_all]. rewrite Hx, Hd.
  now destruct (delete_all env k post w2) as [[[ev2 out2] raised] w3].
Qed.

(** Any other error at [x]: the Deleter ends there. *)
Lemma delete_all_stops (k : kind) (pre post : list ResourceDescriptor)
  (x : ResourceDescriptor) (w w1 w2 : W) (ev1 : list event)
  (out1 : list (ResourceDescriptor * CleanupOutcome)) (msg : string) :
  delete_all env k pre w = (ev1, out1, None, w1) ->
  delete_resource env k x w1 = (Raised msg, w2) ->
  is_duplicate_name msg = false ->
  delete_all env k (pre ++ x :: post)%list w =
  ((ev1 ++ [DeleteCall k x; Report ERROR x (error msg)])%list,
   (out1 ++ [(x, error msg)])%list, Some msg, w2).
Proof.
  intros Hpre Hx Hd. rewrite delete_all_app, Hpre.
  cbn [delete_all]. now rewrite Hx, Hd.
Qed.

Lemma delete_all_pre_calls (k : kind) (pre : list ResourceDescriptor) (w w1 : W)
  (ev1 : list event) (out1 : list (ResourceDescriptor * CleanupOutcome)) :
  delete_all env k pre w = (ev1, out1, None, w1) -> delete_calls ev1 = pre.
Proof.
  intros H. destruct (delete_all_calls env k pre w) as (u & E & Hu).
  rewrite H in E, Hu. cbn [fst snd] in E, Hu.
  rewrite (Hu eq_refl), app_nil_r in E. now symmetry.
Qed.

(** When the provider raises duplicate-name errors only, the Deleter
    reaches the end of its candidates. *)
Lemma delete_all_completes (k : kind) (candidates : list ResourceDescriptor) (w : W) :
  (forall x w' msg, fst (delete_resource env k x w') = Raised msg ->
                    is_duplicate_name msg = true) ->
  snd (fst (delete_all env k candidates w)) = None.
Proof.
  intros Hd. revert w; induction candidates as [|x rest IH]; intros w; [reflexivity|].
  cbn [delete_all]. pose proof (Hd x w) as Hx.
  destruct (delete_resource env k x w) as [[[|]|msg] w0]; cbn [fst] in Hx.
  - specialize (IH w0). now destruct (delete_all env k rest w0) as [[[ev out] raised] w'].
  - specialize (IH w0). now destruct (delete_all env k rest w0) as [[[ev out] raised] w'].
  - rewrite (Hx msg eq_refl). specialize (IH w0).
    now destruct (delete_all env k rest w0) as [[[ev out] raised] w'].
Qed.

End Pipeline.

Section Clusters.
Import Cluster ClusterFacts.
Context {W : Type} (env : Env W).

(** An [OpenStackCloudException] at [x]: it is printed and the loop goes on,
    with the count it had. *)
Lemma delete_orphans_caught (pre post active : list string) (x : string)
  (n m : nat) (w w1 w2 : W) (ev1 : list event) (msg : string) :
  delete_orphans env pre active n w = (ev1, inl m, w1) ->
  orphaned active x = true ->
  delete_coe_cluster env x w1 = (Raise (OpenStackCloudException msg), w2) ->
  delete_orphans env (pre ++ x :: post)%list active n w =
  let '(ev2, r, w3) := delete_orphans env post active m w2 in
  ((ev1 ++ deleting x
    ++ Print ("ERROR: Failed to delete cluster " ++ x ++ ": " ++ msg) :: ev2)%list,
   r, w3).
Proof.
  intros Hpre Ho Hx. rewrite delete_orphans_app, Hpre.
  rewrite orphaned_spec in Ho. apply andb_true_iff in Ho as [Hm Hj].
  apply negb_true_iff in Hm, Hj.
  cbn [delete_orphans]. rewrite Hm, Hj, Hx.
  now destruct (delete_orphans env post active m w2) as [[ev2 r] w3].
Qed.

(** An exception of another class at [x]: it leaves the loop. *)
Lemma delete_orphans_left (pre post active : list string) (x : string)
  (n m : nat) (w w1 w2 : W) (ev1 : list event) (e : exn) :
  delete_orphans env pre active n w = (ev1, inl m, w1) ->
  orphaned active x = true ->
  delete_coe_cluster env x w1 = (Raise e, w2) ->
  (forall msg, e <> OpenStackCloudException msg) ->
  delete_orphans env (pre ++ x :: post)%list active n w
  = ((ev1 ++ deleting x)%list, inr e, w2).
Proof.
  intros Hpre Ho Hx He. rewrite delete_orphans_app, Hpre.
  rewrite orphaned_spec in Ho. apply andb_true_iff in Ho as [Hm Hj].
  apply negb_true_iff in Hm, Hj.
  cbn [delete_orphans]. rewrite Hm, Hj, Hx.
  destruct e as [msg|msg|msg]; [now elim (He msg)|reflexivity|reflexivity].
Qed.

(** When the cloud raises [OpenStackCloudException] only, the loop reaches
    the end of the list. *)
Lemma delete_orphans_completes (names active : list string) (n : nat) (w : W) :
  (forall x w' e, fst (delete_coe_cluster env x w') = Raise e ->
                  exists msg, e = OpenStackCloudException msg) ->
  exists m, snd (fst (delete_orphans env names active n w)) = inl m.
Proof.
  intros Hd. revert n w; induction names as [|x rest IH]; intros n w;
    [now exists n|].
  cbn [delete_orphans].
  destruct (is_managed x).
  { destruct (IH n w) as [m Hm].
    destruct (delete_orphans env rest active n w) as [[ev r] w']. now exists m. }
  destruct (_cluster_in_jenkins x active).
  { destruct (IH n w) as [m Hm].
    destruct (delete_orphans env rest active n w) as [[ev r] w']. now exists m. }
  pose proof (Hd x w) as Hx.
  destruct (delete_coe_cluster env x w) as [[b|e] w0]; cbn [fst] in Hx.
  - destruct (IH (S n) w0) as [m Hm].
    destruct (delete_orphans env rest active (S n) w0) as [[ev r] w']. now exists m.
  - destruct (Hx e eq_refl) as [msg ->].
    destruct (IH n w0) as [m Hm].
    destruct (delete_orphans env rest active n w0) as [[ev r] w']. now exists m.
Qed.

End Clusters.

(** C5: a delete call that raises an error of one of the two duplicate-name
    shapes does not end a cleanup run.  For servers, volumes and images the
    resource is recorded as skipped for a duplicate name, the Deleter goes on
    with the remaining candidates, and a run whose delete calls raise nothing
    else completes with exit status 0 after one delete call per candidate.
    For clusters the call is left out of the deleted count, the loop goes on
    with the remaining clusters, and a run whose delete calls raise nothing
    but [OpenStackCloudException] returns with exit status 0. *)
Theorem duplicate_name_errors_are_skipped :
  (forall (W : Type) (env : Janitor.Env W) k days w pre x post w0 ev1 out1 w1 msg w2,
      Janitor.deleter_entry env k days w = Some ((pre ++ x :: post)%list, w0) ->
      Janitor.delete_all env k pre w0 = (ev1, out1, None, w1) ->
      Janitor.delete_resource env k x w1 = (Janitor.Raised msg, w2) ->
      Janitor.duplicate_name_shape msg ->
      let r := Janitor.cleanup env k days w in
      let rest := Janitor.delete_all env k post w2 in
      In (x, Janitor.skipped_duplicate_name) (Janitor.outcomes r)
      /\ Janitor.delete_calls (Janitor.trace r)
         = (pre ++ x :: Janitor.delete_calls (fst (fst (fst rest))))%list
      /\ Janitor.status r = match snd (fst rest) with
                            | None => Janitor.Completed
                            | Some m => Janitor.Propagates m
                            end)
  /\ (forall (W : Type) (env : Janitor.Env W) k days w candidates w0,
      (forall x w' msg,
          fst (Janitor.delete_resource env k x w') = Janitor.Raised msg ->
          Janitor.duplicate_name_shape msg) ->
      Janitor.deleter_entry env k days w = Some (candidates, w0) ->
      let r := Janitor.cleanup env k days w in
      Janitor.status r = Janitor.Completed
      /\ Janitor.exit_status (Janitor.status r) = 0%Z
      /\ Janitor.delete_calls (Janitor.trace r) = candidates)
  /\ (forall (W : Type) (env : Cluster.Env W) os_cloud jenkins_urls w active
             pre x post w0 ev1 m w1 msg w2,
      Cluster.loop_entry env os_cloud jenkins_urls w
      = Some (active, (pre ++ x :: post)%list, w0) ->
      Cluster.delete_orphans env pre active 0 w0 = (ev1, inl m, w1) ->
      Cluster.orphaned active x = true ->
      Cluster.delete_coe_cluster env x w1
      = (Cluster.Raise (Cluster.OpenStackCloudException msg), w2) ->
      Janitor.duplicate_name_shape msg ->
      let r := Cluster.cleanup env os_cloud jenkins_urls w in
      let rest := Cluster.delete_orphans env post active m w2 in
      Cluster.delete_calls (Cluster.trace r)
      = (Cluster.delete_calls ev1 ++ x :: Cluster.delete_calls (fst (fst rest)))%list
      /\ Cluster.status r = match snd (fst rest) with
                            | inl _ => Cluster.Returns
                            | inr e => snd (Cluster.handle e)
                            end)
  /\ (forall (W : Type) (env : Cluster.Env W) os_cloud jenkins_urls w active names w0,
      (forall x w' e,
          fst (Cluster.delete_coe_cluster env x w') = Cluster.Raise e ->
          exists msg, e = Cluster.OpenStackCloudException msg) ->
      Cluster.loop_entry env os_cloud jenkins_urls w = Some (active, names, w0) ->
      let r := Cluster.cleanup env os_cloud jenkins_urls w in
      Cluster.status r = Cluster.Returns
      /\ Cluster.exit_status (Cluster.status r) = 0%Z).
Proof.
  split; [|split; [|split]].
  - intros W env k days w pre x post w0 ev1 out1 w1 msg w2 He Hpre Hx Hd r rest.
    apply JanitorFacts.is_duplicate_name_iff in Hd.
    destruct (JanitorFacts.cleanup_from_deleter env k days w _ _ He)
      as (Hc & Hs & skips & Ho & _).
    fold r in Hc, Hs, Ho.
    rewrite (delete_all_skips_duplicate env k pre post x w0 w1 w2 ev1 out1 msg
               Hpre Hx Hd) in Hc, Hs, Ho.
    subst rest.
    destruct (Janitor.delete_all env k post w2) as [[[ev2 out2] raised] w3].
    cbn [fst snd] in *. split; [|split].
    + rewrite Ho, !in_app_iff. right; right; now left.
    + rewrite Hc, JanitorFacts.deleter_calls_app.
      now rewrite (delete_all_pre_calls env k pre w0 w1 ev1 out1 Hpre).
    + exact Hs.
  - intros W env k days w candidates w0 Hd He r.
    destruct (JanitorFacts.cleanup_from_deleter env k days w _ _ He)
      as (Hc & Hs & _).
    fold r in Hc, Hs.
    assert (snd (fst (Janitor.delete_all env k candidates w0)) = None) as Hn.
    { apply delete_all_completes. intros x w' msg Hx.
      apply JanitorFacts.is_duplicate_name_iff. exact (Hd x w' msg Hx). }
    rewrite Hn in Hs. rewrite Hs. repeat split.
    destruct (JanitorFacts.delete_all_calls env k candidates w0) as (u & E & Hu).
    rewrite (Hu Hn), app_nil_r in E. now rewrite Hc.
  - intros W env os_cloud jenkins_urls w active pre x post w0 ev1 m w1 msg w2
      He Hpre Ho Hx _ r rest.
    destruct (ClusterFacts.cleanup_from_loop env _ _ _ _ _ _ He) as (Hc & Hs & _).
    fold r in Hc, Hs.
    rewrite (delete_orphans_caught env pre post active x 0 m w0 w1 w2 ev1 msg
               Hpre Ho Hx) in Hc, Hs.
    subst rest.
    destruct (Cluster.delete_orphans env post active m w2) as [[ev2 r2] w3].
    cbn [fst snd] in *. split; [|exact Hs].
    rewrite Hc, !ClusterFacts.delete_calls_app. reflexivity.
  - intros W env os_cloud jenkins_urls w active names w0 Hd He r.
    destruct (ClusterFacts.cleanup_from_loop env _ _ _ _ _ _ He) as (_ & Hs & _).
    fold r in Hs.
    destruct (delete_orphans_completes env names active 0 w0 Hd) as [m Hm].
    rewrite Hm in Hs. rewrite Hs. split; reflexivity.
Qed.

Lemma duplicate_name_errors_are_skipped_witness :
  let s1 := Examples.plain "server-1" "id-1" 0 in
  let foo := Examples.plain "foo" "id-2" 0 in
  let s2 := Examples.plain "server-2" "id-3" 0 in
  let env := Examples.provider [s1; foo; s2] 864000 "project-123"
               Examples.foo_is_duplicated in
  let r := Janitor.cleanup env Janitor.Server 5 tt in
  In (foo, Janitor.skipped_duplicate_name) (Janitor.outcomes r)
  /\ Janitor.delete_calls (Janitor.trace r) = [s1; foo; s2]
  /\ Janitor.count Janitor.is_duplicate_skip (Janitor.outcomes r) = 1
  /\ Janitor.status r = Janitor.Completed
  /\ Janitor.exit_status (Janitor.status r) = 0%Z.
Proof.
  intros s1 foo s2 env r.
  destruct duplicate_name_errors_are_skipped as (Hskip & Hdone & _).
  destruct (Hskip unit env Janitor.Server 5%Z tt [s1] foo [s2] tt
              [Janitor.DeleteCall Janitor.Server s1;
               Janitor.Report Janitor.INFO s1 Janitor.deleted]
              [(s1, Janitor.deleted)] tt
              "More than one Server exists with the name 'foo'" tt
              eq_refl eq_refl eq_refl
              (or_intror (ex_intro _ "Server" (ex_intro _ "foo" eq_refl))))
    as (Hin & Hcalls & _).
  assert (forall x w' msg,
             fst (Janitor.delete_resource env Janitor.Server x w') = Janitor.Raised msg ->
             Janitor.duplicate_name_shape msg) as Hd.
  { intros x w' msg. cbn. unfold Examples.foo_is_duplicated.
    destruct (String.eqb (Janitor.name x) "foo"); [|discriminate].
    intros [= <-]. right. now exists "Server", "foo". }
  destruct (Hdone unit env Janitor.Server 5%Z tt [s1; foo; s2] tt Hd eq_refl)
    as (Hs & He & _).
  split; [exact Hin|]. split; [exact Hcalls|]. split; [reflexivity|].
  split; [exact Hs|exact He].
Defined.

(** C1, as the code has it: for servers, volumes and images a delete call that
    raises an error of neither duplicate-name shape ends the run: the error
    propagates out of [cleanup], the exit status is 1 and no later candidate
    is tried.  For clusters an [OpenStackCloudException] raised by a delete
    call is caught whatever its text: it is printed, the cluster is left out
    of the deleted count and the loop goes on with the remaining clusters; an
    exception of another class ends the run with exit status 1. *)
Theorem unexpected_delete_errors :
  (forall (W : Type) (env : Janitor.Env W) k days w pre x post w0 ev1 out1 w1 msg w2,
      Janitor.deleter_entry env k days w = Some ((pre ++ x :: post)%list, w0) ->
      Janitor.delete_all env k pre w0 = (ev1, out1, None, w1) ->
      Janitor.delete_resource env k x w1 = (Janitor.Raised msg, w2) ->
      ~ Janitor.duplicate_name_shape msg ->
      let r := Janitor.cleanup env k days w in
      Janitor.status r = Janitor.Propagates msg
      /\ Janitor.exit_status (Janitor.status r) = 1%Z
      /\ Janitor.delete_calls (Janitor.trace r) = (pre ++ [x])%list
      /\ In (x, Janitor.error msg) (Janitor.outcomes r))
  /\ (forall (W : Type) (env : Cluster.Env W) os_cloud jenkins_urls w active
             pre x post w0 ev1 m w1 msg w2,
      Cluster.loop_entry env os_cloud jenkins_urls w
      = Some (active, (pre ++ x :: post)%list, w0) ->
      Cluster.delete_orphans env pre active 0 w0 = (ev1, inl m, w1) ->
      Cluster.orphaned active x = true ->
      Cluster.delete_coe_cluster env x w1
      = (Cluster.Raise (Cluster.OpenStackCloudException msg), w2) ->
      let r := Cluster.cleanup env os_cloud jenkins_urls w in
      let rest := Cluster.delete_orphans env post active m w2 in
      In (Cluster.Print ("ERROR: Failed to delete cluster " ++ x ++ ": " ++ msg))
         (Cluster.trace r)
      /\ Cluster.delete_calls (Cluster.trace r)
         = (Cluster.delete_calls ev1 ++ x :: Cluster.delete_calls (fst (fst rest)))%list
      /\ Cluster.status r = match snd (fst rest) with
                            | inl _ => Cluster.Returns
                            | inr e => snd (Cluster.handle e)
                            end)
  /\ (forall (W : Type) (env : Cluster.Env W) os_cloud jenkins_urls w active
             pre x post w0 ev1 m w1 e w2,
      Cluster.loop_entry env os_cloud jenkins_urls w
      = Some (active, (pre ++ x :: post)%list, w0) ->
      Cluster.delete_orphans env pre active 0 w0 = (ev1, inl m, w1) ->
      Cluster.orphaned active x = true ->
      Cluster.delete_coe_cluster env x w1 = (Cluster.Raise e, w2) ->
      (forall msg, e <> Cluster.OpenStackCloudException msg) ->
      let r := Cluster.cleanup env os_cloud jenkins_urls w in
      Cluster.status r = snd (Cluster.handle e)
      /\ Cluster.exit_status (Cluster.status r) = 1%Z
      /\ Cluster.delete_calls (Cluster.trace r)
         = (Cluster.delete_calls ev1 ++ [x])%list).
Proof.
  split; [|split].
  - intros W env k days w pre x post w0 ev1 out1 w1 msg w2 He Hpre Hx Hd r.
    assert (Janitor.is_duplicate_name msg = false) as Hf.
    { destruct (Janitor.is_duplicate_name msg) eqn:E; [|reflexivity].
      elim Hd. now apply JanitorFacts.is_duplicate_name_iff. }
    destruct (JanitorFacts.cleanup_from_deleter env k days w _ _ He)
      as (Hc & Hs & skips & Ho & _).
    fold r in Hc, Hs, Ho.
    rewrite (delete_all_stops env k pre post x w0 w1 w2 ev1 out1 msg Hpre Hx Hf)
      in Hc, Hs, Ho.
    cbn [fst snd] in *. rewrite Hs. repeat split.
    + rewrite Hc, JanitorFacts.deleter_calls_app.
      now rewrite (delete_all_pre_calls env k pre w0 w1 ev1 out1 Hpre).
    + rewrite Ho, !in_app_iff. right; right; now left.
  - intros W env os_cloud jenkins_urls w active pre x post w0 ev1 m w1 msg w2
      He Hpre Ho Hx r rest.
    destruct (ClusterFacts.cleanup_from_loop env _ _ _ _ _ _ He) as (Hc & Hs & _).
    fold r in Hc, Hs.
    pose proof (delete_orphans_caught env pre post active x 0 m w0 w1 w2 ev1 msg
                  Hpre Ho Hx) as Hl.
    rewrite Hl in Hc, Hs.
    split; [|subst rest;
             destruct (Cluster.delete_orphans env post active m w2) as [[ev2 r2] w3];
             cbn [fst snd] in *; split; [|exact Hs];
             rewrite Hc, !ClusterFacts.delete_calls_app; reflexivity].
    apply (ClusterFacts.cleanup_prints env _ _ _ _ _ _ _ He).
    rewrite Hl.
    destruct (Cluster.delete_orphans env post active m w2) as [[ev2 r2] w3].
    cbn [fst]. rewrite !in_app_iff. right; right; now left.
  - intros W env os_cloud jenkins_urls w active pre x post w0 ev1 m w1 e w2
      He Hpre Ho Hx Hne r.
    destruct (ClusterFacts.cleanup_from_loop env _ _ _ _ _ _ He) as (Hc & Hs & _).
    fold r in Hc, Hs.
    rewrite (delete_orphans_left env pre post active x 0 m w0 w1 w2 ev1 e
               Hpre Ho Hx Hne) in Hc, Hs.
    cbn [fst snd] in *. rewrite Hs. split; [reflexivity|]. split.
    + destruct e as [msg|msg|msg]; [now elim (Hne msg)|reflexivity|reflexivity].
    + rewrite Hc, ClusterFacts.delete_calls_app. reflexivity.
Qed.

Lemma unexpected_delete_errors_witness :
  (let s1 := Examples.plain "server-1" "id-1" 0 in
   let foo := Examples.plain "foo" "id-2" 0 in
   let s2 := Examples.plain "server-2" "id-3" 0 in
   let env := Examples.provider [s1; foo; s2] 864000 "project-123"
                Examples.foo_is_broken in
   let r := Janitor.cleanup env Janitor.Volume 5 tt in
   Janitor.status r = Janitor.Propagates "Unexpected error"
   /\ Janitor.exit_status (Janitor.status r) = 1%Z
   /\ Janitor.delete_calls (Janitor.trace r) = [s1; foo])
  /\ (let env := Examples.cloud (Cluster.Response 200 (Cluster.Json (PyJson.JDict [])))
                   ["orphaned-a"; "orphaned-b"]
                   (Cluster.Raise (Cluster.OpenStackCloudException "Delete failed")) in
      let r := Cluster.cleanup env "test-cloud" (Some "https://jenkins.example.org") tt in
      In (Cluster.Print "ERROR: Failed to delete cluster orphaned-a: Delete failed")
         (Cluster.trace r)
      /\ Cluster.delete_calls (Cluster.trace r) = ["orphaned-a"; "orphaned-b"]
      /\ Cluster.status r = Cluster.Returns)
  /\ (let env := Examples.cloud (Cluster.Response 200 (Cluster.Json (PyJson.JDict [])))
                   ["orphaned-a"; "orphaned-b"]
                   (Cluster.Raise (Cluster.AttributeError "delete_coe_cluster")) in
      let r := Cluster.cleanup env "test-cloud" (Some "https://jenkins.example.org") tt in
      Cluster.status r = Cluster.SysExit 1
      /\ Cluster.exit_status (Cluster.status r) = 1%Z
      /\ Cluster.delete_calls (Cluster.trace r) = ["orphaned-a"]).
Proof.
  destruct unexpected_delete_errors as (Hfatal & Hcaught & Hleft).
  split; [|split].
  - intros s1 foo s2 env r.
    destruct (Hfatal unit env Janitor.Volume 5%Z tt [s1] foo [s2] tt
                [Janitor.DeleteCall Janitor.Volume s1;
                 Janitor.Report Janitor.INFO s1 Janitor.deleted]
                [(s1, Janitor.deleted)] tt "Unexpected error" tt
                eq_refl eq_refl eq_refl)
      as (Hs & He & Hc & _).
    + intros Hd. apply JanitorFacts.is_duplicate_name_iff in Hd. discriminate Hd.
    + split; [exact Hs|]. split; [exact He|exact Hc].
  - intros env r.
    exact (Hcaught unit env "test-cloud" (Some "https://jenkins.example.org") tt []
             [] "orphaned-a" ["orphaned-b"] tt [] 0 tt "Delete failed" tt
             eq_refl eq_refl eq_refl eq_refl).
  - intros env r.
    refine (Hleft unit env "test-cloud" (Some "https://jenkins.example.org") tt []
              [] "orphaned-a" ["orphaned-b"] tt [] 0 tt
              (Cluster.AttributeError "delete_coe_cluster") tt
              eq_refl eq_refl eq_refl eq_refl _).
    discriminate.
Defined.

(** C1 does not hold of clusters: a delete call that fails with a text of
    neither duplicate-name shape does not end cluster cleanup, which goes on
    to the next cluster and returns. *)
Lemma cluster_delete_error_is_caught :
  let env := Examples.cloud (Cluster.Response 200 (Cluster.Json (PyJson.JDict [])))
               ["orphaned-a"; "orphaned-b"]
               (Cluster.Raise (Cluster.OpenStackCloudException "Delete failed")) in
  let r := Cluster.cleanup env "test-cloud" (Some "https://jenkins.example.org") tt in
  ~ Janitor.duplicate_name_shape "Delete failed"
  /\ Cluster.delete_calls (Cluster.trace r) = ["orphaned-a"; "orphaned-b"]
  /\ Cluster.status r = Cluster.Returns
  /\ Cluster.exit_status (Cluster.status r) = 0%Z.
Proof.
  intros env r. split; [|repeat split].
  intros Hd. apply JanitorFacts.is_duplicate_name_iff in Hd. discriminate Hd.
Qed.

End DeleterFacts.

(* ================================================================= *)
(** ** Facts about [check_votes] *)

Module InfofileFacts.
Import Infofile.

Lemma opened_app (a b : list event) :
  opened (a ++ b)%list = (opened a ++ opened b)%list.
Proof.
  induction a as [|e a IH]; [reflexivity|].
  destruct e; simpl; now rewrite IH.
Qed.

(** One half is reached exactly when twice the voters are at least the
    committers. *)
Lemma majority_half (have_voted_length committer_length : nat) :
  (0 < committer_length)%nat ->
  (Qle_bool half (majority have_voted_length committer_length) = true
   <-> (committer_length <= 2 * have_voted_length)%nat).
Proof.
  intros Hc. rewrite Qle_bool_iff. unfold Qle, half, majority. cbn [Qnum Qden].
  rewrite <- (Pos2Z.inj_pos (Pos.of_nat committer_length)) || idtac.
  assert (Z.pos (Pos.of_nat committer_length) = Z.of_nat committer_length) as ->.
  { destruct committer_length as [|n]; [lia|].
    rewrite <- (Nat2Pos.id (S n)) at 2 by discriminate.
    now rewrite positive_nat_Z. }
  lia.
Qed.

Section WithWorld.
Context {W : Type} (env : Env W).

(** Each call of [main] opens its file, once. *)
Lemma gather_opened (info_file endpoint : string) (change_number : Z)
  (github_repo : option string) (w : W) :
  opened (fst (fst (gather env info_file endpoint change_number github_repo w)))
  = [info_file].
Proof.
  unfold gather.
  destruct (load_info env info_file w) as [[msg|msg|[committer_info|]] w1];
    try reflexivity.
  destruct (repo_of github_repo) as [repo|].
  - destruct (prvotes env endpoint repo change_number w1) as [[v|e] w2]; reflexivity.
  - destruct (gerrit_reviewers env endpoint change_number w1) as [[v|e] w2];
      reflexivity.
Qed.

(** One unfolding of [main]. *)
Lemma main_S (fuel : nat) (info_file endpoint : string) (change_number : Z)
  (tsc github_repo : option string) (majority_of_committers : nat) (w : W) :
  main env (S fuel) info_file endpoint change_number tsc github_repo
    majority_of_committers w =
  match gather env info_file endpoint change_number github_repo w with
  | (ev, Raise e, w1) => Some {| trace := ev; status := Uncaught e; world := w1 |}
  | (ev, Ok (info_committers, info_change), w1) =>
      let ev := (ev ++ tally_log info_committers info_change)%list in
      if (List.length (have_voted info_committers info_change) =? 0)%nat then
        Some {| trace := (ev ++ [LogInfo (Text "No one has voted:")])%list;
                status := SysExit 1; world := w1 |}
      else if Qle_bool half
                (majority (List.length (have_voted info_committers info_change))
                   (List.length info_committers)) then
        let ev := (ev ++ [LogInfo (Text "Majority committer vote reached")])%list in
        match tsc with
        | Some tsc_file =>
            if PyStr.truthy tsc_file then
              let ev := (ev ++ [LogInfo (Text "Need majority of tsc")])%list in
              if (S majority_of_committers =? 2)%nat then
                Some {| trace :=
                          (ev ++ [LogInfo
                                    (Text "TSC majority reached auto merging commit")])%list;
                        status := Returns; world := w1 |}
              else
                match main env fuel tsc_file endpoint change_number tsc
                        github_repo (S majority_of_committers) w1 with
                | None => None
                | Some r =>
                    Some {| trace := (ev ++ trace r)%list;
                            status := status r; world := world r |}
                end
            else Some {| trace := ev; status := Returns; world := w1 |}
        | None => Some {| trace := ev; status := Returns; world := w1 |}
        end
      else
        Some {| trace := (ev ++ [LogInfo (Text "majority not yet reached")])%list;
                status := SysExit 1; world := w1 |}
  end.
Proof. reflexivity. Qed.

(** With the counter at 1, [main] does not call itself. *)
Lemma main_at_one (fuel : nat) (info_file endpoint : string) (change_number : Z)
  (tsc github_repo : option string) (w : W) :
  exists r,
    main env (S fuel) info_file endpoint change_number tsc github_repo 1 w = Some r
    /\ opened (trace r) = [info_file]
    /\ main env 1 info_file endpoint change_number tsc github_repo 1 w = Some r.
Proof.
  rewrite !main_S.
  pose proof (gather_opened info_file endpoint change_number github_repo w) as Ho.
  destruct (gather env info_file endpoint change_number github_repo w)
    as [[ev [[info_committers info_change]|e]] w1]; cbn [fst] in Ho; cbn zeta.
  - destruct (_ =? 0)%nat.
    { eexists; split; [reflexivity|]. split; [|reflexivity].
      cbn [trace]. now rewrite !opened_app, Ho. }
    destruct (Qle_bool _ _).
    + destruct tsc as [tsc_file|].
      * destruct (PyStr.truthy tsc_file).
        -- cbn [Nat.eqb]. eexists; split; [reflexivity|]. split; [|reflexivity].
           cbn [trace]. now rewrite !opened_app, Ho.
        -- eexists; split; [reflexivity|]. split; [|reflexivity].
           cbn [trace]. now rewrite !opened_app, Ho.
      * eexists; split; [reflexivity|]. split; [|reflexivity].
        cbn [trace]. now rewrite !opened_app, Ho.
    + eexists; split; [reflexivity|]. split; [|reflexivity].
      cbn [trace]. now rewrite !opened_app, Ho.
  - eexists; split; [reflexivity|]. split; [|reflexivity]. exact Ho.
Qed.

(** More fuel than two changes nothing. *)
Lemma check_votes_fuel (fuel : nat) (info_file endpoint : string)
  (change_number : Z) (tsc github_repo : option string) (w : W) :
  check_votes env (2 + fuel) info_file endpoint change_number tsc github_repo w
  = check_votes env 2 info_file endpoint change_number tsc github_repo w.
Proof.
  unfold check_votes. cbn [Nat.add]. rewrite !(main_S (S _)).
  destruct (gather env info_file endpoint change_number github_repo w)
    as [[ev [[info_committers info_change]|e]] w1]; [|reflexivity].
  cbn zeta. destruct (_ =? 0)%nat; [reflexivity|].
  destruct (Qle_bool _ _); [|reflexivity].
  destruct tsc as [tsc_file|]; [|reflexivity].
  destruct (PyStr.truthy tsc_file); [|reflexivity].
  cbn [Nat.eqb].
  destruct (main_at_one fuel tsc_file endpoint change_number (Some tsc_file)
              github_repo w1) as (r & -> & _ & ->).
  reflexivity.
Qed.

(** [check_votes] ends within a depth of two: one or two calls of [main]. *)
Lemma check_votes_depth (info_file endpoint : string) (change_number : Z)
  (tsc github_repo : option string) (w : W) :
  exists r,
    check_votes env 2 info_file endpoint change_number tsc github_repo w = Some r
    /\ (List.length (opened (trace r)) <= 2)%nat.
Proof.
  unfold check_votes. rewrite main_S.
  pose proof (gather_opened info_file endpoint change_number github_repo w) as Ho.
  destruct (gather env info_file endpoint change_number github_repo w)
    as [[ev [[info_committers info_change]|e]] w1]; cbn [fst] in Ho; cbn zeta.
  - destruct (_ =? 0)%nat.
    { eexists; split; [reflexivity|].
      cbn [trace]. rewrite !opened_app, Ho. simpl. lia. }
    destruct (Qle_bool _ _).
    + destruct tsc as [tsc_file|].
      * destruct (PyStr.truthy tsc_file) eqn:Ht.
        -- cbn [Nat.eqb].
           destruct (main_at_one 0 tsc_file endpoint change_number (Some tsc_file)
                       github_repo w1) as (r2 & -> & Ho2 & _).
           eexists; split; [reflexivity|].
           cbn [trace]. rewrite !opened_app, Ho, Ho2. simpl. lia.
        -- eexists; split; [reflexivity|].
           cbn [trace]. rewrite !opened_app, Ho. simpl. lia.
      * eexists; split; [reflexivity|].
        cbn [trace]. rewrite !opened_app, Ho. simpl. lia.
    + eexists; split; [reflexivity|].
      cbn [trace]. rewrite !opened_app, Ho. simpl. lia.
  - eexists; split; [reflexivity|]. cbn [trace]. rewrite Ho. simpl. lia.
Qed.

End WithWorld.

Lemma voters_are_committers (info_committers info_change : list string) :
  (List.length (have_voted info_committers info_change)
   <= List.length info_committers)%nat.
Proof. apply filter_length_le. Qed.

Lemma majority_reached_iff (info_committers info_change : list string) :
  majority_reached info_committers info_change = true <->
  List.length (have_voted info_committers info_change) <> 0%nat
  /\ (half <= majority (List.length (have_voted info_committers info_change))
                (List.length info_committers))%Q.
Proof.
  unfold majority_reached. cbn zeta.
  now rewrite andb_true_iff, negb_true_iff, Nat.eqb_neq, Qle_bool_iff.
Qed.

(** C6: once the committers and the votes are known, a vote check without a
    TSC file fails with exit status 1 when no committer has voted, whatever
    the number of committers; otherwise, the majority being the number of
    committers who voted divided by the number of committers, it succeeds with
    exit status 0 when the majority is at least one half and fails with exit
    status 1 when it is less; the two failures are the same with a TSC file.
    One half is reached exactly when twice the voters are at least the
    committers. *)
Theorem vote_tally {W : Type} (env : Env W) (fuel : nat)
  (info_file endpoint : string) (change_number : Z)
  (tsc github_repo : option string) (w : W)
  (ev : list event) (info_committers info_change : list string) (w1 : W) :
  gather env info_file endpoint change_number github_repo w
  = (ev, Ok (info_committers, info_change), w1) ->
  let voted := List.length (have_voted info_committers info_change) in
  let total := List.length info_committers in
  let result :=
    check_votes env (S fuel) info_file endpoint change_number tsc github_repo w in
  (voted = 0%nat ->
   exists r, result = Some r /\ status r = SysExit 1
             /\ exit_status (status r) = 1%Z)
  /\ (voted <> 0%nat -> (majority voted total < half)%Q ->
      exists r, result = Some r /\ status r = SysExit 1
                /\ exit_status (status r) = 1%Z)
  /\ (voted <> 0%nat -> (half <= majority voted total)%Q -> given tsc = false ->
      exists r, result = Some r /\ status r = Returns
                /\ exit_status (status r) = 0%Z)
  /\ (voted <> 0%nat ->
      ((half <= majority voted total)%Q <-> (total <= 2 * voted)%nat)).
Proof.
  intros Hg voted total result. subst result. unfold check_votes.
  rewrite main_S, Hg. cbn zeta. fold voted total.
  split; [|split; [|split]].
  - intros ->. cbn [Nat.eqb]. eexists; split; [reflexivity|]. split; reflexivity.
  - intros Hv Hlt. apply Nat.eqb_neq in Hv. rewrite Hv.
    assert (Qle_bool half (majority voted total) = false) as ->.
    { destruct (Qle_bool half (majority voted total)) eqn:E; [|reflexivity].
      apply Qle_bool_iff in E. now apply Qlt_not_le in Hlt. }
    eexists; split; [reflexivity|]. split; reflexivity.
  - intros Hv Hle Ht. apply Nat.eqb_neq in Hv. rewrite Hv.
    apply Qle_bool_iff in Hle. rewrite Hle.
    destruct tsc as [tsc_file|]; cbn [given] in Ht.
    + rewrite Ht. eexists; split; [reflexivity|]. split; reflexivity.
    + eexists; split; [reflexivity|]. split; reflexivity.
  - intros Hv. rewrite <- Qle_bool_iff. apply majority_half.
    pose proof (voters_are_committers info_committers info_change).
    fold voted total in H. lia.
Qed.

Lemma vote_tally_witness :
  let two := [Examples.review "a" "+1"; Examples.review "b" "+2"] in
  let one := [Examples.review "a" "+1"] in
  let none := [Examples.review "a" "-1"] in
  let run reviews :=
    check_votes (Examples.gerrit Examples.project_files reviews) 1
      "INFO.yaml" "https://gerrit.example.org" 42 None None tt in
  (exists r, run two = Some r /\ status r = Returns /\ exit_status (status r) = 0%Z)
  /\ (exists r, run one = Some r /\ status r = SysExit 1
                /\ exit_status (status r) = 1%Z)
  /\ (exists r, run none = Some r /\ status r = SysExit 1
                /\ exit_status (status r) = 1%Z).
Proof.
  intros two one none run.
  split; [|split].
  - refine (proj1 (proj2 (proj2
             (vote_tally (Examples.gerrit Examples.project_files two) 0
                "INFO.yaml" "https://gerrit.example.org" 42 None None tt
                _ _ _ _ eq_refl))) _ _ eq_refl).
    + discriminate.
    + unfold Qle. simpl. lia.
  - refine (proj1 (proj2
             (vote_tally (Examples.gerrit Examples.project_files one) 0
                "INFO.yaml" "https://gerrit.example.org" 42 None None tt
                _ _ _ _ eq_refl)) _ _).
    + discriminate.
    + reflexivity.
  - exact (proj1
             (vote_tally (Examples.gerrit Examples.project_files none) 0
                "INFO.yaml" "https://gerrit.example.org" 42 None None tt
                _ _ _ _ eq_refl) eq_refl).
Defined.

Lemma logs_app (a b : list event) (text : string) :
  logs (a ++ b)%list text = logs a text || logs b text.
Proof. apply existsb_app. Qed.

(** C7: a vote check given a TSC file ends within a recursion depth of two,
    whatever the files and the votes: with two units of depth or more it gives
    one and the same run, made of one or two calls of [main].  When the
    committer stage reaches its majority, [main] calls itself once, on the TSC
    file and with the counter at 1, and that call makes no further call; when
    the TSC stage reaches its majority too, the counter reaches 2 and the run
    reports the final success and returns. *)
Theorem tsc_escalation {W : Type} (env : Env W)
  (info_file endpoint : string) (change_number : Z)
  (tsc_file : string) (github_repo : option string) (w : W) :
  PyStr.truthy tsc_file = true ->
  exists r,
    (forall fuel,
        check_votes env (2 + fuel) info_file endpoint change_number
          (Some tsc_file) github_repo w = Some r)
    /\ (List.length (opened (trace r)) <= 2)%nat
    /\ (forall ev info_committers info_change w1,
          gather env info_file endpoint change_number github_repo w
          = (ev, Ok (info_committers, info_change), w1) ->
          majority_reached info_committers info_change = true ->
          exists r2,
            main env 1 tsc_file endpoint change_number (Some tsc_file)
              github_repo 1 w1 = Some r2
            /\ trace r
               = (ev ++ tally_log info_committers info_change
                  ++ [LogInfo (Text "Majority committer vote reached");
                      LogInfo (Text "Need majority of tsc")]
                  ++ trace r2)%list
            /\ status r = status r2
            /\ opened (trace r) = [info_file; tsc_file]
            /\ (forall ev2 tsc_members tsc_votes w2,
                  gather env tsc_file endpoint change_number github_repo w1
                  = (ev2, Ok (tsc_members, tsc_votes), w2) ->
                  majority_reached tsc_members tsc_votes = true ->
                  status r = Returns
                  /\ logs (trace r) "TSC majority reached auto merging commit"
                     = true)).
Proof.
  intros Ht.
  destruct (check_votes_depth env info_file endpoint change_number (Some tsc_file)
              github_repo w) as (r & Hr & Hlen).
  exists r. split; [|split; [exact Hlen|]].
  { intros fuel. now rewrite check_votes_fuel. }
  intros ev info_committers info_change w1 Hg Hm.
  apply majority_reached_iff in Hm as [Hv Hq].
  apply Nat.eqb_neq in Hv. apply Qle_bool_iff in Hq.
  unfold check_votes in Hr. rewrite main_S, Hg in Hr. cbn zeta in Hr.
  rewrite Hv, Hq, Ht in Hr. cbn [Nat.eqb] in Hr.
  destruct (main_at_one env 0 tsc_file endpoint change_number (Some tsc_file)
              github_repo w1) as (r2 & H2 & Ho2 & _).
  rewrite H2 in Hr. injection Hr as <-. cbn [trace status].
  exists r2. split; [exact H2|].
  pose proof (gather_opened env info_file endpoint change_number github_repo w) as Ho.
  rewrite Hg in Ho. cbn [fst] in Ho.
  split; [now rewrite <- !app_assoc|]. split; [reflexivity|]. split.
  { rewrite !opened_app, Ho, Ho2. reflexivity. }
  intros ev2 tsc_members tsc_votes w2 Hg2 Hm2.
  apply majority_reached_iff in Hm2 as [Hv2 Hq2].
  apply Nat.eqb_neq in Hv2. apply Qle_bool_iff in Hq2.
  rewrite main_S, Hg2 in H2. cbn zeta in H2.
  rewrite Hv2, Hq2, Ht in H2. cbn [Nat.eqb] in H2.
  injection H2 as <-. cbn [status trace]. split; [reflexivity|].
  rewrite !logs_app. cbn [logs existsb]. rewrite String.eqb_refl.
  now rewrite !orb_true_r.
Qed.

Lemma tsc_escalation_witness :
  let env :=
    Examples.gerrit Examples.project_files
      [Examples.review "a" "+1"; Examples.review "t1" "+2";
       Examples.review "b" "+2"; Examples.review "t2" "+1"] in
  exists r,
    (forall fuel,
        check_votes env (2 + fuel) "INFO.yaml" "https://gerrit.example.org" 42
          (Some "TSC.yaml") None tt = Some r)
    /\ opened (trace r) = ["INFO.yaml"; "TSC.yaml"]
    /\ status r = Returns
    /\ logs (trace r) "TSC majority reached auto merging commit" = true.
Proof.
  intros env.
  destruct (tsc_escalation env "INFO.yaml" "https://gerrit.example.org" 42
              "TSC.yaml" None tt eq_refl) as (r & Hfuel & _ & Hstage).
  exists r. split; [exact Hfuel|].
  destruct (Hstage _ _ _ _ eq_refl eq_refl) as (r2 & _ & _ & _ & Ho & Htsc).
  split; [exact Ho|]. exact (Htsc _ _ _ _ eq_refl eq_refl).
Defined.

Lemma gerrit_votes_cons (change : reviewer) (rest : list reviewer) :
  gerrit_votes (change :: rest) =
  match username change with
  | None => Raise "KeyError: 'username'"
  | Some user =>
      match approvals change with
      | None => Raise "KeyError: 'approvals'"
      | Some labels =>
          match assoc "Code-Review" labels with
          | None => Raise "KeyError: 'Code-Review'"
          | Some code_review =>
              match gerrit_votes rest with
              | Raise e => Raise e
              | Ok more =>
                  if PyStr.contains "+1" code_review
                     || PyStr.contains "+2" code_review
                  then Ok (user :: more)
                  else Ok more
              end
          end
      end
  end.
Proof. reflexivity. Qed.

(** The user names the Gerrit branch collects: those of the reviewers whose
    Code-Review approval contains [+1] or [+2]. *)
Lemma gerrit_votes_spec (changes : list reviewer) (info_change : list string) :
  gerrit_votes changes = Ok info_change ->
  forall user,
    In user info_change <->
    exists change labels code_review,
      In change changes /\ username change = Some user
      /\ approvals change = Some labels
      /\ assoc "Code-Review" labels = Some code_review
      /\ (PyStr.contains "+1" code_review = true
          \/ PyStr.contains "+2" code_review = true).
Proof.
  revert info_change; induction changes as [|change rest IH]; intros info_change.
  - intros [= <-] user. split; [intros []|intros (c & _ & _ & [] & _)].
  - rewrite gerrit_votes_cons.
    destruct (username change) as [u|] eqn:Hu; [|discriminate].
    destruct (approvals change) as [labels|] eqn:Ha; [|discriminate].
    destruct (assoc "Code-Review" labels) as [cr|] eqn:Hc; [|discriminate].
    destruct (gerrit_votes rest) as [more|e]; [|discriminate].
    specialize (IH more eq_refl).
    destruct (PyStr.contains "+1" cr || PyStr.contains "+2" cr) eqn:Hv;
      intros [= <-] user.
    + split.
      * intros [<-|Hin].
        -- exists change, labels, cr. apply orb_true_iff in Hv.
           repeat split; auto. now left.
        -- apply IH in Hin as (c & l & r & Hc' & H'). exists c, l, r.
           split; [now right|exact H'].
      * intros (c & l & r & [<-|Hin] & Hcu & Hca & Hcc & Hcv).
        -- left. congruence.
        -- right. apply IH. now exists c, l, r.
    + split.
      * intros Hin. apply IH in Hin as (c & l & r & Hc' & H'). exists c, l, r.
        split; [now right|exact H'].
      * intros (c & l & r & [<-|Hin] & Hcu & Hca & Hcc & Hcv).
        -- rewrite Ha in Hca. injection Hca as <-. rewrite Hc in Hcc.
           injection Hcc as <-. apply orb_false_iff in Hv as [H1 H2].
           destruct Hcv; congruence.
        -- apply IH. now exists c, l, r.
Qed.

Lemma gerrit_votes_app (a b : list reviewer) :
  gerrit_votes (a ++ b)%list =
  match gerrit_votes a with
  | Raise e => Raise e
  | Ok va =>
      match gerrit_votes b with
      | Raise e => Raise e
      | Ok vb => Ok (va ++ vb)%list
      end
  end.
Proof.
  induction a as [|change a IH]; cbn [app].
  - cbn [gerrit_votes]. now destruct (gerrit_votes b).
  - rewrite !gerrit_votes_cons.
    destruct (username change) as [u|]; [|reflexivity].
    destruct (approvals change) as [labels|]; [|reflexivity].
    destruct (assoc "Code-Review" labels) as [cr|]; [|reflexivity].
    rewrite IH. destruct (gerrit_votes a) as [va|e]; [|reflexivity].
    destruct (gerrit_votes b) as [vb|e];
      now destruct (PyStr.contains "+1" cr || PyStr.contains "+2" cr).
Qed.

Lemma mem_In (item : string) (l : list string) :
  mem item l = true <-> In item l.
Proof.
  unfold mem. rewrite existsb_exists. split.
  - intros (x & Hx & E). apply String.eqb_eq in E. now subst.
  - intros H. exists item. split; [exact H|apply String.eqb_refl].
Qed.

(** In the Gerrit branch [main] asks Gerrit for the reviewers and keeps the
    user names [gerrit_votes] collects. *)
Lemma gather_gerrit {W : Type} (env : Env W)
  (info_file endpoint : string) (change_number : Z)
  (github_repo : option string) (w : W)
  (ev : list event) (info_committers info_change : list string) (w1 : W) :
  repo_of github_repo = None ->
  gather env info_file endpoint change_number github_repo w
  = (ev, Ok (info_committers, info_change), w1) ->
  exists changes w0,
    gerrit_reviewers env endpoint change_number w0 = (Ok changes, w1)
    /\ gerrit_votes changes = Ok info_change.
Proof.
  intros Hrepo. unfold gather. rewrite Hrepo.
  destruct (load_info env info_file w) as [[msg|msg|[committer_info|]] w0];
    try discriminate.
  destruct (gerrit_reviewers env endpoint change_number w0) as [[changes|e] w2] eqn:Hr;
    [|discriminate].
  destruct (gerrit_votes changes) as [votes|e] eqn:Hv; [|discriminate].
  destruct (committer_ids "id" committer_info) as [ids|e]; [|discriminate].
  intros [= _ <- <- <-]. now exists changes, w0.
Qed.

(** C10: in the Gerrit branch of the vote check a committer is counted as
    having voted exactly when some reviewer entry with the committer's user
    name has a Code-Review approval containing [+1] or [+2]; a reviewer whose
    approval is [-1], [-2] or [0] adds nothing: the votes collected are those
    collected without that entry, and a committer counts as not having voted
    exactly when no collected vote is theirs. *)
Theorem gerrit_voters {W : Type} (env : Env W)
  (info_file endpoint : string) (change_number : Z)
  (github_repo : option string) (w : W)
  (ev : list event) (info_committers info_change : list string) (w1 : W) :
  repo_of github_repo = None ->
  gather env info_file endpoint change_number github_repo w
  = (ev, Ok (info_committers, info_change), w1) ->
  exists changes,
    (exists w0, gerrit_reviewers env endpoint change_number w0 = (Ok changes, w1))
    /\ (forall c,
          In c (have_voted info_committers info_change) <->
          In c info_committers
          /\ exists change labels code_review,
               In change changes /\ username change = Some c
               /\ approvals change = Some labels
               /\ assoc "Code-Review" labels = Some code_review
               /\ (PyStr.contains "+1" code_review = true
                   \/ PyStr.contains "+2" code_review = true))
    /\ (forall pre change post user labels code_review,
          changes = (pre ++ change :: post)%list ->
          username change = Some user ->
          approvals change = Some labels ->
          assoc "Code-Review" labels = Some code_review ->
          In code_review ["-1"; "-2"; "0"] ->
          gerrit_votes (pre ++ post)%list = Ok info_change)
    /\ (forall c,
          In c (have_not_voted info_committers info_change) <->
          In c info_committers /\ ~ In c info_change).
Proof.
  intros Hrepo Hg.
  destruct (gather_gerrit env _ _ _ _ _ _ _ _ _ Hrepo Hg) as (changes & w0 & Hr & Hv).
  exists changes. split; [now exists w0|]. split; [|split].
  - intros c. unfold have_voted. rewrite filter_In, mem_In.
    now rewrite (gerrit_votes_spec changes info_change Hv c).
  - intros pre change post user labels code_review -> Hu Ha Hc Hin.
    rewrite gerrit_votes_app in Hv. rewrite gerrit_votes_app.
    destruct (gerrit_votes pre) as [va|e]; [|discriminate].
    rewrite gerrit_votes_cons, Hu, Ha, Hc in Hv.
    destruct (gerrit_votes post) as [vb|e]; [|discriminate].
    assert (PyStr.contains "+1" code_review || PyStr.contains "+2" code_review
            = false) as Hn.
    { destruct Hin as [<-|[<-|[<-|[]]]]; reflexivity. }
    now rewrite Hn in Hv.
  - intros c. unfold have_not_voted. rewrite filter_In, negb_true_iff.
    destruct (mem c info_change) eqn:E; split; intros [H1 H2];
      (split; [exact H1|]).
    + discriminate H2.
    + elim H2. now apply mem_In.
    + intros Hin. apply mem_In in Hin. congruence.
    + reflexivity.
Qed.

Lemma gerrit_voters_witness :
  let reviews :=
    [Examples.review "a" "+1"; Examples.review "b" "-1";
     Examples.review "c" "0"; Examples.review "x" "+2"] in
  let env := Examples.gerrit Examples.project_files reviews in
  have_voted ["a"; "b"; "c"; "d"] ["a"; "x"] = ["a"]
  /\ exists changes,
      (forall c,
          In c (have_voted ["a"; "b"; "c"; "d"] ["a"; "x"]) <->
          In c ["a"; "b"; "c"; "d"]
          /\ exists change labels code_review,
               In change changes /\ username change = Some c
               /\ approvals change = Some labels
               /\ assoc "Code-Review" labels = Some code_review
               /\ (PyStr.contains "+1" code_review = true
                   \/ PyStr.contains "+2" code_review = true))
      /\ (forall c,
            In c (have_not_voted ["a"; "b"; "c"; "d"] ["a"; "x"]) <->
            In c ["a"; "b"; "c"; "d"] /\ ~ In c ["a"; "x"]).
Proof.
  intros reviews env. split; [reflexivity|].
  destruct (gerrit_voters env "INFO.yaml" "https://gerrit.example.org" 42 None tt
              _ _ _ _ eq_refl eq_refl) as (changes & _ & Hvoted & _ & Hnot).
  exists changes. split; [exact Hvoted|exact Hnot].
Defined.

End InfofileFacts.

(* ================================================================= *)
(** ** More about [cluster.py] *)

Module ClusterExtra.
Import PyJson Cluster ClusterMore ClusterFacts.

Lemma requested_app (a b : list event) :
  requested (a ++ b)%list = (requested a ++ requested b)%list.
Proof.
  induction a as [|e a IH]; [reflexivity|].
  destruct e; simpl; now rewrite IH.
Qed.

Lemma fetch_one_requested {W : Type} (env : Env W) (jenkins : string) (w : W) :
  requested (fst (fst (fetch_one env jenkins w))) = [api_url jenkins].
Proof.
  unfold fetch_one. fold (api_url jenkins).
  destruct (requests_get env _ w) as [[status_code content| |msg|msg] w1];
    try reflexivity.
  destruct (negb (status_code =? 200)%nat); [reflexivity|].
  destruct content as [err|data]; [reflexivity|].
  destruct (data_builds _ data) as [appended [msg|]]; reflexivity.
Qed.

Lemma fetch_requested {W : Type} (env : Env W) (jenkins_urls : list string) (w : W) :
  requested (fst (fst (_fetch_jenkins_builds env jenkins_urls w)))
  = map api_url jenkins_urls.
Proof.
  revert w; induction jenkins_urls as [|jenkins rest IH]; intros w; [reflexivity|].
  cbn [_fetch_jenkins_builds map].
  pose proof (fetch_one_requested env jenkins w) as H1.
  destruct (fetch_one env jenkins w) as [[ev1 builds1] w1].
  specialize (IH w1).
  destruct (_fetch_jenkins_builds env rest w1) as [[ev2 builds2] w2].
  cbn [fst] in *. now rewrite requested_app, H1, IH.
Qed.

Lemma delete_orphans_requested {W : Type} (env : Env W)
  (names active : list string) (n : nat) (w : W) :
  requested (fst (fst (delete_orphans env names active n w))) = [].
Proof.
  revert n w; induction names as [|x names IH]; intros n w; [reflexivity|].
  cbn [delete_orphans].
  destruct (is_managed x).
  { specialize (IH n w). destruct (delete_orphans env names active n w) as [[ev r] w'].
    exact IH. }
  destruct (_cluster_in_jenkins x active).
  { specialize (IH n w). destruct (delete_orphans env names active n w) as [[ev r] w'].
    exact IH. }
  destruct (delete_coe_cluster env x w) as [[b|[msg|msg|msg]] w0]; try reflexivity.
  - specialize (IH (S n) w0).
    destruct (delete_orphans env names active (S n) w0) as [[ev r] w']. exact IH.
  - specialize (IH n w0).
    destruct (delete_orphans env names active n w0) as [[ev r] w']. exact IH.
Qed.

Lemma handle_requested (e : exn) : requested (fst (handle e)) = [].
Proof. now destruct e. Qed.

(** X1: a run of [cleanup] sends exactly one request per Jenkins URL it was
    given, in the order given, to [<url without trailing slashes>/computer/api/json?...];
    whatever the answers are, no URL is skipped, none is asked twice, and nothing
    else is requested.  Without a URL no request is sent. *)
Theorem cleanup_asks_every_jenkins {W : Type} (env : Env W)
  (os_cloud : string) (jenkins_urls : option string) (w : W) :
  requested (trace (cleanup env os_cloud jenkins_urls w))
  = map api_url (parse_jenkins_urls jenkins_urls).
Proof.
  unfold cleanup.
  destruct (parse_jenkins_urls jenkins_urls) as [|u urls]; [reflexivity|].
  pose proof (fetch_requested env (u :: urls) w) as Hf.
  destruct (_fetch_jenkins_builds env (u :: urls) w) as [[ev1 builds] w1].
  cbn [fst] in Hf.
  destruct (from_config env os_cloud w1) as [[[]|e] w2].
  - destruct (list_coe_clusters env w2) as [[clusters|e] w3].
    + pose proof (delete_orphans_requested env (map name clusters) builds 0 w3) as Hd.
      destruct (delete_orphans env (map name clusters) builds 0 w3)
        as [[ev4 [k|e]] w4]; cbn [fst] in Hd.
      * cbn [trace]. rewrite !requested_app, Hf, Hd. cbn. now rewrite app_nil_r.
      * pose proof (handle_requested e) as Hh.
        destruct (handle e) as [ev t]. cbn [fst] in Hh. cbn [trace].
        rewrite !requested_app, Hf, Hd, Hh. cbn. now rewrite app_nil_r.
    + pose proof (handle_requested e) as Hh.
      destruct (handle e) as [ev t]. cbn [fst] in Hh. cbn [trace].
      rewrite !requested_app, Hf. cbn. rewrite Hh. now rewrite app_nil_r.
  - cbn [trace]. rewrite !requested_app, Hf. cbn. now rewrite app_nil_r.
Qed.


Lemma rstrip_by_all (p : ascii -> bool) (t : string) :
  forallb p (list_ascii_of_string t) = true -> PyStr.rstrip_by p t = EmptyString.
Proof.
  induction t as [|c t IH]; [reflexivity|].
  simpl. intros H. apply andb_true_iff in H as [Hc Ht].
  now rewrite (IH Ht), Hc.
Qed.

Lemma rstrip_by_app_all (p : ascii -> bool) (s t : string) :
  forallb p (list_ascii_of_string t) = true ->
  PyStr.rstrip_by p (s ++ t) = PyStr.rstrip_by p s.
Proof.
  intros Ht. induction s as [|a s IH].
  - simpl. now apply rstrip_by_all.
  - simpl. now rewrite IH.
Qed.

Lemma rstrip_by_free (p : ascii -> bool) (b : string) :
  forallb (fun c => negb (p c)) (list_ascii_of_string b) = true ->
  PyStr.rstrip_by p b = b.
Proof.
  induction b as [|c b IH]; [reflexivity|].
  simpl. intros H. apply andb_true_iff in H as [Hc Hb].
  rewrite (IH Hb). destruct b; [|reflexivity].
  apply negb_true_iff in Hc. now rewrite Hc.
Qed.

Lemma rstrip_by_app_keep (p : ascii -> bool) (a b : string) :
  b <> EmptyString ->
  forallb (fun c => negb (p c)) (list_ascii_of_string b) = true ->
  PyStr.rstrip_by p (a ++ b) = a ++ b.
Proof.
  intros Hn Hb. induction a as [|x a IH].
  - simpl. now apply rstrip_by_free.
  - simpl. rewrite IH. destruct (a ++ b) eqn:E; [|reflexivity].
    destruct a; [simpl in E; now elim Hn|discriminate].
Qed.

Lemma split_on_nonempty (sep : ascii) (s : string) : PyStr.split_on sep s <> [].
Proof.
  destruct s as [|c s]; simpl; [discriminate|].
  destruct (Ascii.eqb c sep); [discriminate|].
  destruct (PyStr.split_on sep s); discriminate.
Qed.

Lemma split_on_app_sep (sep : ascii) (a b : string) :
  PyStr.split_on sep (a ++ String sep b)
  = (PyStr.split_on sep a ++ PyStr.split_on sep b)%list.
Proof.
  induction a as [|c a IH].
  - simpl. now rewrite Ascii.eqb_refl.
  - simpl. destruct (Ascii.eqb c sep).
    + now rewrite IH.
    + rewrite IH. pose proof (split_on_nonempty sep a) as Hn.
      destruct (PyStr.split_on sep a) as [|w ws]; [now elim Hn|reflexivity].
Qed.

Lemma split_on_free (sep : ascii) (s : string) :
  forallb (fun c => negb (Ascii.eqb sep c)) (list_ascii_of_string s) = true ->
  PyStr.split_on sep s = [s].
Proof.
  induction s as [|c s IH]; [reflexivity|].
  simpl. intros H. apply andb_true_iff in H as [Hc Hs].
  rewrite (IH Hs). apply negb_true_iff in Hc. rewrite Ascii.eqb_sym in Hc.
  now rewrite Hc.
Qed.

Lemma from_end_two {A : Type} (l : list A) (a b : A) :
  PyStr.from_end (l ++ [a; b])%list 2 = Some a
  /\ PyStr.from_end (l ++ [a; b])%list 1 = Some b.
Proof.
  unfold PyStr.from_end. rewrite rev_app_distr. split; reflexivity.
Qed.

Lemma from_end_last {A : Type} (l : list A) (b : A) :
  PyStr.from_end (l ++ [b])%list 1 = Some b.
Proof.
  unfold PyStr.from_end. now rewrite rev_app_distr.
Qed.

Lemma in_app_char (a b : string) (c : ascii) :
  In c (list_ascii_of_string (a ++ String c b)).
Proof.
  induction a as [|x a IH]; simpl; [now left|now right].
Qed.

(** The last two path segments of a build URL, whatever slashes end it. *)
Lemma build_url_parts (base job build tail : string) :
  no_slash job = true -> no_slash build = true -> build <> EmptyString ->
  all_slash tail = true ->
  exists front,
    PyStr.split_on slash
      (PyStr.rstrip slash (base ++ "/" ++ job ++ "/" ++ build ++ tail))
    = (front ++ [job; build])%list.
Proof.
  intros Hj Hb Hn Ht. unfold PyStr.rstrip.
  assert (base ++ "/" ++ job ++ "/" ++ build ++ tail
          = (base ++ "/" ++ job ++ "/" ++ build) ++ tail) as ->
    by now rewrite !string_app_assoc.
  rewrite (rstrip_by_app_all _ _ tail Ht).
  assert (base ++ "/" ++ job ++ "/" ++ build
          = (base ++ "/" ++ job ++ "/") ++ build) as ->
    by now rewrite !string_app_assoc.
  rewrite (rstrip_by_app_keep _ _ build Hn Hb).
  rewrite !string_app_assoc.
  change ("/" ++ job ++ "/" ++ build) with (String slash (job ++ String slash build)).
  rewrite !split_on_app_sep.
  rewrite (split_on_free slash job Hj), (split_on_free slash build Hb).
  exists (PyStr.split_on slash base). reflexivity.
Qed.

(** X2: an executor whose [currentExecutable] has the URL
    [<base>/<job>/<build>], followed by any number of slashes, adds the one
    identifier [<silo>-<job>-<build>], [job] and [build] being the last two
    segments of the URL. *)
Theorem executor_url_gives_its_build (silo base job build tail : string)
  (fields current : list (string * json)) :
  lookup "currentExecutable" fields = Some (JDict current) ->
  lookup "url" current
  = Some (JStr (base ++ "/" ++ job ++ "/" ++ build ++ tail)) ->
  no_slash job = true -> no_slash build = true -> build <> EmptyString ->
  all_slash tail = true ->
  executor_builds silo (JDict fields)
  = Val [silo ++ "-" ++ job ++ "-" ++ build].
Proof.
  intros Hc Hu Hj Hb Hn Ht.
  unfold executor_builds. cbn [get bind]. rewrite Hc. cbn [bind get]. rewrite Hu.
  cbn [bind].
  set (u := base ++ "/" ++ job ++ "/" ++ build ++ tail).
  assert (truthy (JStr u) = true) as ->.
  { unfold u. destruct base; reflexivity. }
  assert (differs_from_str (JStr u) "null" = true) as ->.
  { cbn [differs_from_str]. apply negb_true_iff.
    destruct (String.eqb_spec u "null") as [E|]; [|reflexivity].
    assert (In slash (list_ascii_of_string u)) as Hin
        by exact (in_app_char base (job ++ "/" ++ build ++ tail) slash).
    rewrite E in Hin. simpl in Hin.
    repeat (destruct Hin as [Hin|Hin]; [discriminate Hin|]). destruct Hin. }
  cbn [andb str_method bind]. unfold u.
  destruct (build_url_parts base job build tail Hj Hb Hn Ht) as (front & ->).
  rewrite length_app. cbn [List.length].
  assert ((2 <=? List.length front + 2)%nat = true) as -> by (apply Nat.leb_le; lia).
  destruct (from_end_two front job build) as [-> ->]. reflexivity.
Qed.

Lemma executor_url_gives_its_build_witness :
  executor_builds "production"
    (busy "https://jenkins.example.org/job/active-job/123/")
  = Val ["production-active-job-123"].
Proof.
  apply (executor_url_gives_its_build "production"
           "https://jenkins.example.org/job" "active-job" "123" "/"
           [("currentExecutable",
             JDict [("url", JStr "https://jenkins.example.org/job/active-job/123/")])]
           [("url", JStr "https://jenkins.example.org/job/active-job/123/")]);
    try reflexivity.
  discriminate.
Defined.


(** X3: slashes at the end of a Jenkins URL change nothing: the requests sent,
    the lines printed and the identifiers found are those of the URLs without
    them. *)
Theorem trailing_slashes_do_not_matter {W : Type} (env : Env W)
  (jenkins_urls : list string) (tail : string) (w : W) :
  all_slash tail = true ->
  _fetch_jenkins_builds env (map (fun jenkins => jenkins ++ tail) jenkins_urls) w
  = _fetch_jenkins_builds env jenkins_urls w.
Proof.
  intros Ht. revert w; induction jenkins_urls as [|jenkins rest IH]; intros w;
    [reflexivity|].
  cbn [map _fetch_jenkins_builds].
  assert (fetch_one env (jenkins ++ tail) w = fetch_one env jenkins w) as ->.
  { unfold fetch_one, PyStr.rstrip. now rewrite (rstrip_by_app_all _ jenkins tail Ht). }
  destruct (fetch_one env jenkins w) as [[ev1 builds1] w1]. now rewrite IH.
Qed.

Lemma trailing_slashes_do_not_matter_witness :
  let env :=
    Examples.cloud (Response 200 (Json Examples.one_build)) Examples.three_clusters
      (Ok true) in
  _fetch_jenkins_builds env
    (map (fun jenkins => jenkins ++ "//")
       ["https://jenkins.example.org"; "https://jenkins.example.org/sandbox"]) tt
  = _fetch_jenkins_builds env
      ["https://jenkins.example.org"; "https://jenkins.example.org/sandbox"] tt.
Proof.
  intros env.
  apply (trailing_slashes_do_not_matter env
           ["https://jenkins.example.org"; "https://jenkins.example.org/sandbox"]
           "//" tt).
  reflexivity.
Defined.

Lemma quiet_executor (silo : string) (executor : json) :
  quiet executor = true -> executor_builds silo executor = Val [].
Proof.
  unfold quiet, executor_builds.
  destruct executor as [| | | |items|fields]; try discriminate.
  cbn [get]. destruct (lookup "currentExecutable" fields) as [ce|]; [|reflexivity].
  unfold no_url. destruct ce as [| | | |items|current]; try discriminate.
  cbn [bind get].
  destruct (lookup "url" current) as [[| | |u| |]|]; try discriminate;
    try reflexivity.
  intros H. cbn [bind truthy differs_from_str].
  apply orb_true_iff in H as [H|H]; apply String.eqb_eq in H; subst; reflexivity.
Qed.

Lemma for_each_quiet (silo : string) (executors : list json) :
  forallb quiet executors = true ->
  for_each (executor_builds silo) executors = ([], None).
Proof.
  induction executors as [|e rest IH]; [reflexivity|].
  cbn [forallb for_each]. intros H. apply andb_true_iff in H as [He Hr].
  now rewrite (quiet_executor silo e He), (IH Hr).
Qed.

(** X4: a computer all of whose executors are idle adds no identifier and
    raises nothing: an executor is idle when it has no [currentExecutable], or
    one whose [url] is missing, [null], empty or the text [null]. *)
Theorem quiet_executors_add_nothing (silo : string)
  (fields : list (string * json)) (executors one_off : list json) :
  lookup "executors" fields = Some (JList executors) ->
  lookup "oneOffExecutors" fields = Some (JList one_off) ->
  forallb quiet (executors ++ one_off)%list = true ->
  computer_builds silo (JDict fields) = ([], None).
Proof.
  intros He Ho Hq. unfold computer_builds. cbn [get]. rewrite He, Ho.
  cbn [bind add iter]. now apply for_each_quiet.
Qed.

Lemma quiet_executors_add_nothing_witness :
  computer_builds "production"
    (JDict [("executors",
             JList [JDict []; JDict [("currentExecutable", JDict [])];
                    JDict [("currentExecutable", JDict [("url", JNull)])]]);
            ("oneOffExecutors",
             JList [JDict [("currentExecutable", JDict [("url", JStr "null")])];
                    JDict [("currentExecutable",
                            JDict [("url", JStr EmptyString)])]])])
  = ([], None).
Proof.
  apply (quiet_executors_add_nothing "production" _
           [JDict []; JDict [("currentExecutable", JDict [])];
            JDict [("currentExecutable", JDict [("url", JNull)])]]
           [JDict [("currentExecutable", JDict [("url", JStr "null")])];
            JDict [("currentExecutable", JDict [("url", JStr EmptyString)])]]);
    reflexivity.
Defined.

Lemma for_each_app {A : Type} (body : A -> res (list string)) (pre post : list A) :
  for_each body (pre ++ post)%list =
  match for_each body pre with
  | (appended, None) =>
      let (more, raised) := for_each body post in ((appended ++ more)%list, raised)
  | (appended, Some msg) => (appended, Some msg)
  end.
Proof.
  induction pre as [|x pre IH]; cbn [app for_each].
  - now destruct (for_each body post).
  - destruct (body x) as [appended|msg]; [|reflexivity].
    rewrite IH. destruct (for_each body pre) as [b [m|]]; [reflexivity|].
    destruct (for_each body post) as [more raised]. now rewrite app_assoc.
Qed.

Lemma for_computers_app (silo : string) (pre post : list json) :
  for_computers silo (pre ++ post)%list =
  match for_computers silo pre with
  | (appended, None) =>
      let (more, raised) := for_computers silo post in
      ((appended ++ more)%list, raised)
  | (appended, Some msg) => (appended, Some msg)
  end.
Proof.
  induction pre as [|x pre IH]; cbn [app for_computers].
  - now destruct (for_computers silo post).
  - destruct (computer_builds silo x) as [appended [msg|]]; [reflexivity|].
    rewrite IH. destruct (for_computers silo pre) as [b [m|]]; [reflexivity|].
    destruct (for_computers silo post) as [more raised]. now rewrite app_assoc.
Qed.

Lemma null_executable_raises (silo : string) (fields : list (string * json)) :
  lookup "currentExecutable" fields = Some JNull ->
  executor_builds silo (JDict fields)
  = Exc "'NoneType' object has no attribute 'get'".
Proof.
  intros H. unfold executor_builds. cbn [get]. now rewrite H.
Qed.

Lemma null_executable_scan (silo : string)
  (data computer idle : list (string * json))
  (before after executors_before executors_after one_off : list json)
  (found0 found1 : list string) :
  lookup "computer" data = Some (JList (before ++ JDict computer :: after)%list) ->
  for_computers silo before = (found0, None) ->
  lookup "executors" computer
  = Some (JList (executors_before ++ JDict idle :: executors_after)%list) ->
  lookup "oneOffExecutors" computer = Some (JList one_off) ->
  for_each (executor_builds silo) executors_before = (found1, None) ->
  lookup "currentExecutable" idle = Some JNull ->
  data_builds silo (JDict data)
  = ((found0 ++ found1)%list, Some "'NoneType' object has no attribute 'get'").
Proof.
  intros Hd H0 He Ho H1 Hi.
  unfold data_builds. cbn [get]. rewrite Hd. cbn [bind iter].
  rewrite for_computers_app, H0. cbn [for_computers].
  unfold computer_builds. cbn [get]. rewrite He, Ho. cbn [bind add iter].
  rewrite <- app_assoc. cbn [app]. rewrite for_each_app, H1.
  cbn [for_each]. rewrite (null_executable_raises silo idle Hi).
  now rewrite app_nil_r.
Qed.

(** X5: an executor whose [currentExecutable] is [null] ends the scan of a
    Jenkins answer: the identifiers found before it are kept, the executors,
    one-off executors and computers after it are never looked at, and one
    [Unexpected error] line is printed. *)
Theorem null_executable_ends_the_scan {W : Type} (env : Env W)
  (jenkins : string) (w w1 : W)
  (data computer idle : list (string * json))
  (before after executors_before executors_after one_off : list json)
  (found0 found1 : list string) :
  let silo := silo_of (PyStr.rstrip slash jenkins) in
  requests_get env (api_url jenkins) w = (Response 200 (Json (JDict data)), w1) ->
  lookup "computer" data = Some (JList (before ++ JDict computer :: after)%list) ->
  for_computers silo before = (found0, None) ->
  lookup "executors" computer
  = Some (JList (executors_before ++ JDict idle :: executors_after)%list) ->
  lookup "oneOffExecutors" computer = Some (JList one_off) ->
  for_each (executor_builds silo) executors_before = (found1, None) ->
  lookup "currentExecutable" idle = Some JNull ->
  fetch_one env jenkins w
  = ([RequestsGet (api_url jenkins);
      Print ("ERROR: Unexpected error fetching from " ++ api_url jenkins
             ++ ": 'NoneType' object has no attribute 'get'")],
     (found0 ++ found1)%list, w1).
Proof.
  intros silo Hr Hd H0 He Ho H1 Hi.
  unfold fetch_one. fold (api_url jenkins). rewrite Hr. cbn [Nat.eqb negb].
  fold silo.
  now rewrite (null_executable_scan silo data computer idle before after
                 executors_before executors_after one_off found0 found1
                 Hd H0 He Ho H1 Hi).
Qed.

Lemma null_executable_ends_the_scan_witness :
  fetch_one (Examples.cloud (Response 200 (Json half_idle)) [] (Ok true))
    "https://jenkins.example.org/" tt
  = ([RequestsGet (api_url "https://jenkins.example.org");
      Print ("ERROR: Unexpected error fetching from "
             ++ api_url "https://jenkins.example.org"
             ++ ": 'NoneType' object has no attribute 'get'")],
     ["production-first-1"; "production-second-2"], tt).
Proof.
  apply (null_executable_ends_the_scan
           (Examples.cloud (Response 200 (Json half_idle)) [] (Ok true))
           "https://jenkins.example.org/" tt tt
           [("computer", JList [first_computer; second_computer; third_computer])]
           [("executors",
             JList [busy "https://jenkins.example.org/job/second/2/"; idle;
                    busy "https://jenkins.example.org/job/third/3/"]);
            ("oneOffExecutors",
             JList [busy "https://jenkins.example.org/job/fourth/4/"])]
           [("currentExecutable", JNull)]
           [first_computer] [third_computer]
           [busy "https://jenkins.example.org/job/second/2/"]
           [busy "https://jenkins.example.org/job/third/3/"]
           [busy "https://jenkins.example.org/job/fourth/4/"]
           ["production-first-1"] ["production-second-2"]);
    reflexivity.
Defined.

Lemma executor_builds_shape (silo : string) (executor : json) (l : list string) :
  executor_builds silo executor = Val l ->
  Forall (fun b => String.prefix (silo ++ "-") b = true) l.
Proof.
  unfold executor_builds.
  destruct (get executor "currentExecutable" (JDict [])) as [ce|]; [|discriminate].
  cbn [bind]. destruct (get ce "url" JNull) as [url|]; [|discriminate].
  cbn [bind]. destruct (truthy url && differs_from_str url "null");
    [|intros [= <-]; constructor].
  destruct (str_method url "rstrip") as [u|]; [|discriminate]. cbn [bind].
  destruct (2 <=? _)%nat; [|intros [= <-]; constructor].
  destruct (PyStr.from_end _ 2) as [job|]; [|intros [= <-]; constructor].
  destruct (PyStr.from_end _ 1) as [build|]; [|intros [= <-]; constructor].
  intros [= <-]. constructor; [|constructor].
  change (silo ++ String "-" (job ++ String "-" build))
    with (silo ++ "-" ++ (job ++ String "-" build)).
  rewrite <- string_app_assoc. apply prefix_app.
Qed.

Lemma for_each_shape (silo : string) (executors : list json) :
  Forall (fun b => String.prefix (silo ++ "-") b = true)
    (fst (for_each (executor_builds silo) executors)).
Proof.
  induction executors as [|e rest IH]; [constructor|].
  cbn [for_each]. destruct (executor_builds silo e) as [l|msg] eqn:E; [|constructor].
  destruct (for_each (executor_builds silo) rest) as [more raised].
  cbn [fst] in *. apply Forall_app. split; [|exact IH].
  now apply (executor_builds_shape silo e).
Qed.

Lemma computer_builds_shape (silo : string) (computer : json) :
  Forall (fun b => String.prefix (silo ++ "-") b = true)
    (fst (computer_builds silo computer)).
Proof.
  unfold computer_builds.
  destruct (bind _ _) as [executors|msg]; [apply for_each_shape|constructor].
Qed.

Lemma for_computers_shape (silo : string) (computers : list json) :
  Forall (fun b => String.prefix (silo ++ "-") b = true)
    (fst (for_computers silo computers)).
Proof.
  induction computers as [|c rest IH]; [constructor|].
  cbn [for_computers]. pose proof (computer_builds_shape silo c) as Hc.
  destruct (computer_builds silo c) as [appended [msg|]]; [exact Hc|].
  destruct (for_computers silo rest) as [more raised].
  cbn [fst] in *. apply Forall_app. now split.
Qed.

(** X6: every identifier a Jenkins adds to the active builds starts with the
    silo of that Jenkins and a dash, whatever the answer holds. *)
Theorem identifiers_start_with_the_silo {W : Type} (env : Env W)
  (jenkins : string) (w : W) :
  Forall (fun b =>
            String.prefix (silo_of (PyStr.rstrip slash jenkins) ++ "-") b = true)
    (snd (fst (fetch_one env jenkins w))).
Proof.
  unfold fetch_one.
  destruct (requests_get env _ w) as [[status_code content| |msg|msg] w1];
    try constructor.
  destruct (negb (status_code =? 200)%nat); [constructor|].
  destruct content as [err|data]; [constructor|].
  assert (Forall (fun b =>
            String.prefix (silo_of (PyStr.rstrip slash jenkins) ++ "-") b = true)
            (fst (data_builds (silo_of (PyStr.rstrip slash jenkins)) data))) as H.
  { unfold data_builds. destruct (bind _ _) as [computers|msg];
      [apply for_computers_shape|constructor]. }
  destruct (data_builds _ data) as [appended [msg|]]; exact H.
Qed.

(** X7: the silo of a Jenkins URL is [production] when the URL contains
    [jenkins.] and one of [.org] and [.io], and otherwise what follows its
    last slash. *)
Theorem silo_is_the_last_segment (base segment : string) :
  no_slash segment = true ->
  silo_of (base ++ "/" ++ segment)
  = if PyStr.contains "jenkins." (base ++ "/" ++ segment)
       && (PyStr.contains ".org" (base ++ "/" ++ segment)
           || PyStr.contains ".io" (base ++ "/" ++ segment))
    then "production" else segment.
Proof.
  intros Hs. unfold silo_of.
  destruct (PyStr.contains "jenkins." _ && _); [reflexivity|].
  change ("/" ++ segment) with (String slash segment).
  rewrite split_on_app_sep, (split_on_free slash segment Hs).
  now rewrite from_end_last.
Qed.

Lemma silo_is_the_last_segment_witness :
  silo_of "https://ci.example.com/sandbox" = "sandbox"
  /\ silo_of "https://jenkins.example.org/sandbox" = "production".
Proof.
  split.
  - exact (silo_is_the_last_segment "https://ci.example.com" "sandbox" eq_refl).
  - exact (silo_is_the_last_segment "https://jenkins.example.org" "sandbox" eq_refl).
Defined.


Lemma prefix_blank (n a r : string) :
  no_blank n = true ->
  String.prefix n (a ++ String " " r) = String.prefix n a.
Proof.
  unfold no_blank. revert a; induction n as [|c n IH]; intros a Hn.
  - now destruct a.
  - simpl in Hn. apply andb_true_iff in Hn as [Hc Hn].
    destruct a as [|x a]; simpl.
    + destruct (ascii_dec c " ") as [->|]; [discriminate Hc|reflexivity].
    + destruct (ascii_dec c x); [now apply IH|reflexivity].
Qed.

Lemma contains_cons (n : string) (c : ascii) (hay : string) :
  PyStr.contains n (String c hay)
  = String.prefix n (String c hay) || PyStr.contains n hay.
Proof. reflexivity. Qed.

Lemma contains_blank (n a r : string) :
  no_blank n = true -> n <> EmptyString ->
  PyStr.contains n (a ++ String " " r) = PyStr.contains n a || PyStr.contains n r.
Proof.
  intros Hb Hn. induction a as [|x a IH].
  - change (EmptyString ++ String " " r) with (String " " r).
    rewrite contains_cons.
    change (String " " r) with (EmptyString ++ String " " r) at 1.
    rewrite (prefix_blank n EmptyString r Hb).
    destruct n; [now elim Hn|reflexivity].
  - change (String x a ++ String " " r) with (String x (a ++ String " " r)).
    rewrite !contains_cons, IH.
    change (String x (a ++ String " " r)) with (String x a ++ String " " r).
    rewrite (prefix_blank n (String x a) r Hb). now rewrite orb_assoc.
Qed.

(** X8: a cluster with a non-empty name free of blanks is in use exactly when
    its name occurs inside one of the build identifiers: a name is never
    matched across two identifiers.  The empty name is in use whatever the
    builds are, also when there is none. *)
Theorem in_use_means_inside_a_token (cluster_name : string) (builds : list string) :
  no_blank cluster_name = true -> cluster_name <> EmptyString ->
  (_cluster_in_jenkins cluster_name builds = true <->
   exists b, In b builds /\ PyStr.contains cluster_name b = true)
  /\ _cluster_in_jenkins EmptyString builds = true.
Proof.
  intros Hb Hn. split.
  - unfold _cluster_in_jenkins, PyStr.join.
    induction builds as [|b rest IH].
    + cbn. destruct cluster_name; [now elim Hn|]. cbn.
      split; [discriminate|]. intros (b & [] & _).
    + destruct rest as [|b2 rest].
      * cbn [String.concat]. split.
        -- intros H. exists b. split; [now left|exact H].
        -- intros (x & [<-|[]] & H). exact H.
      * change (String.concat " " (b :: b2 :: rest))
          with (b ++ String " " (String.concat " " (b2 :: rest))).
        rewrite (contains_blank _ _ _ Hb Hn), orb_true_iff, IH. split.
        -- intros [H|(x & Hx & H)].
           ++ exists b. split; [now left|exact H].
           ++ exists x. split; [now right|exact H].
        -- intros (x & [<-|Hx] & H); [now left|].
           right. exists x. now split.
  - unfold _cluster_in_jenkins. now destruct (PyStr.join " " builds).
Qed.

Lemma in_use_means_inside_a_token_witness :
  (_cluster_in_jenkins "job-12" ["production-job-1"; "production-job-123"] = true <->
   exists b, In b ["production-job-1"; "production-job-123"]
             /\ PyStr.contains "job-12" b = true)
  /\ _cluster_in_jenkins EmptyString ["production-job-1"; "production-job-123"]
     = true.
Proof.
  apply (in_use_means_inside_a_token "job-12"
           ["production-job-1"; "production-job-123"]).
  - reflexivity.
  - discriminate.
Defined.

Lemma string_app_nil_r (s : string) : s ++ EmptyString = s.
Proof. induction s as [|c s IH]; simpl; [reflexivity|now rewrite IH]. Qed.

Lemma join_extends_left (sep : string) (a l : list string) :
  exists x, String.concat sep (a ++ l)%list = x ++ String.concat sep l.
Proof.
  induction a as [|a0 a IH]; [now exists EmptyString|].
  destruct IH as [x Hx]. cbn [app].
  destruct (a ++ l)%list as [|y ys] eqn:E.
  - apply app_eq_nil in E as [-> ->]. exists a0. cbn. now rewrite string_app_nil_r.
  - exists (a0 ++ sep ++ x).
    change (String.concat sep (a0 :: y :: ys)) with (a0 ++ sep ++ String.concat sep (y :: ys)).
    now rewrite Hx, !string_app_assoc.
Qed.

Lemma join_extends_right (sep : string) (l b : list string) :
  exists y, String.concat sep (l ++ b)%list = String.concat sep l ++ y.
Proof.
  induction l as [|l0 l IH]; [now exists (String.concat sep b)|].
  destruct IH as [y Hy]. cbn [app].
  destruct l as [|l1 l].
  - cbn [app]. destruct b as [|b0 b].
    + exists EmptyString. cbn. now rewrite string_app_nil_r.
    + exists (sep ++ String.concat sep (b0 :: b)). reflexivity.
  - exists y.
    change (String.concat sep (l0 :: (l1 :: l) ++ b)%list)
      with (l0 ++ sep ++ String.concat sep ((l1 :: l) ++ b)%list).
    change (String.concat sep (l0 :: l1 :: l)) with (l0 ++ sep ++ String.concat sep (l1 :: l)).
    now rewrite Hy, !string_app_assoc.
Qed.

(** X9: more active builds never make a cluster an orphan: a cluster in use with
    some builds is in use with any list that holds them in the same order next
    to each other, and a cluster orphaned for the longer list is orphaned for
    the shorter. *)
Theorem more_builds_never_orphan (before builds after : list string)
  (cluster_name : string) :
  (_cluster_in_jenkins cluster_name builds = true ->
   _cluster_in_jenkins cluster_name (before ++ builds ++ after)%list = true)
  /\ (orphaned (before ++ builds ++ after)%list cluster_name = true ->
      orphaned builds cluster_name = true).
Proof.
  assert (_cluster_in_jenkins cluster_name builds = true ->
          _cluster_in_jenkins cluster_name (before ++ builds ++ after)%list = true)
    as Hmono.
  { unfold _cluster_in_jenkins, PyStr.join. intros H.
    apply contains_iff in H as (p & q & E).
    destruct (join_extends_left " " before (builds ++ after)%list) as [x Hx].
    destruct (join_extends_right " " builds after) as [y Hy].
    apply contains_iff. exists (x ++ p), (q ++ y).
    now rewrite Hx, Hy, E, !string_app_assoc. }
  split; [exact Hmono|].
  rewrite !orphaned_spec, !andb_true_iff, !negb_true_iff.
  intros [Hm Hj]. split; [exact Hm|].
  destruct (_cluster_in_jenkins cluster_name builds); [|reflexivity].
  now rewrite Hmono in Hj.
Qed.


Lemma successes_app (a b : list event) :
  successes (a ++ b)%list = (successes a + successes b)%nat.
Proof. unfold successes. now rewrite filter_app, length_app. Qed.

Lemma success_line (cluster_name : string) :
  is_success (Print ("INFO: Successfully deleted cluster: " ++ cluster_name)) = true.
Proof. apply prefix_app. Qed.

(** The loop counts the delete calls that returned, and nothing else. *)
Lemma delete_orphans_counts {W : Type} (env : Env W)
  (names active : list string) (n : nat) (w : W) :
  let l := delete_orphans env names active n w in
  (successes (fst (fst l)) <= List.length (delete_calls (fst (fst l))))%nat
  /\ (List.length (delete_calls (fst (fst l))) <= List.length names)%nat
  /\ (forall m, snd (fst l) = inl m -> m = (n + successes (fst (fst l)))%nat).
Proof.
  revert n w; induction names as [|x names IH]; intros n w.
  - cbn. repeat split; try lia. intros m [= <-]. lia.
  - cbn [delete_orphans].
    destruct (is_managed x).
    { specialize (IH n w). destruct (delete_orphans env names active n w) as [[ev r] w'].
      cbn [fst snd] in *. destruct IH as (H1 & H2 & H3).
      change (successes (Print ("INFO: Skipping managed cluster: " ++ x) :: ev))
        with (successes ev).
      cbn [delete_calls List.length]. repeat split; try lia. exact H3. }
    destruct (_cluster_in_jenkins x active).
    { specialize (IH n w). destruct (delete_orphans env names active n w) as [[ev r] w'].
      cbn [fst snd] in *. destruct IH as (H1 & H2 & H3).
      change (successes (Print ("INFO: Cluster " ++ x
                                ++ " is in use by active build, skipping") :: ev))
        with (successes ev).
      cbn [delete_calls List.length]. repeat split; try lia. exact H3. }
    destruct (delete_coe_cluster env x w) as [[b|[msg|msg|msg]] w0].
    + specialize (IH (S n) w0).
      destruct (delete_orphans env names active (S n) w0) as [[ev r] w'].
      cbn [fst snd] in *. destruct IH as (H1 & H2 & H3).
      unfold deleting. cbn [app delete_calls List.length].
      change (successes
                (Print ("INFO: Deleting orphaned k8s cluster: " ++ x)
                 :: DeleteCoeCluster x
                 :: Print ("INFO: Successfully deleted cluster: " ++ x) :: ev))
        with (successes (Print ("INFO: Successfully deleted cluster: " ++ x) :: ev)).
      unfold successes in *. cbn [filter]. rewrite success_line.
      cbn [List.length]. repeat split; try lia.
      intros m Hm. specialize (H3 m Hm). lia.
    + specialize (IH n w0).
      destruct (delete_orphans env names active n w0) as [[ev r] w'].
      cbn [fst snd] in *. destruct IH as (H1 & H2 & H3).
      unfold deleting. cbn [app delete_calls List.length].
      change (successes
                (Print ("INFO: Deleting orphaned k8s cluster: " ++ x)
                 :: DeleteCoeCluster x
                 :: Print ("ERROR: Failed to delete cluster " ++ x ++ ": " ++ msg)
                 :: ev))
        with (successes ev).
      repeat split; try lia. exact H3.
    + cbn. repeat split; try lia. discriminate.
    + cbn. repeat split; try lia. discriminate.
Qed.

Lemma fetch_one_successes {W : Type} (env : Env W) (jenkins : string) (w : W) :
  successes (fst (fst (fetch_one env jenkins w))) = 0%nat.
Proof.
  unfold fetch_one.
  destruct (requests_get env _ w) as [[status_code content| |msg|msg] w1];
    try reflexivity.
  destruct (negb (status_code =? 200)%nat); [reflexivity|].
  destruct content as [err|data]; [reflexivity|].
  destruct (data_builds _ data) as [appended [msg|]]; reflexivity.
Qed.

Lemma fetch_successes {W : Type} (env : Env W) (jenkins_urls : list string) (w : W) :
  successes (fst (fst (_fetch_jenkins_builds env jenkins_urls w))) = 0%nat.
Proof.
  revert w; induction jenkins_urls as [|jenkins rest IH]; intros w; [reflexivity|].
  cbn [_fetch_jenkins_builds].
  pose proof (fetch_one_successes env jenkins w) as H1.
  destruct (fetch_one env jenkins w) as [[ev1 builds1] w1].
  specialize (IH w1).
  destruct (_fetch_jenkins_builds env rest w1) as [[ev2 builds2] w2].
  cbn [fst] in *. now rewrite successes_app, H1, IH.
Qed.

(** X10: when [cleanup] reaches its loop and returns, its last line reports as
    deleted the number of delete calls that returned, each of which printed its
    [Successfully deleted] line; that number is at most the number of delete
    calls made, which is at most the number of clusters listed. *)
Theorem reported_count_is_the_successes {W : Type} (env : Env W)
  (os_cloud : string) (jenkins_urls : option string) (w : W)
  (active names : list string) (w3 : W) :
  loop_entry env os_cloud jenkins_urls w = Some (active, names, w3) ->
  let r := cleanup env os_cloud jenkins_urls w in
  status r = Returns ->
  (exists front,
      trace r
      = (front ++ [Print ("INFO: Deleted " ++ PyStr.of_nat (successes (trace r))
                         ++ " orphaned cluster(s)")])%list)
  /\ (successes (trace r) <= List.length (delete_calls (trace r)))%nat
  /\ (List.length (delete_calls (trace r)) <= List.length names)%nat.
Proof.
  unfold loop_entry, cleanup.
  destruct (parse_jenkins_urls jenkins_urls) as [|u urls]; [discriminate|].
  pose proof (fetch_successes env (u :: urls) w) as Hf.
  pose proof (fetch_no_delete env (u :: urls) w) as Hd.
  destruct (_fetch_jenkins_builds env (u :: urls) w) as [[ev1 builds] w1].
  cbn [fst] in Hf, Hd.
  destruct (from_config env os_cloud w1) as [[[]|e] w2]; [|discriminate].
  destruct (list_coe_clusters env w2) as [[clusters|e] w3']; [|discriminate].
  intros H; injection H as <- <- <-.
  destruct (delete_orphans_counts env (map name clusters) builds 0 w3')
    as (H1 & H2 & H3).
  destruct (delete_orphans env (map name clusters) builds 0 w3')
    as [[ev4 [k|e]] w4]; cbn [fst snd] in *.
  - cbn [trace status]. intros _.
    assert (successes
              ([Print ("INFO: Checking Jenkins URLs for active builds: "
                       ++ PyStr.join " " (u :: urls))] ++
               ev1 ++
               [Print ("INFO: Found " ++ PyStr.of_nat (List.length builds)
                       ++ " active builds in Jenkins"); FromConfig os_cloud] ++
               [ListCoeClusters;
                Print ("INFO: Found "
                       ++ PyStr.of_nat (List.length (map name clusters))
                       ++ " COE clusters on cloud " ++ os_cloud)] ++
               ev4 ++
               [Print ("INFO: Deleted " ++ PyStr.of_nat k
                       ++ " orphaned cluster(s)")])%list = successes ev4) as Hs.
    { rewrite !successes_app, Hf.
      change (successes [Print ("INFO: Checking Jenkins URLs for active builds: "
                                ++ PyStr.join " " (u :: urls))]) with 0%nat.
      change (successes [Print ("INFO: Found " ++ PyStr.of_nat (List.length builds)
                                ++ " active builds in Jenkins"); FromConfig os_cloud])
        with 0%nat.
      change (successes [ListCoeClusters;
                Print ("INFO: Found "
                       ++ PyStr.of_nat (List.length (map name clusters))
                       ++ " COE clusters on cloud " ++ os_cloud)]) with 0%nat.
      change (successes [Print ("INFO: Deleted " ++ PyStr.of_nat k
                                ++ " orphaned cluster(s)")]) with 0%nat.
      lia. }
    rewrite Hs. rewrite !delete_calls_app, Hd. cbn [delete_calls app].
    rewrite app_nil_r. pose proof (H3 k eq_refl) as Hk. rewrite Nat.add_0_l in Hk.
    rewrite <- Hk. split; [|split; [rewrite Hk; exact H1|exact H2]].
    exists (Print ("INFO: Checking Jenkins URLs for active builds: "
                   ++ PyStr.join " " (u :: urls))
            :: ev1 ++
            Print ("INFO: Found " ++ PyStr.of_nat (List.length builds)
                   ++ " active builds in Jenkins")
            :: FromConfig os_cloud
            :: ListCoeClusters
            :: Print ("INFO: Found "
                      ++ PyStr.of_nat (List.length (map name clusters))
                      ++ " COE clusters on cloud " ++ os_cloud)
            :: ev4)%list.
    rewrite <- app_comm_cons, <- app_assoc. reflexivity.
  - destruct (handle e) as [ev t] eqn:Hh. cbn [status]. intros ->.
    destruct e; cbn in Hh; discriminate.
Qed.

Lemma reported_count_is_the_successes_witness :
  let r :=
    cleanup (Examples.cloud (Response 200 (Json Examples.one_build))
               Examples.three_clusters (Ok true))
      "vex" (Some "https://jenkins.example.org") tt in
  (exists front,
      trace r
      = (front ++ [Print ("INFO: Deleted " ++ PyStr.of_nat (successes (trace r))
                         ++ " orphaned cluster(s)")])%list)
  /\ (successes (trace r) <= List.length (delete_calls (trace r)))%nat
  /\ (List.length (delete_calls (trace r)) <= List.length Examples.three_clusters)%nat.
Proof.
  apply (reported_count_is_the_successes
           (Examples.cloud (Response 200 (Json Examples.one_build))
              Examples.three_clusters (Ok true))
           "vex" (Some "https://jenkins.example.org") tt
           ["production-active-job-123"] Examples.three_clusters tt);
    reflexivity.
Defined.

(** X11: [list_clusters] never deletes a cluster and never asks a Jenkins; it
    either returns or ends with exit status 1; when the cloud answers, it
    returns after printing the cluster names, one per line, in the order of the
    listing. *)
Theorem list_clusters_only_lists {W : Type} (env : Env W) (os_cloud : string) (w : W) :
  let r := list_clusters env os_cloud w in
  delete_calls (trace r) = []
  /\ requested (trace r) = []
  /\ (status r = Returns \/ exit_status (status r) = 1%Z)
  /\ (forall w1 clusters w2,
        from_config env os_cloud w = (Ok tt, w1) ->
        list_coe_clusters env w1 = (Ok clusters, w2) ->
        status r = Returns /\ printed (trace r) = map name clusters).
Proof.
  assert (forall l : list coe_cluster,
             delete_calls (map (fun c => Print (name c)) l) = []
             /\ requested (map (fun c => Print (name c)) l) = []
             /\ printed (map (fun c => Print (name c)) l) = map name l) as Hl.
  { induction l as [|c l (I1 & I2 & I3)]; [now repeat split|].
    cbn. split; [exact I1|split; [exact I2|now rewrite I3]]. }
  unfold list_clusters.
  destruct (from_config env os_cloud w) as [[[]|e] w1] eqn:Hc.
  - destruct (list_coe_clusters env w1) as [[clusters|[msg|msg|msg]] w2] eqn:Hlist;
      cbn [trace status].
    + destruct (Hl clusters) as (L1 & L2 & L3).
      split; [exact L1|]. split; [exact L2|]. split; [now left|].
      intros w1' c' w2' [= <-] H. rewrite Hlist in H. injection H as <- <-.
      split; [reflexivity|exact L3].
    + split; [reflexivity|]. split; [reflexivity|]. split; [now right|].
      intros w1' c' w2' [= <-] H. rewrite Hlist in H. discriminate.
    + split; [reflexivity|]. split; [reflexivity|]. split; [now right|].
      intros w1' c' w2' [= <-] H. rewrite Hlist in H. discriminate.
    + split; [reflexivity|]. split; [reflexivity|]. split; [now right|].
      intros w1' c' w2' [= <-] H. rewrite Hlist in H. discriminate.
  - split; [reflexivity|]. split; [reflexivity|]. split; [now right|].
    intros w1' c' w2'; discriminate.
Qed.

Lemma split_one_word (w : string) :
  w <> EmptyString -> PyStr.space_free w = true -> PyStr.split w = [w].
Proof.
  unfold PyStr.space_free. induction w as [|c w IH]; [now intros H; elim H|].
  intros _ H. simpl in H. apply andb_true_iff in H as [Hc Hw].
  apply negb_true_iff in Hc. rewrite split_cons, Hc.
  destruct w as [|d w]; [reflexivity|].
  assert (PyStr.isspace d = false) as Hd.
  { simpl in Hw. apply andb_true_iff in Hw as [Hd _]. now apply negb_true_iff. }
  rewrite Hd, IH; [reflexivity|discriminate|exact Hw].
Qed.

Lemma split_word_then (w r : string) :
  w <> EmptyString -> PyStr.space_free w = true ->
  PyStr.split (w ++ String " " r) = w :: PyStr.split r.
Proof.
  unfold PyStr.space_free. induction w as [|c w IH]; [now intros H; elim H|].
  intros _ H. simpl in H. apply andb_true_iff in H as [Hc Hw].
  apply negb_true_iff in Hc.
  change (String c w ++ String " " r) with (String c (w ++ String " " r)).
  rewrite split_cons, Hc.
  destruct w as [|d w].
  - change (EmptyString ++ String " " r) with (String " " r).
    change (PyStr.isspace " ") with true. cbv iota.
    rewrite (split_cons " " r). reflexivity.
  - change (String d w ++ String " " r) with (String d (w ++ String " " r)).
    assert (PyStr.isspace d = false) as Hd.
    { simpl in Hw. apply andb_true_iff in Hw as [Hd _]. now apply negb_true_iff. }
    cbv iota. rewrite Hd.
    change (String d (w ++ String " " r)) with (String d w ++ String " " r).
    rewrite IH; [reflexivity|discriminate|exact Hw].
Qed.

Lemma split_join_words (ws : list string) :
  Forall (fun w => w <> EmptyString /\ PyStr.space_free w = true) ws ->
  PyStr.split (PyStr.join " " ws) = ws.
Proof.
  unfold PyStr.join. induction 1 as [|w ws [Hn Hs] Hws IH]; [reflexivity|].
  destruct ws as [|w2 ws].
  - cbn [String.concat]. now apply split_one_word.
  - change (String.concat " " (w :: w2 :: ws))
      with (w ++ String " " (String.concat " " (w2 :: ws))).
    rewrite (split_word_then w _ Hn Hs). now rewrite IH.
Qed.

(** X12: the Jenkins URLs [cleanup] works with are the white-space separated
    words of its argument: each is non-empty and free of white space, and
    joining them with blanks, as the first line of the run prints them, gives
    a text that parses to the same URLs. *)
Theorem jenkins_urls_round_trip (jenkins_urls : option string) :
  let jenkins_url_list := parse_jenkins_urls jenkins_urls in
  Forall (fun url => url <> EmptyString /\ PyStr.space_free url = true)
    jenkins_url_list
  /\ (forall s, jenkins_urls = Some s -> jenkins_url_list = PyStr.split s)
  /\ parse_jenkins_urls (Some (PyStr.join " " jenkins_url_list)) = jenkins_url_list.
Proof.
  cbn zeta.
  assert (Forall (fun url => url <> EmptyString /\ PyStr.space_free url = true)
            (parse_jenkins_urls jenkins_urls)) as Hw.
  { destruct jenkins_urls as [s|]; [|constructor].
    rewrite parse_is_split. apply split_words. }
  split; [exact Hw|]. split.
  - intros s ->. apply parse_is_split.
  - rewrite parse_is_split. now apply split_join_words.
Qed.

End ClusterExtra.

(* ================================================================= *)
(** ** More about [check_votes] *)

Module InfofileExtra.
Import Infofile InfofileMore InfofileFacts.

(** The votes a stage counts are asked for once, from the source
    [github_repo] selects. *)
Lemma gather_asks {W : Type} (env : Env W) (info_file endpoint : string)
  (change_number : Z) (github_repo : option string) (w : W) :
  let ev := fst (fst (gather env info_file endpoint change_number github_repo w)) in
  if unusable (fst (load_info env info_file w))
  then filter asks_for_votes ev = []
  else filter asks_for_votes ev = [vote_call endpoint change_number github_repo].
Proof.
  unfold gather, vote_call.
  destruct (load_info env info_file w) as [[msg|msg|[committer_info|]] w1];
    try reflexivity.
  cbn [fst unusable].
  destruct (repo_of github_repo) as [repo|].
  - destruct (prvotes env endpoint repo change_number w1) as [[v|e] w2]; reflexivity.
  - destruct (gerrit_reviewers env endpoint change_number w1) as [[v|e] w2];
      reflexivity.
Qed.

Lemma gather_unusable {W : Type} (env : Env W) (info_file endpoint : string)
  (change_number : Z) (github_repo : option string) (w : W) :
  unusable (fst (load_info env info_file w)) = true ->
  exists ev e,
    gather env info_file endpoint change_number github_repo w
    = (ev, Raise e, snd (load_info env info_file w))
    /\ filter asks_for_votes ev = []
    /\ (forall msg, fst (load_info env info_file w) = YamlError msg ->
        ev = [OpenInfo info_file; LogError msg])
    /\ (forall msg, fst (load_info env info_file w) = OpenFails msg ->
        ev = [OpenInfo info_file] /\ e = msg).
Proof.
  unfold gather.
  destruct (load_info env info_file w) as [[msg|msg|[committer_info|]] w1];
    cbn [fst snd unusable]; intros H; try discriminate.
  - eexists _, _. split; [reflexivity|]. split; [reflexivity|].
    split; [discriminate|]. intros m [= <-]. now split.
  - eexists _, _. split; [reflexivity|]. split; [reflexivity|].
    split; [|discriminate]. intros m [= <-]. reflexivity.
  - eexists _, _. split; [reflexivity|]. split; [reflexivity|].
    split; discriminate.
Qed.

(** X13: when the INFO file cannot be opened, is not YAML or has no
    [committers], the vote check ends with an uncaught exception and exit
    status 1 after opening that one file: neither Gerrit nor GitHub is asked,
    whatever the other arguments are; for a file that is not YAML the parse
    error is logged first, and nothing else. *)
Theorem unusable_file_asks_nobody {W : Type} (env : Env W) (fuel : nat)
  (info_file endpoint : string) (change_number : Z)
  (tsc github_repo : option string) (w : W) :
  unusable (fst (load_info env info_file w)) = true ->
  exists r,
    check_votes env (S fuel) info_file endpoint change_number tsc github_repo w
    = Some r
    /\ (exists e, status r = Uncaught e)
    /\ exit_status (status r) = 1%Z
    /\ filter asks_for_votes (trace r) = []
    /\ opened (trace r) = [info_file]
    /\ world r = snd (load_info env info_file w)
    /\ (forall msg, fst (load_info env info_file w) = YamlError msg ->
        trace r = [OpenInfo info_file; LogError msg]).
Proof.
  intros H.
  destruct (gather_unusable env info_file endpoint change_number github_repo w H)
    as (ev & e & Hg & Hask & Hy & Ho).
  unfold check_votes. rewrite main_S, Hg.
  eexists. split; [reflexivity|]. cbn [status trace world exit_status].
  split; [now exists e|]. split; [reflexivity|]. split; [exact Hask|].
  split; [|split; [reflexivity|exact Hy]].
  pose proof (gather_opened env info_file endpoint change_number github_repo w) as G.
  now rewrite Hg in G.
Qed.

Lemma unusable_file_asks_nobody_witness :
  exists r,
    check_votes (no_files (YamlError "mapping values are not allowed here")) 2
      "INFO.yaml" "https://gerrit.example.org" 42 (Some "TSC.yaml") None tt
    = Some r
    /\ (exists e, status r = Uncaught e)
    /\ exit_status (status r) = 1%Z
    /\ filter asks_for_votes (trace r) = []
    /\ opened (trace r) = ["INFO.yaml"]
    /\ world r = tt
    /\ (forall msg, YamlError "mapping values are not allowed here" = YamlError msg ->
        trace r = [OpenInfo "INFO.yaml"; LogError msg]).
Proof.
  apply (unusable_file_asks_nobody
           (no_files (YamlError "mapping values are not allowed here")) 1
           "INFO.yaml" "https://gerrit.example.org" 42 (Some "TSC.yaml") None tt).
  reflexivity.
Defined.

(** X14: the tally splits the committers in two: every entry of the committer
    list, repeated ids included, is counted once, as having voted or as not
    having voted, so the two numbers logged add up to the number of
    committers; neither list holds anybody else. *)
Theorem tally_is_a_partition (info_committers info_change : list string) :
  (List.length (have_voted info_committers info_change)
   + List.length (have_not_voted info_committers info_change)
   = List.length info_committers)%nat
  /\ (forall c, In c info_committers ->
        (In c (have_voted info_committers info_change)
         <-> ~ In c (have_not_voted info_committers info_change)))
  /\ (forall c, (In c (have_voted info_committers info_change)
                 \/ In c (have_not_voted info_committers info_change))
                -> In c info_committers)
  /\ (forall c,
        count_occ string_dec (have_voted info_committers info_change) c
        + count_occ string_dec (have_not_voted info_committers info_change) c
        = count_occ string_dec info_committers c)%nat.
Proof.
  unfold have_voted, have_not_voted. split; [|split; [|split]].
  - induction info_committers as [|x l IH]; [reflexivity|].
    cbn [filter]. destruct (mem x info_change); cbn [negb List.length]; lia.
  - intros c Hc. rewrite !filter_In. split.
    + intros [_ H] [_ H']. rewrite H in H'. discriminate.
    + intros H. split; [exact Hc|].
      destruct (mem c info_change) eqn:E; [reflexivity|].
      elim H. now split.
  - intros c [H|H]; apply filter_In in H; tauto.
  - intros c. induction info_committers as [|x l IH]; [reflexivity|].
    cbn [filter]. destruct (mem x info_change); cbn [negb count_occ];
      destruct (string_dec x c); lia.
Qed.

Lemma filter_same {A : Type} (f g : A -> bool) (l : list A) :
  (forall x, In x l -> f x = g x) -> filter f l = filter g l.
Proof.
  induction l as [|x l IH]; [reflexivity|]. intros H. cbn [filter].
  rewrite (H x (or_introl eq_refl)), IH; [reflexivity|].
  intros y Hy. apply H. now right.
Qed.

(** X15: only the votes of committers count, and each once: two collections of
    votes that hold the same committers give the same lists, the same log and
    the same verdict, whatever votes of others or repeated votes they hold. *)
Theorem only_committer_votes_count (info_committers votes other : list string) :
  (forall c, In c info_committers -> (In c votes <-> In c other)) ->
  have_voted info_committers votes = have_voted info_committers other
  /\ have_not_voted info_committers votes = have_not_voted info_committers other
  /\ tally_log info_committers votes = tally_log info_committers other
  /\ majority_reached info_committers votes
     = majority_reached info_committers other.
Proof.
  intros H.
  assert (forall c, In c info_committers -> mem c votes = mem c other) as Hm.
  { intros c Hc. specialize (H c Hc). rewrite <- !mem_In in H.
    destruct (mem c votes), (mem c other); try reflexivity.
    - symmetry. now apply H.
    - now apply H. }
  assert (have_voted info_committers votes = have_voted info_committers other) as Hv.
  { apply filter_same. exact Hm. }
  assert (have_not_voted info_committers votes
          = have_not_voted info_committers other) as Hn.
  { apply filter_same. intros c Hc. now rewrite (Hm c Hc). }
  split; [exact Hv|]. split; [exact Hn|].
  unfold tally_log, majority_reached. cbn zeta. now rewrite Hv, Hn.
Qed.

Lemma only_committer_votes_count_witness :
  have_voted ["a"; "b"; "c"] ["x"; "a"; "a"; "y"] = have_voted ["a"; "b"; "c"] ["a"]
  /\ have_not_voted ["a"; "b"; "c"] ["x"; "a"; "a"; "y"]
     = have_not_voted ["a"; "b"; "c"] ["a"]
  /\ tally_log ["a"; "b"; "c"] ["x"; "a"; "a"; "y"] = tally_log ["a"; "b"; "c"] ["a"]
  /\ majority_reached ["a"; "b"; "c"] ["x"; "a"; "a"; "y"]
     = majority_reached ["a"; "b"; "c"] ["a"].
Proof.
  apply (only_committer_votes_count ["a"; "b"; "c"] ["x"; "a"; "a"; "y"] ["a"]).
  intros c Hc. rewrite <- !mem_In.
  simpl in Hc. destruct Hc as [<-|[<-|[<-|[]]]]; now vm_compute.
Defined.


Lemma stage_numbers (info_committers info_change : list string) :
  (List.length (have_voted info_committers info_change) =? 0)%nat = false ->
  Qle_bool half
    (majority (List.length (have_voted info_committers info_change))
       (List.length info_committers)) = true ->
  (1 <= List.length (have_voted info_committers info_change))%nat
  /\ (List.length info_committers
      <= 2 * List.length (have_voted info_committers info_change))%nat.
Proof.
  intros Hv Hq. apply Nat.eqb_neq in Hv.
  pose proof (voters_are_committers info_committers info_change) as Hle.
  split; [lia|]. apply majority_half; [lia|exact Hq].
Qed.

(** X16: a vote check returns only after a majority: when it returns, the
    committers were read and the votes collected, somebody voted, and twice the
    voters are at least the committers; with a TSC file the same holds of the
    TSC file, read and counted after the committers' own. *)
Theorem success_needs_majorities {W : Type} (env : Env W) (fuel : nat)
  (info_file endpoint : string) (change_number : Z)
  (tsc github_repo : option string) (w : W) (r : run W) :
  check_votes env fuel info_file endpoint change_number tsc github_repo w = Some r ->
  status r = Returns ->
  exists ev info_committers info_change w1,
    gather env info_file endpoint change_number github_repo w
    = (ev, Ok (info_committers, info_change), w1)
    /\ (1 <= List.length (have_voted info_committers info_change))%nat
    /\ (List.length info_committers
        <= 2 * List.length (have_voted info_committers info_change))%nat
    /\ (given tsc = false -> world r = w1)
    /\ (forall tsc_file,
          tsc = Some tsc_file -> PyStr.truthy tsc_file = true ->
          exists ev2 tsc_members tsc_votes,
            gather env tsc_file endpoint change_number github_repo w1
            = (ev2, Ok (tsc_members, tsc_votes), world r)
            /\ (1 <= List.length (have_voted tsc_members tsc_votes))%nat
            /\ (List.length tsc_members
                <= 2 * List.length (have_voted tsc_members tsc_votes))%nat).
Proof.
  unfold check_votes. destruct fuel as [|fuel]; [discriminate|].
  rewrite main_S.
  destruct (gather env info_file endpoint change_number github_repo w)
    as [[ev [[info_committers info_change]|e]] w1]; cbn zeta.
  2:{ intros [= <-]. discriminate. }
  destruct (_ =? 0)%nat eqn:Hv; [intros [= <-]; discriminate|].
  destruct (Qle_bool _ _) eqn:Hq; [|intros [= <-]; discriminate].
  destruct (stage_numbers info_committers info_change Hv Hq) as [H1 H2].
  intros Hr Hs. exists ev, info_committers, info_change, w1.
  split; [reflexivity|]. split; [exact H1|]. split; [exact H2|].
  destruct tsc as [tsc_file|].
  2:{ injection Hr as <-. split; [reflexivity|discriminate]. }
  cbn [given]. destruct (PyStr.truthy tsc_file) eqn:Ht.
  2:{ injection Hr as <-. split; [reflexivity|].
      intros ? [= <-] Ht'. rewrite Ht in Ht'. discriminate. }
  split; [discriminate|]. intros ? [= <-] _.
  cbn [Nat.eqb] in Hr.
  destruct fuel as [|fuel]; [discriminate|].
  rewrite main_S in Hr.
  destruct (gather env tsc_file endpoint change_number github_repo w1)
    as [[ev2 [[tsc_members tsc_votes]|e]] w2]; cbn zeta in Hr.
  2:{ injection Hr as <-. discriminate. }
  destruct (List.length (have_voted tsc_members tsc_votes) =? 0)%nat eqn:Hv2;
    [injection Hr as <-; discriminate|].
  destruct (Qle_bool half
              (majority (List.length (have_voted tsc_members tsc_votes))
                 (List.length tsc_members))) eqn:Hq2;
    [|injection Hr as <-; discriminate].
  destruct (stage_numbers tsc_members tsc_votes Hv2 Hq2) as [H3 H4].
  rewrite Ht in Hr. cbn [Nat.eqb] in Hr. injection Hr as <-. cbn [world].
  exists ev2, tsc_members, tsc_votes. now repeat split.
Qed.

Lemma success_needs_majorities_witness :
  let env :=
    Examples.gerrit Examples.project_files
      [Examples.review "a" "+1"; Examples.review "t1" "+2";
       Examples.review "b" "+2"; Examples.review "t2" "+1"] in
  exists r ev info_committers info_change w1,
    check_votes env 2 "INFO.yaml" "https://gerrit.example.org" 42
      (Some "TSC.yaml") None tt = Some r
    /\ gather env "INFO.yaml" "https://gerrit.example.org" 42 None tt
       = (ev, Ok (info_committers, info_change), w1)
    /\ (1 <= List.length (have_voted info_committers info_change))%nat
    /\ (List.length info_committers
        <= 2 * List.length (have_voted info_committers info_change))%nat.
Proof.
  intros env.
  destruct (check_votes env 2 "INFO.yaml" "https://gerrit.example.org" 42
              (Some "TSC.yaml") None tt) as [r|] eqn:Hr; [|discriminate Hr].
  assert (status r = Returns) as Hs.
  { vm_compute in Hr. injection Hr as <-. reflexivity. }
  destruct (success_needs_majorities env 2 "INFO.yaml" "https://gerrit.example.org"
              42 (Some "TSC.yaml") None tt r Hr Hs)
    as (ev & info_committers & info_change & w1 & H0 & H1 & H2 & _).
  exists r, ev, info_committers, info_change, w1. now repeat split.
Defined.

Lemma filter_repeat {A : Type} (f : A -> bool) (x : A) (n : nat) :
  f x = true -> filter f (repeat x n) = repeat x n.
Proof.
  intros H. induction n as [|n IH]; [reflexivity|].
  cbn [repeat filter]. now rewrite H, IH.
Qed.

Lemma tally_asks_nobody (info_committers info_change : list string) :
  filter asks_for_votes (tally_log info_committers info_change) = [].
Proof. reflexivity. Qed.

Lemma gather_calls {W : Type} (env : Env W) (info_file endpoint : string)
  (change_number : Z) (github_repo : option string) (w : W) :
  exists n,
    filter asks_for_votes
      (fst (fst (gather env info_file endpoint change_number github_repo w)))
    = repeat (vote_call endpoint change_number github_repo) n
    /\ (n <= 1)%nat.
Proof.
  pose proof (gather_asks env info_file endpoint change_number github_repo w) as H.
  cbn zeta in H. destruct (unusable _).
  - exists 0%nat. split; [exact H|lia].
  - exists 1%nat. split; [exact H|lia].
Qed.

Lemma main_calls {W : Type} (env : Env W) (fuel : nat) :
  forall (info_file endpoint : string) (change_number : Z)
         (tsc github_repo : option string) (k : nat) (w : W) (r : run W),
    main env fuel info_file endpoint change_number tsc github_repo k w = Some r ->
    exists n,
      filter asks_for_votes (trace r)
      = repeat (vote_call endpoint change_number github_repo) n
      /\ (n <= List.length (opened (trace r)))%nat.
Proof.
  induction fuel as [|fuel IH]; [discriminate|].
  intros info_file endpoint change_number tsc github_repo k w r.
  rewrite main_S.
  destruct (gather_calls env info_file endpoint change_number github_repo w)
    as (n & Hn & Hle).
  pose proof (gather_opened env info_file endpoint change_number github_repo w) as Ho.
  destruct (gather env info_file endpoint change_number github_repo w)
    as [[ev [[info_committers info_change]|e]] w1]; cbn [fst] in Hn, Ho; cbn zeta.
  2:{ intros [= <-]. exists n. cbn [trace]. rewrite Ho. split; [exact Hn|exact Hle]. }
  assert (forall tail,
             filter asks_for_votes tail = [] -> opened tail = [] ->
             exists m,
               filter asks_for_votes
                 ((ev ++ tally_log info_committers info_change) ++ tail)%list
               = repeat (vote_call endpoint change_number github_repo) m
               /\ (m <= List.length
                          (opened ((ev ++ tally_log info_committers info_change)
                                   ++ tail)%list))%nat) as Hend.
  { intros tail Ht Hot. exists n.
    rewrite !filter_app, !opened_app, Hn, Ht, Ho, Hot, tally_asks_nobody.
    rewrite !app_nil_r. split; [reflexivity|exact Hle]. }
  destruct (_ =? 0)%nat; [intros [= <-]; now apply Hend|].
  destruct (Qle_bool _ _); [|intros [= <-]; now apply Hend].
  destruct tsc as [tsc_file|].
  2:{ intros [= <-]. cbn [trace]. rewrite <- app_assoc, app_assoc. now apply Hend. }
  destruct (PyStr.truthy tsc_file).
  2:{ intros [= <-]. cbn [trace]. now apply Hend. }
  destruct (S k =? 2)%nat.
  { intros [= <-]. cbn [trace]. rewrite <- !app_assoc.
    rewrite (app_assoc ev). now apply Hend. }
  destruct (main env fuel tsc_file endpoint change_number (Some tsc_file)
              github_repo (S k) w1) as [r2|] eqn:H2; [|discriminate].
  intros [= <-]. cbn [trace].
  destruct (IH _ _ _ _ _ _ _ _ H2) as (m & Hm & Hlm).
  exists (n + m)%nat.
  rewrite !filter_app, !opened_app, Hn, Hm, Ho, tally_asks_nobody.
  change (opened (tally_log info_committers info_change)) with (@nil string).
  cbn [filter asks_for_votes opened app List.length].
  rewrite repeat_app, !app_nil_r. split; [reflexivity|lia].
Qed.

(** X17: every request for votes of a vote check is the same one: to GitHub
    for the given repository when [github_repo] is given and not empty, to
    Gerrit otherwise, at the same endpoint for the same change; there is at
    most one per file opened, and at most two files are opened. *)
Theorem votes_come_from_one_source {W : Type} (env : Env W) (fuel : nat)
  (info_file endpoint : string) (change_number : Z)
  (tsc github_repo : option string) (w : W) (r : run W) :
  check_votes env fuel info_file endpoint change_number tsc github_repo w = Some r ->
  exists n,
    filter asks_for_votes (trace r)
    = repeat (vote_call endpoint change_number github_repo) n
    /\ (n <= List.length (opened (trace r)))%nat
    /\ (List.length (opened (trace r)) <= 2)%nat.
Proof.
  intros Hr.
  destruct (main_calls env fuel _ _ _ _ _ _ _ _ Hr) as (n & Hn & Hle).
  exists n. split; [exact Hn|]. split; [exact Hle|].
  destruct fuel as [|[|fuel]]; [discriminate| |].
  - unfold check_votes in Hr.
    destruct (check_votes_depth env info_file endpoint change_number tsc
                github_repo w) as (r2 & H2 & Hlen).
    unfold check_votes in H2. rewrite main_S in Hr, H2.
    destruct (gather env info_file endpoint change_number github_repo w)
      as [[ev [[info_committers info_change]|e]] w1]; cbn zeta in Hr, H2.
    2:{ rewrite Hr in H2. injection H2 as <-. exact Hlen. }
    destruct (_ =? 0)%nat; [rewrite Hr in H2; injection H2 as <-; exact Hlen|].
    destruct (Qle_bool _ _); [|rewrite Hr in H2; injection H2 as <-; exact Hlen].
    destruct tsc as [tsc_file|];
      [|rewrite Hr in H2; injection H2 as <-; exact Hlen].
    destruct (PyStr.truthy tsc_file);
      [|rewrite Hr in H2; injection H2 as <-; exact Hlen].
    cbn [Nat.eqb main] in Hr. discriminate.
  - destruct (check_votes_depth env info_file endpoint change_number tsc
                github_repo w) as (r2 & H2 & Hlen).
    change (S (S fuel)) with (2 + fuel)%nat in Hr.
    rewrite check_votes_fuel, H2 in Hr. injection Hr as <-. exact Hlen.
Qed.

Lemma votes_come_from_one_source_witness :
  let env :=
    Examples.gerrit Examples.project_files
      [Examples.review "a" "+1"; Examples.review "t1" "+2";
       Examples.review "b" "+2"; Examples.review "t2" "+1"] in
  exists r n,
    check_votes env 2 "INFO.yaml" "https://gerrit.example.org" 42
      (Some "TSC.yaml") None tt = Some r
    /\ filter asks_for_votes (trace r)
       = repeat (GerritGet "https://gerrit.example.org" 42) n
    /\ (n <= List.length (opened (trace r)))%nat
    /\ (List.length (opened (trace r)) <= 2)%nat.
Proof.
  intros env.
  destruct (check_votes env 2 "INFO.yaml" "https://gerrit.example.org" 42
              (Some "TSC.yaml") None tt) as [r|] eqn:Hr; [|discriminate Hr].
  destruct (votes_come_from_one_source env 2 "INFO.yaml"
              "https://gerrit.example.org" 42 (Some "TSC.yaml") None tt r Hr)
    as (n & H).
  exists r, n. split; [reflexivity|exact H].
Defined.


Lemma committer_ids_missing (id : string) (committer_info : list committer)
  (item : committer) :
  In item committer_info -> assoc id item = None ->
  committer_ids id committer_info = Raise ("KeyError: '" ++ id ++ "'").
Proof.
  intros Hin Hnone. induction committer_info as [|x rest IH]; [destruct Hin|].
  cbn [committer_ids]. destruct Hin as [->|Hin].
  - now rewrite Hnone.
  - destruct (assoc id x); [|reflexivity]. now rewrite (IH Hin).
Qed.

Lemma committer_ids_length (id : string) (committer_info : list committer)
  (ids : list string) :
  committer_ids id committer_info = Ok ids ->
  List.length ids = List.length committer_info
  /\ forall item, In item committer_info ->
       exists c, assoc id item = Some c /\ In c ids.
Proof.
  revert ids; induction committer_info as [|x rest IH]; intros ids.
  - intros [= <-]. split; [reflexivity|]. intros item [].
  - cbn [committer_ids]. destruct (assoc id x) as [c|] eqn:Hx; [|discriminate].
    destruct (committer_ids id rest) as [more|e]; [|discriminate].
    intros [= <-]. destruct (IH more eq_refl) as [Hl Hi].
    split; [cbn [List.length]; now rewrite Hl|].
    intros item [<-|Hin].
    + exists c. split; [exact Hx|now left].
    + destruct (Hi item Hin) as (c' & Hc & Hin'). exists c'. split; [exact Hc|now right].
Qed.

(** X18: one committer entry without the id key ([github_id] for GitHub, [id]
    for Gerrit) ends the vote check with an uncaught exception: the votes are
    asked for, no tally is logged, and when the votes arrived the exception is
    the [KeyError] of that key. *)
Theorem committer_without_id_aborts {W : Type} (env : Env W) (fuel : nat)
  (info_file endpoint : string) (change_number : Z)
  (tsc github_repo : option string) (w w1 : W)
  (committer_info : list committer) (item : committer) :
  load_info env info_file w = (Loaded (Some committer_info), w1) ->
  In item committer_info ->
  assoc (id_key github_repo) item = None ->
  exists r,
    check_votes env (S fuel) info_file endpoint change_number tsc github_repo w
    = Some r
    /\ (exists e, status r = Uncaught e)
    /\ trace r = [OpenInfo info_file; vote_call endpoint change_number github_repo]
    /\ (forall repo votes w2,
          repo_of github_repo = Some repo ->
          prvotes env endpoint repo change_number w1 = (Ok votes, w2) ->
          status r = Uncaught "KeyError: 'github_id'")
    /\ (forall changes votes w2,
          repo_of github_repo = None ->
          gerrit_reviewers env endpoint change_number w1 = (Ok changes, w2) ->
          gerrit_votes changes = Ok votes ->
          status r = Uncaught "KeyError: 'id'").
Proof.
  intros Hl Hin Hnone. unfold check_votes. rewrite main_S.
  unfold gather, vote_call, id_key in *. rewrite Hl.
  destruct (repo_of github_repo) as [repo|].
  - rewrite (committer_ids_missing "github_id" committer_info item Hin Hnone).
    destruct (prvotes env endpoint repo change_number w1) as [[votes|e] w2] eqn:Hp.
    + eexists. split; [reflexivity|]. cbn [status trace].
      split; [now eexists|]. split; [reflexivity|].
      split; [reflexivity|]. intros ? ? ? [=].
    + eexists. split; [reflexivity|]. cbn [status trace].
      split; [now eexists|]. split; [reflexivity|].
      split; [|intros ? ? ? [=]].
      intros ? ? ? [= <-] H. rewrite Hp in H. discriminate.
  - rewrite (committer_ids_missing "id" committer_info item Hin Hnone).
    destruct (gerrit_reviewers env endpoint change_number w1)
      as [[changes|e] w2] eqn:Hg.
    + destruct (gerrit_votes changes) as [votes|e] eqn:Hv.
      * eexists. split; [reflexivity|]. cbn [status trace].
        split; [now eexists|]. split; [reflexivity|].
        split; [intros ? ? ? [=]|reflexivity].
      * eexists. split; [reflexivity|]. cbn [status trace].
        split; [now eexists|]. split; [reflexivity|].
        split; [intros ? ? ? [=]|].
        intros ? ? ? _ [= <- <-]. rewrite Hv. discriminate.
    + eexists. split; [reflexivity|]. cbn [status trace].
      split; [now eexists|]. split; [reflexivity|].
      split; [intros ? ? ? [=]|]. intros ? ? ? _ [=].
Qed.

Lemma committer_without_id_aborts_witness :
  exists r,
    check_votes (Examples.gerrit Examples.project_files [Examples.review "a" "+1"]) 1
      "INFO.yaml" "lfit" 18 None (Some "releng") tt = Some r
    /\ status r = Uncaught "KeyError: 'github_id'"
    /\ trace r = [OpenInfo "INFO.yaml"; PrVotes "lfit" "releng" 18].
Proof.
  destruct (committer_without_id_aborts
              (Examples.gerrit Examples.project_files [Examples.review "a" "+1"]) 0
              "INFO.yaml" "lfit" 18 None (Some "releng") tt tt
              (Examples.committers_of ["a"; "b"; "c"; "d"])
              [("name", "a"); ("id", "a")]
              eq_refl (or_introl eq_refl) eq_refl)
    as (r & Hr & _ & Ht & Hk & _).
  exists r. split; [exact Hr|]. split; [|exact Ht].
  exact (Hk "releng" [] tt eq_refl eq_refl).
Defined.

(** X19: in the GitHub branch the file is opened, GitHub is asked once and
    Gerrit never; a committer counts as having voted exactly when their
    [github_id] is among the approvals [prvotes] returned, and as not having
    voted exactly when it is not. *)
Theorem github_voters {W : Type} (env : Env W)
  (info_file endpoint : string) (change_number : Z)
  (github_repo : option string) (repo : string) (w : W)
  (ev : list event) (info_committers info_change : list string) (w1 : W) :
  repo_of github_repo = Some repo ->
  gather env info_file endpoint change_number github_repo w
  = (ev, Ok (info_committers, info_change), w1) ->
  ev = [OpenInfo info_file; PrVotes endpoint repo change_number]
  /\ (exists committer_info w0,
        load_info env info_file w = (Loaded (Some committer_info), w0)
        /\ prvotes env endpoint repo change_number w0 = (Ok info_change, w1)
        /\ committer_ids "github_id" committer_info = Ok info_committers
        /\ List.length info_committers = List.length committer_info)
  /\ (forall c, In c (have_voted info_committers info_change)
                <-> In c info_committers /\ In c info_change)
  /\ (forall c, In c (have_not_voted info_committers info_change)
                <-> In c info_committers /\ ~ In c info_change).
Proof.
  intros Hrepo. unfold gather. rewrite Hrepo.
  destruct (load_info env info_file w) as [[msg|msg|[committer_info|]] w0];
    try discriminate.
  destruct (prvotes env endpoint repo change_number w0) as [[votes|e] w2] eqn:Hp;
    [|discriminate].
  destruct (committer_ids "github_id" committer_info) as [ids|e] eqn:Hids;
    [|discriminate].
  intros [= <- <- <- <-]. split; [reflexivity|]. split.
  { exists committer_info, w0. split; [reflexivity|]. split; [exact Hp|].
    split; [exact Hids|]. now destruct (committer_ids_length _ _ _ Hids). }
  unfold have_voted, have_not_voted. split.
  - intros c. now rewrite filter_In, mem_In.
  - intros c. rewrite filter_In, negb_true_iff, <- (mem_In c votes).
    destruct (mem c votes).
    + split; intros [H1 H2]; [discriminate H2|now elim H2].
    + split; intros [H1 H2]; (split; [exact H1|]); [discriminate|reflexivity].
Qed.

Lemma github_voters_witness :
  let env := github Examples.project_files ["b"; "stranger"; "a"] in
  have_voted ["a"; "b"; "c"; "d"] ["b"; "stranger"; "a"] = ["a"; "b"]
  /\ (forall c, In c (have_voted ["a"; "b"; "c"; "d"] ["b"; "stranger"; "a"])
                <-> In c ["a"; "b"; "c"; "d"] /\ In c ["b"; "stranger"; "a"]).
Proof.
  intros env. split; [reflexivity|].
  destruct (github_voters env "INFO.yaml" "lfit" 18 (Some "releng") "releng" tt
              [OpenInfo "INFO.yaml"; PrVotes "lfit" "releng" 18]
              ["a"; "b"; "c"; "d"] ["b"; "stranger"; "a"] tt eq_refl eq_refl)
    as (_ & _ & H & _).
  exact H.
Defined.

End InfofileExtra.

(* ================================================================= *)
(** ** [get_committers] *)

Module GetCommittersFacts.
Import PyJson PyJsonMore GetCommitters.

Lemma printed_app (a b : list event) :
  printed (a ++ b)%list = (printed a ++ printed b)%list.
Proof.
  induction a as [|e a IH]; [reflexivity|].
  destruct e; simpl; now rewrite IH.
Qed.

Lemma for_items_skips (full : bool) (id : string) (before rest : list json) :
  PyStr.truthy id = true ->
  forallb (other_id id) before = true ->
  for_items full (Some id) (before ++ rest)%list = for_items full (Some id) rest.
Proof.
  intros Hid. induction before as [|x before IH]; [reflexivity|].
  cbn [forallb app]. intros H. apply andb_true_iff in H as [Hx Hb].
  cbn [for_items given]. rewrite Hid. unfold other_id in Hx.
  destruct (subscript x "id") as [v|e]; [|discriminate].
  apply negb_true_iff in Hx. rewrite Hx. now apply IH.
Qed.

Lemma print_complete (item : json) (full : bool) :
  complete item = true ->
  print_committer_info item full = (lines full item, Val tt).
Proof.
  unfold complete, print_committer_info, lines, field.
  destruct item as [| | | | |f]; try discriminate. cbn [subscript].
  destruct (lookup "name" f); [|discriminate].
  destruct (lookup "email" f); [|discriminate].
  destruct (lookup "id" f); [|discriminate].
  intros _. now destruct full.
Qed.

(** X20: with [--id], [get_committers] prints the first committer whose id is
    the one asked for and stops: the entries after it are not looked at, so
    neither a second entry with that id nor a malformed later entry shows; an
    entry with its three keys prints its three lines with [--full] and its id
    line without. *)
Theorem id_prints_the_first_match {W : Type} (env : Env W) (file : string)
  (full : option bool) (id : string) (w w1 : W)
  (fields : list (string * json)) (before after : list json) (item : json) :
  PyStr.truthy id = true ->
  safe_load env file w = (Loaded (JDict fields), w1) ->
  lookup "committers" fields = Some (JList (before ++ item :: after)%list) ->
  forallb (other_id id) before = true ->
  subscript item "id" = Val (JStr id) ->
  let r := get_committers env file full (Some id) w in
  trace r = OpenFile file :: fst (print_committer_info item (on full))
  /\ (status r = Returns <-> snd (print_committer_info item (on full)) = Val tt)
  /\ (complete item = true ->
      status r = Returns /\ trace r = OpenFile file :: lines (on full) item).
Proof.
  intros Hid Hl Hc Hb Hi r. subst r. unfold get_committers, list_committers.
  rewrite Hl. cbn [get]. rewrite Hc. cbn [iter].
  rewrite (for_items_skips (on full) id before (item :: after) Hid Hb).
  cbn [for_items given]. rewrite Hid, Hi.
  assert (equals_str (JStr id) id = true) as ->.
  { unfold equals_str. cbn. now rewrite String.eqb_refl. }
  pose proof (print_complete item (on full)) as Hcomplete.
  destruct (print_committer_info item (on full)) as [ev [[]|e]];
    cbn [trace status fst snd].
  - split; [reflexivity|]. split; [tauto|]. intros H.
    specialize (Hcomplete H). injection Hcomplete as ->. now split.
  - split; [reflexivity|]. split; [split; discriminate|].
    intros H. specialize (Hcomplete H). discriminate.
Qed.

Lemma id_prints_the_first_match_witness :
  let r := get_committers (holding info_yaml) "INFO.yaml" (Some true) (Some "bob") tt in
  status r = Returns
  /\ trace r
     = [OpenFile "INFO.yaml"; Print "    - name: {}" (JStr "Bob");
        Print "      email: {}" (JStr "bob@example.org");
        Print "      id: {}" (JStr "bob")].
Proof.
  intros r.
  destruct (id_prints_the_first_match (holding info_yaml) "INFO.yaml" (Some true)
              "bob" tt tt
              [("project", JStr "example");
               ("committers",
                JList [entry "Ada" "ada@example.org" "ada";
                       entry "Bob" "bob@example.org" "bob";
                       JStr "not an entry";
                       entry "Bob the second" "bob2@example.org" "bob"])]
              [entry "Ada" "ada@example.org" "ada"]
              [JStr "not an entry"; entry "Bob the second" "bob2@example.org" "bob"]
              (entry "Bob" "bob@example.org" "bob")
              eq_refl eq_refl eq_refl eq_refl eq_refl)
    as (_ & _ & H).
  exact (H eq_refl).
Defined.

(** X21: with [--id], when no committer has the id asked for,
    [get_committers] prints nothing and returns normally, as it does for a file
    without committers. *)
Theorem unknown_id_prints_nothing {W : Type} (env : Env W) (file : string)
  (full : option bool) (id : string) (w w1 : W)
  (fields : list (string * json)) (items : list json) :
  PyStr.truthy id = true ->
  safe_load env file w = (Loaded (JDict fields), w1) ->
  lookup "committers" fields = Some (JList items) ->
  forallb (other_id id) items = true ->
  get_committers env file full (Some id) w
  = {| trace := [OpenFile file]; status := Returns; world := w1 |}.
Proof.
  intros Hid Hl Hc Hb. unfold get_committers, list_committers.
  rewrite Hl. cbn [get]. rewrite Hc. cbn [iter].
  rewrite <- (app_nil_r items).
  now rewrite (for_items_skips (on full) id items [] Hid Hb).
Qed.

Lemma unknown_id_prints_nothing_witness :
  get_committers
    (holding (JDict [("committers",
                      JList [entry "Ada" "ada@example.org" "ada";
                             entry "Bob" "bob@example.org" "bob"])]))
    "INFO.yaml" (Some true) (Some "eve") tt
  = {| trace := [OpenFile "INFO.yaml"]; status := Returns; world := tt |}.
Proof.
  apply (unknown_id_prints_nothing _ "INFO.yaml" (Some true) "eve" tt tt
           [("committers",
             JList [entry "Ada" "ada@example.org" "ada";
                    entry "Bob" "bob@example.org" "bob"])]
           [entry "Ada" "ada@example.org" "ada";
            entry "Bob" "bob@example.org" "bob"]);
    reflexivity.
Defined.

Lemma for_items_id_only (id : string) (items : list json) :
  PyStr.truthy id = true ->
  printed (fst (for_items false (Some id) items)) = []
  \/ (printed (fst (for_items false (Some id) items)) = [("      id: {}", JStr id)]
      /\ snd (for_items false (Some id) items) = Val tt).
Proof.
  intros Hid. induction items as [|x rest IH]; [now left|].
  cbn [for_items given]. rewrite Hid.
  destruct (subscript x "id") as [v|e] eqn:Hx; [|now left].
  destruct (equals_str v id) eqn:Hv; [|exact IH].
  unfold print_committer_info. rewrite Hx. right. cbn.
  unfold equals_str in Hv. apply negb_true_iff in Hv.
  destruct v; try discriminate. cbn in Hv. apply negb_false_iff in Hv.
  apply String.eqb_eq in Hv. now subst.
Qed.

(** X22: with [--id] and without [--full], whatever the file holds,
    [get_committers] prints either nothing or the one line with the id asked
    for, and in the second case it returns normally. *)
Theorem id_alone_tests_membership {W : Type} (env : Env W) (file : string)
  (full : option bool) (id : string) (w : W) :
  PyStr.truthy id = true -> on full = false ->
  let r := get_committers env file full (Some id) w in
  printed (trace r) = []
  \/ (printed (trace r) = [("      id: {}", JStr id)] /\ status r = Returns).
Proof.
  intros Hid Hfull r. subst r. unfold get_committers, list_committers.
  rewrite Hfull.
  destruct (safe_load env file w) as [[e|e|project] w1]; try now left.
  destruct (get project "committers" (JList [])) as [lookup|msg]; [|now left].
  destruct (iter lookup) as [items|msg]; [|now left].
  destruct (for_items_id_only id items Hid) as [H|[H Hs]].
  - left. destruct (for_items false (Some id) items) as [ev [[]|e]]; exact H.
  - right. destruct (for_items false (Some id) items) as [ev [[]|e]];
      cbn [fst snd] in *; [now split|discriminate].
Qed.

Lemma id_alone_tests_membership_witness :
  let r := get_committers (holding info_yaml) "INFO.yaml" None (Some "bob") tt in
  printed (trace r) = []
  \/ (printed (trace r) = [("      id: {}", JStr "bob")] /\ status r = Returns).
Proof.
  apply (id_alone_tests_membership (holding info_yaml) "INFO.yaml" None "bob" tt);
    reflexivity.
Defined.

(** X23: without [--id], and with committers that all have their three keys,
    [get_committers] prints every committer in the order of the file, three
    lines each with [--full] and one line each without, and returns. *)
Theorem without_id_lists_everyone {W : Type} (env : Env W) (file : string)
  (full : option bool) (id : option string) (w w1 : W)
  (fields : list (string * json)) (items : list json) :
  given id = false ->
  safe_load env file w = (Loaded (JDict fields), w1) ->
  lookup "committers" fields = Some (JList items) ->
  forallb complete items = true ->
  let r := get_committers env file full id w in
  status r = Returns
  /\ trace r = OpenFile file :: flat_map (lines (on full)) items
  /\ List.length (printed (trace r))
     = ((if on full then 3 else 1) * List.length items)%nat.
Proof.
  intros Hid Hl Hc Hall r. subst r. unfold get_committers, list_committers.
  rewrite Hl. cbn [get]. rewrite Hc. cbn [iter].
  assert (for_items (on full) id items
          = (flat_map (lines (on full)) items, Val tt)) as ->.
  { clear Hc. induction items as [|x rest IH]; [reflexivity|].
    cbn [forallb] in Hall. apply andb_true_iff in Hall as [Hx Hr].
    cbn [for_items flat_map]. rewrite Hid, (print_complete x (on full) Hx).
    now rewrite (IH Hr). }
  cbn [status trace printed]. split; [reflexivity|]. split; [reflexivity|].
  clear. induction items as [|x rest IH]; [cbn; lia|].
  cbn [flat_map List.length]. rewrite printed_app, length_app, IH.
  unfold lines. destruct (on full); cbn [printed List.length]; lia.
Qed.

Lemma without_id_lists_everyone_witness :
  let r :=
    get_committers
      (holding (JDict [("committers",
                        JList [entry "Ada" "ada@example.org" "ada";
                               entry "Bob" "bob@example.org" "bob"])]))
      "INFO.yaml" None None tt in
  status r = Returns
  /\ trace r
     = [OpenFile "INFO.yaml"; Print "      id: {}" (JStr "ada");
        Print "      id: {}" (JStr "bob")]
  /\ List.length (printed (trace r)) = 2%nat.
Proof.
  apply (without_id_lists_everyone _ "INFO.yaml" None None tt tt
           [("committers",
             JList [entry "Ada" "ada@example.org" "ada";
                    entry "Bob" "bob@example.org" "bob"])]
           [entry "Ada" "ada@example.org" "ada";
            entry "Bob" "bob@example.org" "bob"]);
    reflexivity.
Defined.

End GetCommittersFacts.

(* ================================================================= *)
(** ** [create_info_file] *)

Module CreateInfoFileFacts.
Import PyJson PyJsonMore CreateInfoFile ClusterExtra.

Lemma replace_translate (old new : ascii) (s : string) :
  replace old (String new EmptyString) s
  = translate (fun c => if Ascii.eqb c old then new else c) s.
Proof.
  induction s as [|c s IH]; [reflexivity|].
  cbn [replace translate]. rewrite IH. now destruct (Ascii.eqb c old).
Qed.

Lemma translate_translate (f g : ascii -> ascii) (s : string) :
  translate f (translate g s) = translate (fun c => f (g c)) s.
Proof. induction s as [|c s IH]; [reflexivity|]. cbn. now rewrite IH. Qed.

Lemma translate_ext (f g : ascii -> ascii) (s : string) :
  (forall c, f c = g c) -> translate f s = translate g s.
Proof.
  intros H. induction s as [|c s IH]; [reflexivity|]. cbn. now rewrite IH, H.
Qed.

Lemma translate_length (f : ascii -> ascii) (s : string) :
  String.length (translate f s) = String.length s.
Proof. induction s as [|c s IH]; [reflexivity|]. cbn. now rewrite IH. Qed.

(** X24: the three replacements that derive the names from the Gerrit project
    compose to one character map: [project_underscored] is the project with
    every slash, dash and underscore turned into an underscore,
    [project_dashed] the project with every one of them turned into a dash;
    both are as long as the project name. *)
Theorem project_names (gerrit_project : string) :
  project_underscored gerrit_project
  = translate (fun c => if is_separator c then "_"%char else c) gerrit_project
  /\ project_dashed gerrit_project
     = translate (fun c => if is_separator c then "-"%char else c) gerrit_project
  /\ String.length (project_underscored gerrit_project)
     = String.length gerrit_project
  /\ String.length (project_dashed gerrit_project) = String.length gerrit_project.
Proof.
  assert (project_underscored gerrit_project
          = translate (fun c => if is_separator c then "_"%char else c)
              gerrit_project) as Hu.
  { unfold project_underscored. rewrite !replace_translate, translate_translate.
    apply translate_ext. intros c. unfold is_separator.
    destruct (Ascii.eqb_spec c "/") as [->|H1]; [reflexivity|].
    destruct (Ascii.eqb_spec c "-") as [->|H2]; [reflexivity|].
    destruct (Ascii.eqb_spec c "_") as [->|H3]; reflexivity. }
  assert (project_dashed gerrit_project
          = translate (fun c => if is_separator c then "-"%char else c)
              gerrit_project) as Hd.
  { unfold project_dashed. rewrite Hu, replace_translate, translate_translate.
    apply translate_ext. intros c. unfold is_separator.
    destruct (Ascii.eqb_spec c "/") as [->|H1]; [reflexivity|].
    destruct (Ascii.eqb_spec c "-") as [->|H2]; [reflexivity|].
    destruct (Ascii.eqb_spec c "_") as [->|H3]; [reflexivity|].
    cbn [orb]. apply Ascii.eqb_neq in H3. now rewrite H3. }
  split; [exact Hu|]. split; [exact Hd|].
  rewrite Hu, Hd, !translate_length. now split.
Qed.

Lemma split_no_dot (s : string) :
  no_dot s = true -> PyStr.split_on "." s = [s].
Proof. apply split_on_free. Qed.

(** X25: given a Gerrit host name without a dot, [create_info_file] ends with
    an [IndexError] before anything else happens: nothing is printed and no
    setting, Gerrit or LDAP is asked, with or without [--empty]. *)
Theorem url_without_dot_fails_first {W : Type} (env : Env W)
  (gerrit_url gerrit_project directory : string) (empty : bool)
  (tsc_approval : string) (w : W) :
  no_dot gerrit_url = true ->
  create_info_file env gerrit_url gerrit_project directory empty tsc_approval w
  = {| trace := []; status := Uncaught "IndexError: list index out of range";
       world := w |}.
Proof.
  intros H. unfold create_info_file, umbrella_of.
  now rewrite (split_no_dot gerrit_url H).
Qed.

Lemma url_without_dot_fails_first_witness :
  create_info_file (office (access_of "ldap:cn=g,ou=Groups") JNull)
    "localhost" "releng/builder" "r" true "missing" tt
  = {| trace := []; status := Uncaught "IndexError: list index out of range";
       world := tt |}.
Proof.
  apply (url_without_dot_fails_first
           (office (access_of "ldap:cn=g,ou=Groups") JNull)
           "localhost" "releng/builder" "r" true "missing" tt).
  reflexivity.
Defined.

Lemma after_dot_app (host rest : string) :
  no_dot host = true -> after_dot (host ++ String "." rest) = Some rest.
Proof.
  unfold no_dot. induction host as [|c host IH].
  - intros _. cbn [append after_dot]. now rewrite Ascii.eqb_refl.
  - cbn [list_ascii_of_string forallb append after_dot]. intros H.
    apply andb_true_iff in H as [Hc Hh].
    apply negb_true_iff in Hc. rewrite Ascii.eqb_sym in Hc. rewrite Hc.
    now apply IH.
Qed.

Lemma first_line_all (s : string) : one_line s = true -> first_line s = s.
Proof.
  unfold one_line. induction s as [|c s IH]; [reflexivity|].
  cbn [list_ascii_of_string forallb first_line]. intros H.
  apply andb_true_iff in H as [Hc Hs].
  apply negb_true_iff in Hc. now rewrite Hc, (IH Hs).
Qed.

(** X26: for a host name [<host>.<umbrella>] or [<host>.<umbrella>.<rest>] the
    umbrella is the second label and the domain written into the issue
    tracker, mailing list and wiki addresses is everything after the first
    dot. *)
Theorem umbrella_and_domain (host umbrella tail : string) :
  no_dot host = true -> no_dot umbrella = true ->
  one_line (umbrella ++ tail) = true ->
  tail = EmptyString \/ (exists rest, tail = String "." rest) ->
  umbrella_of (host ++ "." ++ umbrella ++ tail) = Val umbrella
  /\ umbrella_tld_of (host ++ "." ++ umbrella ++ tail) = Val (umbrella ++ tail).
Proof.
  intros Hh Hu Hl Ht.
  change (host ++ "." ++ umbrella ++ tail)
    with (host ++ String "." (umbrella ++ tail)).
  split.
  - unfold umbrella_of. rewrite split_on_app_sep, (split_no_dot host Hh).
    destruct Ht as [->|(rest & ->)].
    + rewrite string_app_nil_r, (split_no_dot umbrella Hu). reflexivity.
    + rewrite split_on_app_sep, (split_no_dot umbrella Hu). reflexivity.
  - unfold umbrella_tld_of. rewrite (after_dot_app host _ Hh).
    now rewrite (first_line_all _ Hl).
Qed.

Lemma umbrella_and_domain_witness :
  umbrella_of "gerrit.o-ran-sc.org" = Val "o-ran-sc"
  /\ umbrella_tld_of "gerrit.o-ran-sc.org" = Val "o-ran-sc.org".
Proof.
  apply (umbrella_and_domain "gerrit" "o-ran-sc" ".org"); try reflexivity.
  right. now exists "org".
Defined.

Lemma after_dot_none (s : string) :
  after_dot s = None -> PyStr.split_on "." s = [s].
Proof.
  induction s as [|c s IH]; [reflexivity|].
  cbn [after_dot PyStr.split_on]. destruct (Ascii.eqb c "."); [discriminate|].
  intros H. now rewrite (IH H).
Qed.

Lemma umbrella_gives_domain (gerrit_url umbrella : string) :
  umbrella_of gerrit_url = Val umbrella ->
  exists umbrella_tld, umbrella_tld_of gerrit_url = Val umbrella_tld.
Proof.
  unfold umbrella_of, umbrella_tld_of.
  destruct (after_dot gerrit_url) as [rest|] eqn:H; [now eexists|].
  now rewrite (after_dot_none gerrit_url H).
Qed.

(** X27: with [--empty] and a host name that has a dot, [create_info_file]
    returns without asking the settings, Gerrit or LDAP, whatever the
    directory; it prints the INFO text, the repository, the committers anchor,
    the empty committer and the TSC block, in that order. *)
Theorem empty_asks_nobody {W : Type} (env : Env W)
  (gerrit_url gerrit_project directory tsc_approval umbrella : string) (w : W) :
  umbrella_of gerrit_url = Val umbrella ->
  let r :=
    create_info_file env gerrit_url gerrit_project directory true tsc_approval w in
  status r = Returns
  /\ filter is_call (trace r) = []
  /\ world r = snd (today env w)
  /\ exists umbrella_tld,
      umbrella_tld_of gerrit_url = Val umbrella_tld
      /\ filter is_output (trace r)
         = [Print (long_string (project_underscored gerrit_project)
                     (fst (today env w)) (short_name umbrella) umbrella_tld);
            Print "repositories:";
            Print ("    - " ++ gerrit_project);
            Print "committers:";
            Print ("    - <<: *" ++ short_name umbrella ++ "_"
                   ++ project_underscored gerrit_project ++ "_ptl");
            Write (JStr empty_committer);
            Print (cleandoc env (tsc_string tsc_approval))].
Proof.
  intros Hu r. subst r.
  destruct (umbrella_gives_domain gerrit_url umbrella Hu) as [umbrella_tld Ht].
  unfold create_info_file. rewrite Hu, Ht. cbn [bind negb]. unfold write_info.
  destruct (today env w) as [date w1]. cbn [negb fst snd status trace world].
  split; [reflexivity|]. split; [reflexivity|]. split; [reflexivity|].
  exists umbrella_tld. split; reflexivity.
Qed.

Lemma empty_asks_nobody_witness :
  let r :=
    create_info_file (office JNull JNull) "gerrit.opendaylight.org"
      "releng/builder" "r" true "missing" tt in
  status r = Returns /\ filter is_call (trace r) = [].
Proof.
  intros r.
  destruct (empty_asks_nobody (office JNull JNull) "gerrit.opendaylight.org"
              "releng/builder" "r" "missing" "opendaylight" tt eq_refl)
    as (H1 & H2 & _).
  split; [exact H1|exact H2].
Defined.


(** X28: when the access rights Gerrit returns have no owner rules,
    [create_info_file] prints its [no owner set] line and then ends with an
    uncaught exception: nothing of the INFO file is printed and LDAP is not
    asked. *)
Theorem no_owner_means_no_file {W : Type} (env : Env W)
  (gerrit_url gerrit_project directory tsc_approval umbrella : string)
  (user pass1 : string) (result : json) (w w1 w2 w3 : W) :
  let url := "https://" ++ gerrit_url ++ "/" ++ directory in
  let access_str := "projects/" ++ projectid_encoded gerrit_project ++ "/access" in
  umbrella_of gerrit_url = Val umbrella ->
  get_setting env "gerrit" "username" w = (Ok user, w1) ->
  get_setting env "gerrit" "password" w1 = (Ok pass1, w2) ->
  rest_get env url user pass1 access_str w2 = (Ok result, w3) ->
  snd (check_inherits result) = Val tt ->
  (exists e, owner_rules result = Exc e) ->
  let r :=
    create_info_file env gerrit_url gerrit_project directory false tsc_approval w in
  (exists e, status r = Uncaught e)
  /\ trace r
     = ([GetSetting "gerrit" "username"; GetSetting "gerrit" "password";
         RestGet url access_str]
        ++ fst (check_inherits result)
        ++ [Print "ERROR: Check project config, no owner set!"])%list
  /\ world r = w3.
Proof.
  intros url access_str Hu H1 H2 H3 Hi [e He] r. subst r.
  destruct (umbrella_gives_domain gerrit_url umbrella Hu) as [umbrella_tld Ht].
  unfold create_info_file. rewrite Hu, Ht. cbn [bind negb].
  unfold ask_gerrit. rewrite H1, H2. fold url access_str. rewrite H3.
  destruct (check_inherits result) as [ev1 [[]|e1]]; cbn [snd] in Hi;
    [|discriminate].
  unfold check_owner. rewrite He. cbn [status trace world fst].
  split; [now eexists|]. split; reflexivity.
Qed.

Lemma no_owner_means_no_file_witness :
  let r :=
    create_info_file (office (JDict [("local", JDict [])]) JNull)
      "gerrit.onap.org" "releng/builder" "r" false "missing" tt in
  (exists e, status r = Uncaught e)
  /\ trace r
     = [GetSetting "gerrit" "username"; GetSetting "gerrit" "password";
        RestGet "https://gerrit.onap.org/r" "projects/releng%2Fbuilder/access";
        Print "ERROR: Check project config, no owner set!"]
  /\ world r = tt.
Proof.
  apply (no_owner_means_no_file (office (JDict [("local", JDict [])]) JNull)
           "gerrit.onap.org" "releng/builder" "r" "missing" "onap"
           "secret" "secret" (JDict [("local", JDict [])]) tt tt tt tt);
    try reflexivity.
  now eexists.
Defined.

Lemma match_here_cons (c : ascii) (rest : string) :
  match_here (String c rest) =
  if Ascii.eqb c "=" then None
  else match match_here rest with
       | Some m => Some (String c m)
       | None =>
           match rest with
           | String d _ =>
               if Ascii.eqb d "," then Some (String c EmptyString) else None
           | EmptyString => None
           end
       end.
Proof. reflexivity. Qed.

Lemma search_cons (c : ascii) (rest : string) :
  search (String c rest) =
  match match_here (String c rest) with
  | Some m => Some m
  | None => search rest
  end.
Proof. reflexivity. Qed.

Lemma match_here_group (s m : string) :
  match_here s = Some m -> has_group s = true.
Proof.
  revert m; induction s as [|c rest IH]; intros m; [discriminate|].
  rewrite match_here_cons.
  destruct (Ascii.eqb c "=") eqn:Hc; [discriminate|].
  destruct (match_here rest) as [m'|] eqn:Hm.
  - intros _. destruct rest as [|d t]; [discriminate|].
    change (has_group (String c (String d t)))
      with (negb (Ascii.eqb c "=") && Ascii.eqb d "," || has_group (String d t)).
    rewrite (IH m' eq_refl). apply orb_true_r.
  - destruct rest as [|d t]; [discriminate|].
    change (has_group (String c (String d t)))
      with (negb (Ascii.eqb c "=") && Ascii.eqb d "," || has_group (String d t)).
    rewrite Hc. destruct (Ascii.eqb d ","); [reflexivity|discriminate].
Qed.

Lemma search_group (s m : string) : search s = Some m -> has_group s = true.
Proof.
  revert m; induction s as [|c rest IH]; intros m.
  - cbn. discriminate.
  - rewrite search_cons. destruct (match_here (String c rest)) as [m'|] eqn:Hm.
    + intros _. exact (match_here_group _ _ Hm).
    + intros H. specialize (IH m H).
      destruct rest as [|d t]; [discriminate|].
      change (has_group (String c (String d t)))
        with (negb (Ascii.eqb c "=") && Ascii.eqb d "," || has_group (String d t)).
      rewrite IH. apply orb_true_r.
Qed.

Lemma group_search (s : string) :
  has_group s = true -> exists m, search s = Some m.
Proof.
  induction s as [|c rest IH]; [discriminate|].
  destruct rest as [|d t]; [discriminate|].
  change (has_group (String c (String d t)))
    with (negb (Ascii.eqb c "=") && Ascii.eqb d "," || has_group (String d t)).
  intros H. apply orb_true_iff in H as [H|H].
  - apply andb_true_iff in H as [Hc Hd]. apply negb_true_iff in Hc.
    assert (exists m, match_here (String c (String d t)) = Some m) as [m Hm].
    { rewrite match_here_cons, Hc.
      destruct (match_here (String d t)) as [m'|]; [now eexists|].
      rewrite Hd. now eexists. }
    exists m. now rewrite search_cons, Hm.
  - destruct (IH H) as [m Hm].
    rewrite search_cons. destruct (match_here (String c (String d t))) as [m'|];
      [now eexists|]. now exists m.
Qed.

(** X29: the search in an owner rule finds a group exactly when some comma of
    the rule follows a character other than [=]; the loop over the owner rules
    ends without an exception exactly when every rule is of that kind. *)
Theorem owner_rule_needs_a_group (keys : list string) (previous : option string) :
  (forall x, (exists group, search x = Some group) <-> has_group x = true)
  /\ ((exists ldap_group, owner_groups (map JStr keys) previous = Val ldap_group)
      <-> forallb has_group keys = true).
Proof.
  assert (forall x, (exists group, search x = Some group) <-> has_group x = true)
    as Hx.
  { intros x. split; [intros [m Hm]; exact (search_group x m Hm)|apply group_search]. }
  split; [exact Hx|].
  revert previous; induction keys as [|x rest IH]; intros previous.
  - cbn. split; [reflexivity|]. intros _. now eexists.
  - cbn [map owner_groups forallb]. rewrite andb_true_iff.
    destruct (search x) as [group|] eqn:Hs.
    + rewrite IH. split; [|tauto]. intros H. split; [|exact H].
      apply Hx. now exists group.
    + split; [intros [g Hg]; discriminate|].
      intros [H _]. apply Hx in H as [g Hg]. rewrite Hs in Hg. discriminate.
Qed.

Lemma ask_gerrit_no_ldap {W : Type} (env : Env W) (url encoded group : string)
  (w : W) :
  ~ In (Yaml4Info group) (fst (fst (ask_gerrit env url encoded w))).
Proof.
  unfold ask_gerrit.
  destruct (get_setting env "gerrit" "username" w) as [[user|e] w1];
    [|cbn; intros [H|[]]; discriminate].
  destruct (get_setting env "gerrit" "password" w1) as [[pass1|e] w2];
    [|cbn; intros [H|[H|[]]]; discriminate].
  destruct (rest_get env url user pass1 _ w2) as [[result|e] w3];
    [|cbn; intros [H|[H|[H|[]]]]; discriminate].
  assert (~ In (Yaml4Info group) (fst (check_inherits result))) as H1.
  { unfold check_inherits. destruct (py_in _ result) as [[|]|e]; [|intros []..].
    destruct (bind _ _) as [inherits|e]; [|intros []].
    destruct (differs_from_str _ _); [|intros []].
    cbn. intros [H|[H|[]]]; discriminate. }
  assert (~ In (Yaml4Info group) (fst (check_owner result))) as H2.
  { unfold check_owner. destruct (owner_rules result) as [owner|e].
    - destruct (iter owner); intros [].
    - cbn. intros [H|[]]; discriminate. }
  destruct (check_inherits result) as [ev1 [[]|e1]]; cbn [fst] in *.
  - destruct (check_owner result) as [ev2 [g|e2]]; cbn [fst] in *;
      rewrite !in_app_iff; intros [H|[H|H]]; try tauto;
      cbn in H; destruct H as [H|[H|[H|[]]]]; discriminate.
  - rewrite in_app_iff. intros [H|H]; [|tauto].
    cbn in H; destruct H as [H|[H|[H|[]]]]; discriminate.
Qed.

(** X30: the only LDAP group [create_info_file] ever asks for is
    [<umbrella>-gerrit-<project_dashed>-committers], built from its arguments:
    the group found in Gerrit's owner rules is never used, and with [--empty]
    LDAP is not asked at all. *)
Theorem ldap_group_ignores_gerrit {W : Type} (env : Env W)
  (gerrit_url gerrit_project directory : string) (empty : bool)
  (tsc_approval : string) (w : W) (group : string) :
  In (Yaml4Info group)
    (trace (create_info_file env gerrit_url gerrit_project directory empty
              tsc_approval w)) ->
  empty = false
  /\ exists umbrella,
      umbrella_of gerrit_url = Val umbrella
      /\ group
         = short_name umbrella ++ "-gerrit-" ++ project_dashed gerrit_project
           ++ "-committers".
Proof.
  unfold create_info_file.
  destruct (umbrella_of gerrit_url) as [umbrella|e]; [|intros []].
  cbn [bind]. destruct (umbrella_tld_of gerrit_url) as [umbrella_tld|e];
    [|intros []].
  cbn [bind].
  assert (forall w0,
             In (Yaml4Info group)
               (fst (fst (write_info env gerrit_project empty tsc_approval
                            umbrella umbrella_tld w0))) ->
             empty = false
             /\ group
                = short_name umbrella ++ "-gerrit-" ++ project_dashed gerrit_project
                  ++ "-committers") as Hw.
  { intros w0. unfold write_info. destruct (today env w0) as [date w1].
    destruct empty; cbn [negb].
    - cbn [fst]. rewrite in_app_iff. cbn.
      intros [H|H]; repeat (destruct H as [H|H]; [discriminate H|]); destruct H.
    - destruct (helper_yaml4info env _ w1) as [[this|e] w2]; cbn [fst];
        rewrite in_app_iff; cbn; intros [H|H];
        repeat (destruct H as [H|H];
                [first [discriminate H
                       |injection H as <-; split; [reflexivity|reflexivity]]|]);
        destruct H. }
  destruct empty; cbn [negb].
  - destruct (write_info env gerrit_project true tsc_approval umbrella
                umbrella_tld w) as [[ev' t] w2] eqn:E.
    cbn [trace]. intros H. specialize (Hw w). rewrite E in Hw.
    destruct (Hw H) as [Hf _]. discriminate.
  - pose proof (ask_gerrit_no_ldap env ("https://" ++ gerrit_url ++ "/" ++ directory)
                  (projectid_encoded gerrit_project) group w) as Hn.
    destruct (ask_gerrit env _ _ w) as [[ev [[]|e]] w1]; cbn [fst] in Hn.
    + destruct (write_info env gerrit_project false tsc_approval umbrella
                  umbrella_tld w1) as [[ev' t] w2] eqn:E.
      cbn [trace]. rewrite in_app_iff. intros [H|H]; [now elim Hn|].
      specialize (Hw w1). rewrite E in Hw. destruct (Hw H) as [_ Hg].
      split; [reflexivity|]. now exists umbrella.
    + cbn [trace]. intros H. now elim Hn.
Qed.

Lemma ldap_group_ignores_gerrit_witness :
  let r :=
    create_info_file
      (office (access_of "ldap:cn=some-other-group,ou=Groups,dc=example")
         (JStr "    - name: 'Ada'"))
      "gerrit.opendaylight.org" "releng/builder_x" "r" false "missing" tt in
  status r = Returns
  /\ In (Yaml4Info "odl-gerrit-releng-builder-x-committers") (trace r).
Proof.
  intros r. split; [reflexivity|].
  assert (exists group, In (Yaml4Info group) (trace r)) as [group H].
  { exists "odl-gerrit-releng-builder-x-committers". vm_compute. tauto. }
  destruct (ldap_group_ignores_gerrit _ _ _ _ _ _ _ _ H)
    as (_ & umbrella & Hu & ->).
  injection Hu as <-. exact H.
Defined.

End CreateInfoFileFacts.
